(** * jing-uninstall: the core modules, embedded and verified

    A shallow embedding of the non-UI core of the uninstaller
    (core/residue_scan.py, core/cleaner.py, core/scanner.py,
    core/uninstaller.py, utils/app_name_resolver.py) together with the
    properties its specification states about them.

    Python [str] values are modelled as [string], the UTF-8 bytes of the
    text: byte-wise lexicographic order on UTF-8 coincides with Python's
    code-point order, and the case operations below act on ASCII letters
    (bytes above 127 are left alone). *)

From Stdlib Require Import ZArith Ascii String List Bool Lia Sorting.Sorted Permutation DecimalString.
From stdpp Require Import base decidable option list gmap strings.

Local Open Scope string_scope.
Local Open Scope list_scope.
Local Set Warnings "-register-all".

(** ** Python string operations *)

Module PyStr.

Definition is_upper (c : ascii) : bool :=
  let n := nat_of_ascii c in (65 <=? n)%nat && (n <=? 90)%nat.

Definition is_lower (c : ascii) : bool :=
  let n := nat_of_ascii c in (97 <=? n)%nat && (n <=? 122)%nat.

Definition is_digit (c : ascii) : bool :=
  let n := nat_of_ascii c in (48 <=? n)%nat && (n <=? 57)%nat.

(** The characters [str.strip()] and [str.split()] treat as blank:
    space, \t, \n, \v, \f, \r. *)
Definition is_space (c : ascii) : bool :=
  let n := nat_of_ascii c in (n =? 32)%nat || ((9 <=? n)%nat && (n <=? 13)%nat).

Definition lower_char (c : ascii) : ascii :=
  if is_upper c then ascii_of_nat (nat_of_ascii c + 32) else c.

Definition upper_char (c : ascii) : ascii :=
  if is_lower c then ascii_of_nat (nat_of_ascii c - 32) else c.

Fixpoint map_chars (f : ascii -> ascii) (s : string) : string :=
  match s with
  | EmptyString => EmptyString
  | String c s' => String (f c) (map_chars f s')
  end.

(** [s.lower()] and [s.upper()] *)
Definition lower (s : string) : string := map_chars lower_char s.
Definition upper (s : string) : string := map_chars upper_char s.

(** [s.startswith(p)] *)
Fixpoint startswith (s p : string) : bool :=
  match p, s with
  | EmptyString, _ => true
  | String a p', String b s' => Ascii.eqb a b && startswith s' p'
  | String _ _, EmptyString => false
  end.

(** [sub in s] *)
Fixpoint contains (sub s : string) : bool :=
  startswith s sub ||
  match s with
  | EmptyString => false
  | String _ s' => contains sub s'
  end.

Fixpoint rev_acc (s acc : string) : string :=
  match s with
  | EmptyString => acc
  | String c s' => rev_acc s' (String c acc)
  end.

Definition rev (s : string) : string := rev_acc s EmptyString.

(** [s.endswith(p)] *)
Definition endswith (s p : string) : bool := startswith (rev s) (rev p).

(** [s.replace(old, new)] for a non-empty [old]: the occurrences are
    replaced left to right, without overlap.  [skip] counts the
    characters of a matched occurrence still to be dropped. *)
Fixpoint replace_from (old new s : string) (skip : nat) : string :=
  match s with
  | EmptyString => EmptyString
  | String c s' =>
      match skip with
      | S k => replace_from old new s' k
      | O =>
          if startswith s old
          then new +:+ replace_from old new s' (String.length old - 1)
          else String c (replace_from old new s' 0)
      end
  end.

Definition replace (s old new : string) : string := replace_from old new s 0.

(** [s.split(sep)] for a one-character separator: never empty. *)
Fixpoint split_acc (sep : ascii) (s cur : string) : list string :=
  match s with
  | EmptyString => [rev cur]
  | String c s' =>
      if Ascii.eqb c sep then rev cur :: split_acc sep s' EmptyString
      else split_acc sep s' (String c cur)
  end.

Definition split (s : string) (sep : ascii) : list string :=
  split_acc sep s EmptyString.

(** [s.split()]: runs of blanks separate, no empty fields. *)
Fixpoint split_ws_acc (s cur : string) : list string :=
  match s with
  | EmptyString => if String.eqb cur EmptyString then [] else [rev cur]
  | String c s' =>
      if is_space c
      then (if String.eqb cur EmptyString then split_ws_acc s' EmptyString
            else rev cur :: split_ws_acc s' EmptyString)
      else split_ws_acc s' (String c cur)
  end.

Definition split_ws (s : string) : list string := split_ws_acc s EmptyString.

Fixpoint lstrip (s : string) : string :=
  match s with
  | EmptyString => EmptyString
  | String c s' => if is_space c then lstrip s' else s
  end.

(** [s.strip()] *)
Definition strip (s : string) : string := rev (lstrip (rev (lstrip s))).

(** [s.title()]: a letter that follows a letter is lowered, any other
    letter is raised. *)
Fixpoint title_from (prev_cased : bool) (s : string) : string :=
  match s with
  | EmptyString => EmptyString
  | String c s' =>
      if is_upper c || is_lower c
      then String (if prev_cased then lower_char c else upper_char c)
                  (title_from true s')
      else String c (title_from false s')
  end.

Definition title (s : string) : string := title_from false s.

Fixpoint all_chars (p : ascii -> bool) (s : string) : bool :=
  match s with
  | EmptyString => true
  | String c s' => p c && all_chars p s'
  end.

(** [s.isdigit()]: non-empty and made of digits. *)
Definition isdigit (s : string) : bool :=
  negb (String.eqb s EmptyString) && all_chars is_digit s.

Fixpoint int_acc (s : string) (acc : Z) : Z :=
  match s with
  | EmptyString => acc
  | String c s' => int_acc s' (10 * acc + Z.of_nat (nat_of_ascii c - 48))%Z
  end.

(** [int(s)] on a string of digits. *)
Definition int (s : string) : Z := int_acc s 0%Z.

(** The newline character. *)
Definition nl : string := String "010" EmptyString.

(** [sep.join(parts)] *)
Fixpoint join (sep : string) (parts : list string) : string :=
  match parts with
  | [] => EmptyString
  | [p] => p
  | p :: ps => p +:+ sep +:+ join sep ps
  end.

End PyStr.

(** ** The filesystem as a tree

    What a path denotes, as the scanners observe it through [os.walk],
    [os.path.isfile], [os.path.islink] and [os.path.getsize]. *)

Module Fs.

Inductive node : Type :=
| Reg (st_size : option Z)
    (** a regular file; [None] when reading its size raises *)
| Special (st_size : option Z)
    (** a fifo, socket or device *)
| Symlink (target : option node)
    (** a symbolic link and what it points to; [None] when dangling *)
| Dir (entries : list (string * node))
    (** a directory and its entries, in the order [scandir] lists them *)
| DirDenied.
    (** a directory whose listing is refused *)

(** Following links, as [os.stat] does. *)
Fixpoint resolve (n : node) : option node :=
  match n with
  | Symlink None => None
  | Symlink (Some t) => resolve t
  | _ => Some n
  end.

(** [os.path.exists] *)
Definition exists_ (n : node) : bool :=
  match resolve n with Some _ => true | None => false end.

(** [os.path.islink] *)
Definition islink (n : node) : bool :=
  match n with Symlink _ => true | _ => false end.

(** [os.path.isfile] *)
Definition isfile (n : node) : bool :=
  match resolve n with Some (Reg _) => true | _ => false end.

(** [os.path.isdir], also [DirEntry.is_dir()] *)
Definition isdir (n : node) : bool :=
  match resolve n with Some (Dir _ | DirDenied) => true | _ => false end.

(** [os.path.getsize]; [None] when it raises.  The scanners only ask
    for the size of entries that are not directories. *)
Definition getsize (n : node) : option Z :=
  match resolve n with
  | Some (Reg sz) | Some (Special sz) => sz
  | _ => None
  end.

(** [os.path.join(root, name)] for an entry name. *)
Definition join (root name : string) : string :=
  if String.eqb root "" then name
  else if PyStr.endswith root "/" then root +:+ name
  else root +:+ "/" +:+ name.

(** One step of [os.walk]: the directory's path, its sub-directories
    and its other entries.  Entries keep their node, so that the
    caller's [os.path] queries on [join root name] are answered. *)
Definition walk_item : Type :=
  string * list (string * node) * list (string * node).

(** [os.walk(top, followlinks=False)] below a directory node, top-down:
    links to directories are listed among the directories and not
    entered; a listing error ends that branch silently. *)
Fixpoint walk (top : string) (n : node) : list walk_item :=
  match n with
  | Dir entries =>
      (top,
       filter (fun e => isdir (snd e)) entries,
       filter (fun e => negb (isdir (snd e))) entries)
      :: flat_map (fun e =>
           if isdir (snd e) && negb (islink (snd e))
           then walk (join top (fst e)) (snd e)
           else []) entries
  | _ => []
  end.

(** [os.walk(top)]: [top] itself is entered even when it is a link. *)
Definition os_walk (top : string) (n : node) : list walk_item :=
  match resolve n with
  | Some d => walk top d
  | None => []
  end.

End Fs.

(** ** core/residue_scan.py *)

Module ResidueScan.
Import Fs.

Inductive ResidueType : Type := CONFIG | LOG | CACHE | DATA | OTHER.

(** [ResidueType.value] *)
Definition value (t : ResidueType) : string :=
  match t with
  | CONFIG => "配置文件"
  | LOG => "日志文件"
  | CACHE => "缓存文件"
  | DATA => "数据文件"
  | OTHER => "其他"
  end.

(** [ResidueFile]; [size_str] is [_format_size size], a rendering that
    goes through floating point and is left out. *)
Record ResidueFile : Type := {
  path : string;
  size : Z;
  type : ResidueType;
  is_selected : bool;
  is_safe_to_delete : bool
}.

(** [ResidueScanner.SCAN_PATHS], in the order of the dict; [home] is
    the user's home directory. *)
Definition SCAN_PATHS (home : string) : list (string * list string) :=
  [ ("system_config", ["/etc"]);
    ("system_log", ["/var/log"]);
    ("system_data", ["/var/lib"; "/opt"]);
    ("user_config", [home +:+ "/.config"]);
    ("user_cache", [home +:+ "/.cache"]);
    ("user_data", [home +:+ "/.local/share"; home +:+ "/.local/state"]);
    ("usr_local", ["/usr/local"]) ].

(** [ResidueScanner._generate_keywords]: the name variants, then
    [list(set(keywords))].  The order of the resulting list is the
    set's, which Python leaves unspecified. *)
Definition keyword_variants (package_name : string) : list string :=
  let keywords := [package_name] in
  let keywords := keywords ++ [PyStr.replace package_name "-" ""] in
  let keywords := keywords ++ [PyStr.replace package_name "_" ""] in
  let keywords := keywords ++ [PyStr.lower package_name] in
  let keywords := keywords ++ [PyStr.upper package_name] in
  let display_name := PyStr.replace (PyStr.replace package_name "-" " ") "_" " " in
  let keywords := keywords ++ [display_name] in
  let keywords := keywords ++ [PyStr.lower display_name] in
  let keywords := keywords ++ [PyStr.upper display_name] in
  keywords.

Definition _generate_keywords (package_name : string) : list string :=
  elements (list_to_set (keyword_variants package_name) : gset string).

(** [ResidueScanner._is_match] *)
Definition _is_match (keywords : list string) (name : string) : bool :=
  let name_lower := PyStr.lower name in
  existsb (fun keyword => PyStr.contains (PyStr.lower keyword) name_lower) keywords.

(** [ResidueScanner._get_residue_type] *)
Definition _get_residue_type (category path : string) : ResidueType :=
  let path_lower := PyStr.lower path in
  if PyStr.contains "config" category || PyStr.contains "/etc/" path
     || PyStr.contains ".config" path then CONFIG
  else if PyStr.contains "log" category || PyStr.contains "/log/" path
          || PyStr.endswith path_lower ".log" then LOG
  else if PyStr.contains "cache" category || PyStr.contains "/cache/" path then CACHE
  else if PyStr.contains "data" category then DATA
  else OTHER.

(** [ResidueScanner._is_safe_to_delete]: after the deny-list every
    branch answers [True]. *)
Definition _is_safe_to_delete (category path : string) : bool :=
  let unsafe_paths := ["/etc/systemd"; "/etc/init.d"; "/etc/rc"; "/usr/local/bin"] in
  if existsb (fun unsafe => PyStr.startswith path unsafe) unsafe_paths then false
  else true.

(** The inner [try] of [_get_dir_size]: what one file name adds. *)
Definition file_contribution (n : node) : Z :=
  if isfile n && negb (islink n) then
    match getsize n with
    | Some sz => sz
    | None => 0      (* except: pass *)
    end
  else 0.

(** The loop of [_get_dir_size] over an [os.walk] sequence. *)
Definition sum_walk (items : list walk_item) : Z :=
  fold_left (fun total_size item =>
    fold_left (fun total_size e => total_size + file_contribution (snd e))%Z
              (snd item) total_size)
    items 0%Z.

(** [ResidueScanner._get_dir_size] of the node at [dir_path] *)
Definition _get_dir_size (dir_path : string) (n : node) : Z :=
  sum_walk (os_walk dir_path n).

(** The body of [_scan_path] for one triple of the walk: matching
    directory names first, then matching file names. *)
Definition scan_item (keywords : list string) (category : string)
    (item : walk_item) : list ResidueFile :=
  let '(root, dirs, files) := item in
  flat_map (fun e =>
    let '(dir_name, n) := e in
    if _is_match keywords dir_name then
      let dir_path := join root dir_name in
      [ {| path := dir_path;
           size := _get_dir_size dir_path n;
           type := _get_residue_type category dir_path;
           is_selected := true;
           is_safe_to_delete := _is_safe_to_delete category dir_path |} ]
    else []) dirs
  ++
  flat_map (fun e =>
    let '(file_name, n) := e in
    if _is_match keywords file_name then
      let file_path := join root file_name in
      let size := match getsize n with Some sz => sz | None => 0%Z end in
      [ {| path := file_path;
           size := size;
           type := _get_residue_type category file_path;
           is_selected := true;
           is_safe_to_delete := _is_safe_to_delete category file_path |} ]
    else []) files.

(** [ResidueScanner._scan_path]: the entries appended to
    [self.residue_files]. *)
Definition _scan_path (keywords : list string) (base_path : string)
    (n : node) (category : string) : list ResidueFile :=
  flat_map (scan_item keywords category) (os_walk base_path n).

(** Python's [<] on the sort key [(x.type.value, x.path)]. *)
Definition sort_key (x : ResidueFile) : string * string := (value (type x), path x).

Definition key_lt (a b : string * string) : bool :=
  String.ltb (fst a) (fst b)
  || (String.eqb (fst a) (fst b) && String.ltb (snd a) (snd b)).

(** [list.sort(key=...)]: a stable sort that compares keys with [<]. *)
Fixpoint insert_sorted (x : ResidueFile) (l : list ResidueFile) : list ResidueFile :=
  match l with
  | [] => [x]
  | y :: l' =>
      if key_lt (sort_key y) (sort_key x) then y :: insert_sorted x l'
      else x :: l
  end.

Fixpoint sort (l : list ResidueFile) : list ResidueFile :=
  match l with
  | [] => []
  | x :: l' => insert_sorted x (sort l')
  end.

(** [ResidueScanner.scan]; [fs] tells what each scan root denotes
    ([None] when nothing is there). *)
Definition scan (home : string) (fs : string -> option node)
    (package_name : string) : list ResidueFile :=
  let keywords := _generate_keywords package_name in
  let residue_files :=
    flat_map (fun '(category, paths) =>
      flat_map (fun path =>
        match fs path with
        | Some n => if exists_ n then _scan_path keywords path n category else []
        | None => []
        end) paths) (SCAN_PATHS home) in
  sort residue_files.

End ResidueScan.

(** ** The operating system, as the core calls it

    Everything the core learns about the machine comes through a handful
    of calls ([os.path.*], [os.remove], [shutil.rmtree], [os.listdir],
    [os.stat], [open], [subprocess.run]).  [Os W] is that interface over
    an arbitrary world state [W]; the code is a function of it. *)

Module Py.

Inductive exn_kind : Type :=
| PermissionError | FileNotFoundError | OSError | TimeoutExpired | TypeError | ValueError.

(** An exception: its class and [str(e)]. *)
Record exn : Type := { kind : exn_kind; message : string }.

Inductive res (A : Type) : Type :=
| Ok (a : A)
| Raise (e : exn).
Arguments Ok {A} a.
Arguments Raise {A} e.

(** [subprocess.CompletedProcess] *)
Record CompletedProcess : Type := {
  returncode : Z;
  stdout : string;
  stderr : string
}.

(** The fields of [os.stat_result] the core reads; [st_mtime] in
    whole seconds. *)
Record stat_result : Type := { st_size : Z; st_mtime : Z }.

Class Os (W : Type) : Type := {
  path_exists : string -> W -> bool;
  path_isfile : string -> W -> bool;
  path_islink : string -> W -> bool;
  path_isdir : string -> W -> bool;
  (** [os.access(path, os.W_OK)] *)
  access_W_OK : string -> W -> bool;
  os_listdir : string -> W -> res (list string);
  os_stat : string -> W -> res stat_result;
  (** [open(path).readlines()], taken as one step *)
  readlines : string -> W -> res (list string);
  os_remove : string -> W -> res unit * W;
  shutil_rmtree : string -> W -> res unit * W;
  (** [subprocess.run(argv, capture_output=True, timeout=t)] *)
  subprocess_run : list string -> Z -> W -> res CompletedProcess * W
}.

(** What the code does to the outside, in order. *)
Inductive event : Type :=
| Progress (message : string) (percent : Z)   (** the progress callback *)
| Error (message : string)                    (** the error callback *)
| Remove (path : string)                      (** [os.remove] *)
| Rmtree (path : string)                      (** [shutil.rmtree] *)
| Run (argv : list string).                   (** [subprocess.run] *)

Section Monad.
Context {W : Type} `{Os W}.

(** A computation: from a world to a result or an exception, the
    world after, and the events emitted on the way. *)
Definition M (A : Type) : Type := W -> res A * W * list event.

Definition ret {A} (a : A) : M A := fun w => (Ok a, w, []).

Definition raise {A} (e : exn) : M A := fun w => (Raise e, w, []).

Definition bind {A B} (m : M A) (f : A -> M B) : M B :=
  fun w =>
    match m w with
    | (Ok a, w', t) => let '(r, w'', t') := f a w' in (r, w'', t ++ t')
    | (Raise e, w', t) => (Raise e, w', t)
    end.

(** [try: m  except ...: h e] — an exception raised by the handler
    itself is not caught again. *)
Definition try_except {A} (m : M A) (h : exn -> M A) : M A :=
  fun w =>
    match m w with
    | (Ok a, w', t) => (Ok a, w', t)
    | (Raise e, w', t) => let '(r, w'', t') := h e w' in (r, w'', t ++ t')
    end.

Definition query {A} (q : W -> A) : M A := fun w => (Ok (q w), w, []).

Definition query_res {A} (q : W -> res A) : M A := fun w => (q w, w, []).

Definition emit (e : event) : M unit := fun w => (Ok tt, w, [e]).

Definition remove (path : string) : M unit :=
  fun w => let '(r, w') := os_remove path w in (r, w', [Remove path]).

Definition rmtree (path : string) : M unit :=
  fun w => let '(r, w') := shutil_rmtree path w in (r, w', [Rmtree path]).

Definition run (argv : list string) (timeout : Z) : M CompletedProcess :=
  fun w => let '(r, w') := subprocess_run argv timeout w in (r, w', [Run argv]).

(** [_report_progress] and [_report_error]: what a registered
    callback receives. *)
Definition _report_progress (message : string) (percent : Z) : M unit :=
  emit (Progress message percent).

Definition _report_error (message : string) : M unit :=
  emit (Error message).

End Monad.

Declare Scope py_scope.
Delimit Scope py_scope with py.
Notation "'let*' x := m 'in' k" := (bind m (fun x => k))
  (at level 10, x name, m at level 100, k at level 200) : py_scope.
Notation "'let*' ' p := m 'in' k" := (bind m (fun x => match x with p => k end))
  (at level 10, p pattern, m at level 100, k at level 200) : py_scope.

(** [str(n)] for a count. *)
Definition str_nat (n : nat) : string := NilZero.string_of_uint (Nat.to_uint n).

End Py.

(** ** core/cleaner.py *)

Module Cleaner.
Import Py ResidueScan.
Local Open Scope py_scope.

Section Cleaner.
Context {W : Type} `{Os W}.

(** [int((i / total_files) * 100)], a floating-point computation,
    is a parameter of the model. *)
Variable percent_of : nat -> nat -> Z.

Definition pkexec_rm (flag path : string) : M (option bool) :=
  let* result := run ["pkexec"; "rm"; flag; path] 30 in
  ret (Some (returncode result =? 0)%Z).

(** [Cleaner._delete_path]; [None] is the value of a call that falls
    off the end of the function. *)
Definition _delete_path (path : string) : M (option bool) :=
  try_except
    (let* ex := query (path_exists path) in
     if negb ex then ret (Some true)
     else
       let* isf := query (path_isfile path) in
       let* isl := query (path_islink path) in
       if isf || isl then
         let* wr := query (access_W_OK path) in
         if wr then let* _ := remove path in ret (Some true)
         else pkexec_rm "-f" path
       else
         let* isd := query (path_isdir path) in
         if isd then
           let* wr := query (access_W_OK path) in
           if wr then let* _ := rmtree path in ret (Some true)
           else pkexec_rm "-rf" path
         else ret None)
    (fun e =>
       match kind e with
       | PermissionError =>
           let* isf := query (path_isfile path) in
           if isf then pkexec_rm "-f" path
           else pkexec_rm "-rf" path
       | _ => ret (Some false)
       end).

(** The truth value of what [_delete_path] returned. *)
Definition truthy (r : option bool) : bool :=
  match r with Some b => b | None => false end.

(** The body of the [for] loop of [clean], with its own [try]. *)
Definition clean_step (total_files : nat) (i : nat) (residue_file : ResidueFile)
    (acc : nat * Z) : M (nat * Z) :=
  let '(deleted_files, deleted_size) := acc in
  try_except
    (let percent := percent_of i total_files in
     let* _ := _report_progress ("正在删除：" +:+ path residue_file) percent in
     let* r := _delete_path (path residue_file) in
     if truthy r then ret (S deleted_files, (deleted_size + size residue_file)%Z)
     else let* _ := _report_error ("无法删除：" +:+ path residue_file) in ret acc)
    (fun e =>
       let* _ := _report_error ("删除失败 " +:+ path residue_file +:+ ": " +:+ message e) in
       ret acc).

Fixpoint clean_loop (total_files : nat) (i : nat) (selected_files : list ResidueFile)
    (acc : nat * Z) : M (nat * Z) :=
  match selected_files with
  | [] => ret acc
  | residue_file :: rest =>
      let* acc' := clean_step total_files i residue_file acc in
      clean_loop total_files (S i) rest acc'
  end.

(** [Cleaner.clean] *)
Definition clean (files : list ResidueFile) : M (bool * nat * Z) :=
  let selected_files := filter (fun f => is_selected f) files in
  let total_files := length selected_files in
  if (total_files =? 0)%nat then ret (true, 0%nat, 0%Z)
  else
    let* _ := _report_progress ("准备清理 " +:+ str_nat total_files +:+ " 个文件...") 0 in
    let* acc := clean_loop total_files 0 selected_files (0%nat, 0%Z) in
    let* _ := _report_progress "清理完成" 100 in
    ret (true, fst acc, snd acc).

End Cleaner.

End Cleaner.

(** ** core/scanner.py *)

Module Scanner.
Import Py.
Local Open Scope py_scope.

Inductive PackageSource : Type := APT | SNAP | FLATPAK | APPIMAGE.

Definition PackageSource_eqb (a b : PackageSource) : bool :=
  match a, b with
  | APT, APT | SNAP, SNAP | FLATPAK, FLATPAK | APPIMAGE, APPIMAGE => true
  | _, _ => false
  end.

(** The dataclass [Package] *)
Record Package : Type := {
  name : string;
  display_name : string;
  version : string;
  size : string;
  source : PackageSource;
  install_date : string;
  description : string;
  is_selected : bool
}.

(** The values passed to the constructor. *)
Inductive pyval : Type :=
| VStr (s : string)
| VSource (s : PackageSource)
| VBool (b : bool).

(** The parameters of the generated [Package.__init__]. *)
Definition Package_fields : list string :=
  ["name"; "display_name"; "version"; "size"; "source"; "install_date";
   "description"; "is_selected"].

Fixpoint kwarg (key : string) (kwargs : list (string * pyval)) : option pyval :=
  match kwargs with
  | [] => None
  | (k, v) :: rest => if String.eqb k key then Some v else kwarg key rest
  end.

(** [Package(name=..., ...)]: a keyword that is not a field of the
    dataclass is a [TypeError], and so is a missing field without a
    default ([is_selected] defaults to [False]). *)
Definition Package_init (kwargs : list (string * pyval)) : res Package :=
  match List.find (fun kv => negb (existsb (String.eqb (fst kv)) Package_fields)) kwargs with
  | Some (k, _) =>
      Raise {| kind := TypeError;
               message := "Package.__init__() got an unexpected keyword argument '"
                          +:+ k +:+ "'" |}
  | None =>
      match kwarg "name" kwargs, kwarg "display_name" kwargs, kwarg "version" kwargs,
            kwarg "size" kwargs, kwarg "source" kwargs, kwarg "install_date" kwargs,
            kwarg "description" kwargs with
      | Some (VStr n), Some (VStr d), Some (VStr v), Some (VStr sz),
        Some (VSource src), Some (VStr dt), Some (VStr desc) =>
          Ok {| name := n; display_name := d; version := v; size := sz;
                source := src; install_date := dt; description := desc;
                is_selected := match kwarg "is_selected" kwargs with
                               | Some (VBool b) => b
                               | _ => false
                               end |}
      | _, _, _, _, _, _, _ =>
          Raise {| kind := TypeError;
                   message := "Package.__init__() missing required arguments" |}
      end
  end.

(** [PackageScanner.SYSTEM_PACKAGES] *)
Definition SYSTEM_PACKAGES : gset string :=
  list_to_set
    [ "apt"; "dpkg"; "systemd"; "udev"; "dbus"; "polkit";
      "login"; "passwd"; "adduser"; "base-files"; "base-passwd";
      "xorg"; "xserver"; "wayland"; "mesa"; "libgl";
      "networkd"; "networkmanager"; "wpa-supplicant";
      "gdm"; "gdm3"; "lightdm"; "sddm";
      "gnome-core"; "gnome-shell"; "kde-plasma-desktop";
      "python3"; "python3-minimal"; "libpython3";
      "bash"; "coreutils"; "findutils"; "grep"; "gzip";
      "sed"; "tar"; "util-linux"; "lsb";
      "linux-firmware"; "amd64-microcode"; "intel-microcode";
      "grub"; "shim";
      "libc6"; "libstdc++"; "libgcc"; "openssl"; "ca-certificates" ].

(** [PackageScanner._format_package_name] *)
Definition _format_package_name (name : string) : string :=
  PyStr.title (PyStr.replace (PyStr.replace name "-" " ") "_" " ").

(** A [for] loop inside a [try] whose body may raise: the loop stops
    at the first exception and the accumulator keeps the value it had
    when the failing iteration began. *)
Fixpoint for_each {A B : Type} (body : A -> B -> res B) (l : list A) (acc : B)
    : B * option exn :=
  match l with
  | [] => (acc, None)
  | x :: l' =>
      match body x acc with
      | Ok acc' => for_each body l' acc'
      | Raise e => (acc, Some e)
      end
  end.

Definition append_package (packages : list Package) (kwargs : list (string * pyval))
    : res (list Package) :=
  match Package_init kwargs with
  | Ok p => Ok (packages ++ [p])
  | Raise e => Raise e
  end.

(** [PackageScanner.__init__]: the value of [self.skip_system_packages]
    for an argument that may be left out. *)
Definition init_skip_system_packages (arg : option bool) : bool :=
  match arg with
  | Some b => b
  | None => true
  end.

Section Scanner.
Context {W : Type} `{Os W}.

(** [_format_size] and [_timestamp_to_date] render through floating
    point and the local calendar; both are parameters. *)
Variable _format_size : Z -> string.
Variable _timestamp_to_date : Z -> string.

(** [self.skip_system_packages] *)
Variable skip_system_packages : bool.

(** One line of a dpkg log in [_get_install_dates_from_log]. *)
Definition install_date_line (line : string) (dates : gmap string string)
    : gmap string string :=
  if PyStr.contains " install " line then
    let parts := PyStr.split_ws (PyStr.strip line) in
    if (4 <=? length parts)%nat && String.eqb (nth 2 parts "") "install" then
      let date_str := nth 0 parts "" in
      let pkg_full := nth 3 parts "" in
      let pkg_name := nth 0 (PyStr.split pkg_full ":") "" in
      match dates !! pkg_name with
      | Some _ => dates
      | None => <[pkg_name := date_str]> dates
      end
    else dates
  else dates.

(** [PackageScanner._get_install_dates_from_log] *)
Definition _get_install_dates_from_log (w : W) : gmap string string :=
  fold_left (fun dates log_file =>
    if negb (path_exists log_file w) then dates
    else match readlines log_file w with
         | Ok lines => fold_left (fun d line => install_date_line line d) lines dates
         | Raise _ => dates
         end)
    ["/var/log/dpkg.log"; "/var/log/dpkg.log.1"] ∅.

(** The body of the loop of [_scan_apt] over the output lines. *)
Definition apt_line (install_dates : gmap string string) (line : string)
    (packages : list Package) : res (list Package) :=
  if String.eqb line "" then Ok packages
  else
    let parts := PyStr.split line "|" in
    if (4 <=? length parts)%nat then
      let name := nth 0 parts "" in
      let version := nth 1 parts "" in
      let size_kb := if PyStr.isdigit (nth 2 parts "") then PyStr.int (nth 2 parts "") else 0%Z in
      let status := nth 3 parts "" in
      if PyStr.contains "install ok installed" status then
        if skip_system_packages && bool_decide (name ∈ SYSTEM_PACKAGES) then Ok packages
        else
          let install_date := default "未知" (install_dates !! name) in
          append_package packages
            [ ("name", VStr name);
              ("display_name", VStr (_format_package_name name));
              ("version", VStr version);
              ("size", VStr (_format_size (size_kb * 1024)));
              ("source", VSource APT);
              ("install_date", VStr install_date);
              ("description", VStr "") ]
      else Ok packages
    else Ok packages.

(** [PackageScanner._scan_apt] *)
Definition _scan_apt : M (list Package) :=
  try_except
    (let* result := run ["dpkg-query"; "-W"; "-f";
                         "${Package}|${Version}|${Installed-Size}|${Status}" +:+ PyStr.nl] 60 in
     let* install_dates := query _get_install_dates_from_log in
     if (returncode result =? 0)%Z then
       let lines := PyStr.split (PyStr.strip (stdout result)) "010" in
       ret (fst (for_each (apt_line install_dates) lines []))
     else ret [])
    (fun _ => ret []).

Definition snap_line (line : string) (packages : list Package) : res (list Package) :=
  if String.eqb line "" then Ok packages
  else
    let parts := PyStr.split_ws line in
    if (3 <=? length parts)%nat then
      let name := nth 0 parts "" in
      let version := nth 1 parts "" in
      append_package packages
        [ ("name", VStr name);
          ("display_name", VStr (_format_package_name name));
          ("version", VStr version);
          ("size", VStr "未知");
          ("source", VSource SNAP);
          ("install_date", VStr "未知");
          ("description", VStr "") ]
    else Ok packages.

(** [PackageScanner._scan_snap] *)
Definition _scan_snap : M (list Package) :=
  try_except
    (let* result := run ["which"; "snap"] 5 in
     if negb (returncode result =? 0)%Z then ret []
     else
       let* result := run ["snap"; "list"] 30 in
       if (returncode result =? 0)%Z then
         let lines := PyStr.split (PyStr.strip (stdout result)) "010" in
         ret (fst (for_each snap_line (tl lines) []))
       else ret [])
    (fun _ => ret []).

Definition flatpak_line (line : string) (packages : list Package) : res (list Package) :=
  if String.eqb line "" then Ok packages
  else
    let parts := PyStr.split line "009" in
    if (1 <=? length parts)%nat then
      let name := nth 0 parts "" in
      let version := if (1 <? length parts)%nat then nth 1 parts "" else "未知" in
      append_package packages
        [ ("name", VStr name);
          ("display_name", VStr (_format_package_name name));
          ("version", VStr version);
          ("size", VStr "未知");
          ("source", VSource FLATPAK);
          ("install_date", VStr "未知");
          ("description", VStr "") ]
    else Ok packages.

(** [PackageScanner._scan_flatpak] *)
Definition _scan_flatpak : M (list Package) :=
  try_except
    (let* result := run ["which"; "flatpak"] 5 in
     if negb (returncode result =? 0)%Z then ret []
     else
       let* result := run ["flatpak"; "list"; "--app"; "--columns=application,version"] 30 in
       if (returncode result =? 0)%Z then
         let lines := PyStr.split (PyStr.strip (stdout result)) "010" in
         ret (fst (for_each flatpak_line lines []))
       else ret [])
    (fun _ => ret []).

(** The search paths of [_scan_appimage]; [home] is the user's home
    directory. *)
Definition appimage_search_paths (home : string) : list string :=
  [home +:+ "/Applications"; home +:+ "/.local/bin"; "/opt"].

(** The body of the inner loop of [_scan_appimage]: the call of
    [Package] carries the keyword [app_name]. *)
Definition appimage_entry (w : W) (search_path filename : string)
    (packages : list Package) : res (list Package) :=
  if PyStr.endswith (PyStr.lower filename) ".appimage" then
    let filepath := Fs.join search_path filename in
    match os_stat filepath w with
    | Raise e => Raise e
    | Ok stat_info =>
        append_package packages
          [ ("name", VStr filename);
            ("display_name",
             VStr (PyStr.replace (PyStr.replace filename ".AppImage" "") ".appimage" ""));
            ("app_name", VStr "");
            ("version", VStr "未知");
            ("size", VStr (_format_size (st_size stat_info)));
            ("source", VSource APPIMAGE);
            ("install_date", VStr (_timestamp_to_date (st_mtime stat_info)));
            ("description", VStr ("AppImage: " +:+ filepath)) ]
    end
  else Ok packages.

(** One search path: the [try] around the listing loop. *)
Definition appimage_dir (w : W) (packages : list Package) (search_path : string)
    : list Package :=
  if negb (path_exists search_path w) then packages
  else
    match os_listdir search_path w with
    | Raise _ => packages
    | Ok filenames => fst (for_each (appimage_entry w search_path) filenames packages)
    end.

(** [PackageScanner._scan_appimage] *)
Definition _scan_appimage (home : string) : M (list Package) :=
  query (fun w => fold_left (appimage_dir w) (appimage_search_paths home) []).

Definition In_sources (s : PackageSource) (sources : list PackageSource) : bool :=
  existsb (PackageSource_eqb s) sources.

(** [PackageScanner.scan_all]; [total_sources] and [completed] are
    computed by the code and never read. *)
Definition scan_all (home : string) (sources : option (list PackageSource))
    : M (list Package) :=
  let packages : list Package := [] in
  let sources := match sources with
                 | None => [APT; SNAP; FLATPAK; APPIMAGE]
                 | Some l => l
                 end in
  let total_sources := length sources in
  let* packages :=
    if In_sources APT sources then
      let* _ := _report_progress "正在扫描 APT 软件包..." 0 in
      let* apt_packages := _scan_apt in
      let packages := packages ++ apt_packages in
      let* _ := _report_progress
                  ("APT: " +:+ str_nat (length apt_packages) +:+ " 个软件") 25 in
      ret packages
    else ret packages in
  let* packages :=
    if In_sources SNAP sources then
      let* _ := _report_progress "正在扫描 Snap 软件包..." 25 in
      let* snap_packages := _scan_snap in
      let packages := packages ++ snap_packages in
      let* _ := _report_progress
                  ("Snap: " +:+ str_nat (length snap_packages) +:+ " 个软件") 50 in
      ret packages
    else ret packages in
  let* packages :=
    if In_sources FLATPAK sources then
      let* _ := _report_progress "正在扫描 Flatpak 软件包..." 50 in
      let* flatpak_packages := _scan_flatpak in
      let packages := packages ++ flatpak_packages in
      let* _ := _report_progress
                  ("Flatpak: " +:+ str_nat (length flatpak_packages) +:+ " 个软件") 75 in
      ret packages
    else ret packages in
  let* packages :=
    if In_sources APPIMAGE sources then
      let* _ := _report_progress "正在扫描 AppImage 文件..." 75 in
      let* appimage_packages := _scan_appimage home in
      let packages := packages ++ appimage_packages in
      let* _ := _report_progress
                  ("AppImage: " +:+ str_nat (length appimage_packages) +:+ " 个文件") 95 in
      ret packages
    else ret packages in
  let* _ := _report_progress
              ("扫描完成，共 " +:+ str_nat (length packages) +:+ " 个软件") 100 in
  ret packages.

End Scanner.

End Scanner.

(** ** core/uninstaller.py *)

Module Uninstaller.
Import Py Scanner.
Local Open Scope py_scope.

Section Uninstaller.
Context {W : Type} `{Os W}.

(** The body of the deletion loop of [force_remove_package], with
    its bare [except: pass]. *)
Definition force_remove_step (filepath : string) (deleted : nat) : M nat :=
  try_except
    (let* isf := query (path_isfile filepath) in
     if isf then
       let* _ := run ["pkexec"; "rm"; "-f"; filepath] 5 in
       ret (S deleted)
     else
       let* isd := query (path_isdir filepath) in
       if isd then
         let* listing := query_res (os_listdir filepath) in
         match listing with
         | [] =>
             let* _ := run ["pkexec"; "rmdir"; filepath] 5 in
             ret (S deleted)
         | _ :: _ => ret deleted
         end
       else ret deleted)
    (fun _ => ret deleted).

Fixpoint force_remove_loop (files : list string) (deleted : nat) : M nat :=
  match files with
  | [] => ret deleted
  | filepath :: rest =>
      let* deleted := force_remove_step filepath deleted in
      force_remove_loop rest deleted
  end.

(** [Uninstaller.force_remove_package] *)
Definition force_remove_package (package : Package) : M (bool * string) :=
  if negb (PackageSource_eqb (source package) APT) then
    ret (false, "强制卸载仅支持 APT 包")
  else
    try_except
      (let* _ := _report_progress ("正在强制移除 " +:+ name package +:+ "...") 20 in
       let* result := run ["dpkg"; "-L"; name package] 30 in
       let* _ :=
         if (returncode result =? 0)%Z then
           let files := PyStr.split (PyStr.strip (stdout result)) "010" in
           let* _ := _report_progress
                       ("发现 " +:+ str_nat (length files) +:+ " 个文件") 40 in
           let* deleted := force_remove_loop files 0 in
           _report_progress ("已删除 " +:+ str_nat deleted +:+ " 个文件") 70
         else ret tt in
       let* _ := run ["pkexec"; "dpkg"; "--remove"; "--force-remove-reinstreq";
                      name package] 30 in
       let* _ := _report_progress "强制卸载完成" 100 in
       ret (true, name package +:+ " 已强制移除"))
      (fun e => ret (false, "强制卸载失败：" +:+ message e)).

End Uninstaller.

End Uninstaller.

(** ** utils/app_name_resolver.py *)

Module AppNameResolver.
Import Py.
Local Open Scope py_scope.

(** The dict built by [_parse_desktop_file] *)
Record DesktopInfo : Type := {
  name : string;
  name_zh : string;
  exec : string;
  icon : string;
  filename : string
}.

(** A Python dict with string keys, in insertion order. *)
Definition dict (V : Type) : Type := list (string * V).

Fixpoint dict_get {V} (key : string) (d : dict V) : option V :=
  match d with
  | [] => None
  | (k, v) :: rest => if String.eqb k key then Some v else dict_get key rest
  end.

(** [d[key] = v]: an existing key keeps its place. *)
Fixpoint dict_set {V} (key : string) (v : V) (d : dict V) : dict V :=
  match d with
  | [] => [(key, v)]
  | (k, v0) :: rest =>
      if String.eqb k key then (k, v) :: rest else (k, v0) :: dict_set key v rest
  end.

(** The state of an [AppNameResolver] *)
Record Resolver : Type := {
  desktop_cache : dict DesktopInfo;
  name_cache : gmap string string;
  _initialized : bool
}.

(** [AppNameResolver.__init__] *)
Definition new : Resolver :=
  {| desktop_cache := []; name_cache := ∅; _initialized := false |}.

(** [os.path.basename] *)
Definition basename (p : string) : string :=
  List.last (PyStr.split p "/") "".

(** [line.split('=', 1)] on a line that contains ['=']. *)
Fixpoint split_once (s : string) (sep : ascii) : string * string :=
  match s with
  | EmptyString => (EmptyString, EmptyString)
  | String c s' =>
      if Ascii.eqb c sep then (EmptyString, s')
      else let '(k, v) := split_once s' sep in (String c k, v)
  end.

(** [s[:-n]] for [n <= len(s)] *)
Definition drop_last (n : nat) (s : string) : string :=
  String.substring 0 (String.length s - n) s.

Definition set_field (key value : string) (info : DesktopInfo) : DesktopInfo :=
  if String.eqb key "Name" then
    {| name := value; name_zh := name_zh info; exec := exec info;
       icon := icon info; filename := filename info |}
  else if String.eqb key "Name[zh_CN]" then
    {| name := name info; name_zh := value; exec := exec info;
       icon := icon info; filename := filename info |}
  else if String.eqb key "Exec" then
    match PyStr.split_ws value with
    | [] => info
    | exec_path :: _ =>
        {| name := name info; name_zh := name_zh info;
           exec := if PyStr.startswith exec_path "/" then exec_path
                   else basename exec_path;
           icon := icon info; filename := filename info |}
    end
  else if String.eqb key "Icon" then
    {| name := name info; name_zh := name_zh info; exec := exec info;
       icon := value; filename := filename info |}
  else info.

(** The loop of [_parse_desktop_file] over the lines of the file. *)
Fixpoint parse_lines (lines : list string) (in_section : bool) (info : DesktopInfo)
    : DesktopInfo :=
  match lines with
  | [] => info
  | line :: rest =>
      let line := PyStr.strip line in
      if String.eqb line "[Desktop Entry]" then parse_lines rest true info
      else if PyStr.startswith line "[" && in_section then info
      else if negb in_section then parse_lines rest in_section info
      else if PyStr.contains "=" line then
        let '(key, value) := split_once line "=" in
        parse_lines rest in_section (set_field (PyStr.strip key) (PyStr.strip value) info)
      else parse_lines rest in_section info
  end.

(** The first [Some] that [f] gives along a list: a [for] loop that
    returns from inside. *)
Fixpoint find_some {A B} (f : A -> option B) (l : list A) : option B :=
  match l with
  | [] => None
  | x :: l' => match f x with Some b => Some b | None => find_some f l' end
  end.

(** [info['name_zh'] or info['name']] *)
Definition shown_name (info : DesktopInfo) : string :=
  if String.eqb (name_zh info) "" then name info else name_zh info.

(** [s.replace('-', '').replace('_', '')] *)
Definition strip_separators (s : string) : string :=
  PyStr.replace (PyStr.replace s "-" "") "_" "".

Section Resolver.
Context {W : Type} `{Os W}.

(** [AppNameResolver._parse_desktop_file] *)
Definition _parse_desktop_file (filepath : string) (w : W) : option DesktopInfo :=
  match readlines filepath w with
  | Raise _ => None
  | Ok lines =>
      let info := parse_lines lines false
                    {| name := ""; name_zh := ""; exec := ""; icon := "";
                       filename := basename filepath |} in
      if String.eqb (name info) "" then None else Some info
  end.

Definition desktop_dirs (home : string) : list string :=
  ["/usr/share/applications"; "/usr/local/share/applications";
   home +:+ "/.local/share/applications"].

(** [AppNameResolver._build_desktop_cache] *)
Definition _build_desktop_cache (home : string) (w : W) (cache : dict DesktopInfo)
    : dict DesktopInfo :=
  fold_left (fun cache desktop_dir =>
    if negb (path_exists desktop_dir w) then cache
    else match os_listdir desktop_dir w with
         | Raise _ => cache
         | Ok filenames =>
             fold_left (fun cache fname =>
               if PyStr.endswith fname ".desktop" then
                 let filepath := Fs.join desktop_dir fname in
                 match _parse_desktop_file filepath w with
                 | Some desktop_info =>
                     let key := PyStr.lower (drop_last 8 fname) in
                     dict_set key desktop_info cache
                 | None => cache
                 end
               else cache) filenames cache
         end)
    (desktop_dirs home) cache.

(** [AppNameResolver._ensure_initialized] *)
Definition _ensure_initialized (home : string) (self : Resolver) : M Resolver :=
  if _initialized self then ret self
  else
    let* cache := query (fun w => _build_desktop_cache home w (desktop_cache self)) in
    ret {| desktop_cache := cache; name_cache := name_cache self;
           _initialized := true |}.

(** [AppNameResolver.refresh_cache] *)
Definition refresh_cache (home : string) (self : Resolver) : M Resolver :=
  let* cache := query (fun w => _build_desktop_cache home w []) in
  ret {| desktop_cache := cache; name_cache := ∅; _initialized := false |}.

(** Stage 1: the stripped identifier is a key of the cache. *)
Definition stage1 (self : Resolver) (pkg_name_lower : string) : option string :=
  shown_name <$> dict_get pkg_name_lower (desktop_cache self).

(** Stage 2: the first [.desktop] file listed by [dpkg -L] that
    parses; the whole stage sits in a bare [try ... except: pass]. *)
Definition first_desktop_file (files : list string) (w : W) : option DesktopInfo :=
  find_some (fun filepath =>
    if PyStr.endswith filepath ".desktop" then _parse_desktop_file filepath w
    else None) files.

Definition stage2 (package_name : string) : M (option string) :=
  try_except
    (let* result := run ["dpkg"; "-L"; package_name] 10 in
     if (returncode result =? 0)%Z then
       let files := PyStr.split (PyStr.strip (stdout result)) "010" in
       let* info := query (first_desktop_file files) in
       ret (shown_name <$> info)
     else ret None)
    (fun _ => ret None).

(** Stage 3: a key that equals the identifier once both are
    stripped, for identifiers of four characters or more. *)
Definition stage3 (self : Resolver) (pkg_name_lower : string) : option string :=
  if (4 <=? String.length pkg_name_lower)%nat then
    shown_name <$> (snd <$>
      List.find (fun kv => String.eqb pkg_name_lower (strip_separators (fst kv)))
                (desktop_cache self))
  else None.

(** Stage 4: containment either way, for three characters or more. *)
Definition stage4 (self : Resolver) (pkg_name_lower : string) : option string :=
  if (3 <=? String.length pkg_name_lower)%nat then
    shown_name <$> (snd <$>
      List.find (fun kv =>
                   let key_clean := strip_separators (fst kv) in
                   PyStr.contains pkg_name_lower key_clean
                   || PyStr.contains key_clean pkg_name_lower)
                (desktop_cache self))
  else None.

(** The formatted identifier of stage 5. *)
Definition formatted_name (package_name : string) : string :=
  PyStr.title (PyStr.replace (PyStr.replace package_name "-" " ") "_" " ").

(** Stage 5, first half: a desktop entry whose [Name] reads like the
    formatted identifier. *)
Definition stage5_entry (self : Resolver) (display_name : string) : option string :=
  shown_name <$> (snd <$>
    List.find (fun kv =>
                 let desktop_name :=
                   PyStr.replace (PyStr.replace (PyStr.lower (name (snd kv))) "-" " ") "_" "" in
                 String.eqb (PyStr.replace (PyStr.lower display_name) " " "") desktop_name)
              (desktop_cache self)).

(** [self.name_cache[package_name] = app_name; return app_name] *)
Definition remember (self : Resolver) (package_name app_name : string)
    : M (W := W) (string * Resolver) :=
  ret (app_name,
       {| desktop_cache := desktop_cache self;
          name_cache := <[package_name := app_name]> (name_cache self);
          _initialized := _initialized self |}).

(** [AppNameResolver.get_app_name] *)
Definition get_app_name (home : string) (self : Resolver) (package_name : string)
    : M (string * Resolver) :=
  let* self := _ensure_initialized home self in
  match name_cache self !! package_name with
  | Some app_name => ret (app_name, self)
  | None =>
      let pkg_name_lower := strip_separators (PyStr.lower package_name) in
      match stage1 self pkg_name_lower with
      | Some app_name => remember self package_name app_name
      | None =>
          let* found := stage2 package_name in
          match found with
          | Some app_name => remember self package_name app_name
          | None =>
              match stage3 self pkg_name_lower with
              | Some app_name => remember self package_name app_name
              | None =>
                  match stage4 self pkg_name_lower with
                  | Some app_name => remember self package_name app_name
                  | None =>
                      let display_name := formatted_name package_name in
                      match stage5_entry self display_name with
                      | Some app_name => remember self package_name app_name
                      | None => remember self package_name display_name
                      end
                  end
              end
          end
      end
  end.

End Resolver.

End AppNameResolver.

(** ** A small machine to run the code on

    A flat filesystem with permissions, scripted command output and an
    elevation prompt that is either granted or refused: an instance of
    [Os] on which the models above evaluate. *)

Module Sim.
Import Py.

Inductive file_kind : Type := KReg | KLinkToFile | KLinkToDir | KDir | KSpecial.

Record entry : Type := {
  ekind : file_kind;
  writable : bool;                 (** [os.access(path, W_OK)] *)
  unlink_error : option exn_kind;  (** what a direct deletion raises, if anything *)
  esize : Z;
  content : list string            (** the lines of a regular file *)
}.

Record world : Type := {
  files : list (string * entry);
  (** the answers of the commands that are not deletions *)
  commands : list (list string * res CompletedProcess);
  (** whether [pkexec] obtains the elevation *)
  elevated : bool
}.

Fixpoint lookup (p : string) (l : list (string * entry)) : option entry :=
  match l with
  | [] => None
  | (q, e) :: rest => if String.eqb q p then Some e else lookup p rest
  end.

Definition kind_is (f : file_kind -> bool) (p : string) (w : world) : bool :=
  match lookup p (files w) with Some e => f (ekind e) | None => false end.

(** [p] itself and everything below it. *)
Definition under (p q : string) : bool :=
  String.eqb q p || PyStr.startswith q (p +:+ "/").

Definition delete_tree (p : string) (w : world) : world :=
  {| files := filter (fun qe => negb (under p (fst qe))) (files w);
     commands := commands w; elevated := elevated w |}.

Definition delete_entry (p : string) (w : world) : world :=
  {| files := filter (fun qe => negb (String.eqb (fst qe) p)) (files w);
     commands := commands w; elevated := elevated w |}.

Definition child_name (p q : string) : option string :=
  if PyStr.startswith q (p +:+ "/") then
    let rest := String.substring (String.length p + 1) (String.length q) q in
    if PyStr.contains "/" rest || String.eqb rest "" then None else Some rest
  else None.

Definition listing (p : string) (w : world) : list string :=
  omap (fun qe => child_name p (fst qe)) (files w).

Definition oserror (k : exn_kind) (p : string) : exn :=
  {| kind := k; message := "[Errno] " +:+ p |}.

Definition direct_delete (del : string -> world -> world) (p : string) (w : world)
    : res unit * world :=
  match lookup p (files w) with
  | None => (Raise (oserror FileNotFoundError p), w)
  | Some e =>
      match unlink_error e with
      | Some k => (Raise (oserror k p), w)
      | None => (Ok tt, del p w)
      end
  end.

Definition exit_with (code : Z) : CompletedProcess :=
  {| returncode := code; stdout := ""; stderr := "" |}.

Fixpoint scripted (argv : list string) (l : list (list string * res CompletedProcess))
    : option (res CompletedProcess) :=
  match l with
  | [] => None
  | (a, r) :: rest => if bool_decide (a = argv) then Some r else scripted argv rest
  end.

Definition sim_run (argv : list string) (timeout : Z) (w : world)
    : res CompletedProcess * world :=
  match argv with
  | ["pkexec"; "rm"; flag; p] =>
      if elevated w then
        (Ok (exit_with 0), if String.eqb flag "-rf" then delete_tree p w else delete_entry p w)
      else (Ok (exit_with 126), w)
  | ["pkexec"; "rmdir"; p] =>
      if elevated w then
        match listing p w with
        | [] => (Ok (exit_with 0), delete_entry p w)
        | _ :: _ => (Ok (exit_with 1), w)
        end
      else (Ok (exit_with 126), w)
  | _ =>
      match scripted argv (commands w) with
      | Some r => (r, w)
      | None => (Raise (oserror FileNotFoundError (hd "" argv)), w)
      end
  end.

#[global] Instance sim_os : Os world := {|
  path_exists := kind_is (fun _ => true);
  path_isfile := kind_is (fun k => match k with KReg | KLinkToFile => true | _ => false end);
  path_islink := kind_is (fun k => match k with KLinkToFile | KLinkToDir => true | _ => false end);
  path_isdir := kind_is (fun k => match k with KDir | KLinkToDir => true | _ => false end);
  access_W_OK := fun p w =>
    match lookup p (files w) with Some e => writable e | None => false end;
  os_listdir := fun p w =>
    if kind_is (fun k => match k with KDir | KLinkToDir => true | _ => false end) p w
    then Ok (listing p w)
    else Raise (oserror OSError p);
  os_stat := fun p w =>
    match lookup p (files w) with
    | Some e => Ok {| st_size := esize e; st_mtime := 0 |}
    | None => Raise (oserror FileNotFoundError p)
    end;
  readlines := fun p w =>
    match lookup p (files w) with
    | Some e => Ok (content e)
    | None => Raise (oserror FileNotFoundError p)
    end;
  os_remove := direct_delete delete_entry;
  shutil_rmtree := direct_delete delete_tree;
  subprocess_run := sim_run
|}.

(** An ordinary entry of the given kind. *)
Definition plain (k : file_kind) (w : bool) : entry :=
  {| ekind := k; writable := w; unlink_error := None; esize := 0; content := [] |}.

End Sim.

(** ** What the specification says a directory weighs *)

Module DirSizeSpec.
Import Fs.

Definition Zsum (l : list Z) : Z := fold_right Z.add 0%Z l.




End DirSizeSpec.


(** ** core/residue_scan.py: the counters of a scanner *)

Module ResidueTotals.
Import ResidueScan.

(** [ResidueScanner.get_total_size] over [self.residue_files] *)
Definition get_total_size (residue_files : list ResidueFile) : Z :=
  fold_left (fun acc f => if is_selected f then (acc + size f)%Z else acc)
            residue_files 0%Z.

(** [ResidueScanner.get_selected_count] *)
Definition get_selected_count (residue_files : list ResidueFile) : nat :=
  fold_left (fun acc f => if is_selected f then S acc else acc) residue_files 0%nat.

(** [ResidueScanner.get_total_count] *)
Definition get_total_count (residue_files : list ResidueFile) : nat :=
  length residue_files.

End ResidueTotals.

(** ** core/scanner.py: queries on the scanned list *)

Module ScannerQueries.
Import Scanner.

(** [PackageScanner.search] over [self.packages] *)
Definition search (packages : list Package) (keyword : string) : list Package :=
  let keyword := PyStr.lower keyword in
  List.filter (fun pkg =>
                 PyStr.contains keyword (PyStr.lower (name pkg))
                 || PyStr.contains keyword (PyStr.lower (display_name pkg)))
              packages.

(** [PackageScanner.filter_by_source] *)
Definition filter_by_source (packages : list Package) (source0 : PackageSource)
    : list Package :=
  List.filter (fun pkg => PackageSource_eqb (source pkg) source0) packages.

End ScannerQueries.

(** ** core/uninstaller.py: removal through the package managers *)

Module Uninstall.
Import Py Scanner.
Local Open Scope py_scope.

(** [a or b] on strings *)
Definition str_or (a b : string) : string :=
  if String.eqb a "" then b else a.

(** The answer that the four removals build from the last command. *)
Definition removal_answer (package : Package) (result : CompletedProcess)
    : bool * string :=
  if (returncode result =? 0)%Z then (true, name package +:+ " 已成功卸载")
  else
    let error_msg := str_or (stderr result) (stdout result) in
    (false, "卸载失败：" +:+ error_msg).

Section Uninstall.
Context {W : Type} `{Os W}.

(** [Uninstaller._run_pkexec_command] *)
Definition _run_pkexec_command (cmd : list string) : M CompletedProcess :=
  let pkexec_cmd := "pkexec" :: cmd in
  run pkexec_cmd 300.

(** [Uninstaller._uninstall_apt] *)
Definition _uninstall_apt (package : Package) (force : bool) : M (bool * string) :=
  let* _ := _report_progress ("正在停止 " +:+ name package +:+ " 相关服务...") 10 in
  let* _ := try_except
              (let* _ := run ["pkexec"; "systemctl"; "stop"; name package] 10 in ret tt)
              (fun _ => ret tt) in
  let* result :=
    if force then
      let* _ := _report_progress ("正在强制卸载 " +:+ name package +:+ "...") 30 in
      _run_pkexec_command ["apt"; "remove"; "--purge"; "-y"; name package]
    else
      let* _ := _report_progress ("正在卸载 " +:+ name package +:+ "...") 30 in
      _run_pkexec_command ["apt"; "remove"; "-y"; name package] in
  let* _ := _report_progress "正在清理依赖..." 80 in
  let* _ := _run_pkexec_command ["apt"; "autoremove"; "-y"] in
  let* _ := _report_progress "卸载完成" 100 in
  ret (removal_answer package result).

(** [Uninstaller._uninstall_snap] *)
Definition _uninstall_snap (package : Package) (force : bool) : M (bool * string) :=
  let* _ := _report_progress ("正在卸载 " +:+ name package +:+ "...") 30 in
  let* result := _run_pkexec_command ["snap"; "remove"; name package] in
  let* _ := _report_progress "卸载完成" 100 in
  ret (removal_answer package result).

(** [Uninstaller._uninstall_flatpak] *)
Definition _uninstall_flatpak (package : Package) (force : bool) : M (bool * string) :=
  let* _ := _report_progress ("正在卸载 " +:+ name package +:+ "...") 30 in
  let cmd := ["flatpak"; "uninstall"; "-y"; name package] in
  let* result := run cmd 300 in
  let* result :=
    if negb (returncode result =? 0)%Z then
      _run_pkexec_command ["flatpak"; "uninstall"; "-y"; name package]
    else ret result in
  let* _ := _report_progress "卸载完成" 100 in
  ret (removal_answer package result).

(** [Uninstaller._uninstall_appimage] *)
Definition _uninstall_appimage (package : Package) (force : bool) : M (bool * string) :=
  let* _ := _report_progress ("正在删除 " +:+ name package +:+ "...") 30 in
  let filepath := PyStr.replace (description package) "AppImage: " "" in
  let* ex := query (path_exists filepath) in
  if ex then
    try_except
      (let* _ := remove filepath in
       let* _ := _report_progress "卸载完成" 100 in
       ret (true, name package +:+ " 已成功删除"))
      (fun e =>
         match kind e with
         | PermissionError =>
             let* result := _run_pkexec_command ["rm"; "-f"; filepath] in
             let* _ := _report_progress "卸载完成" 100 in
             if (returncode result =? 0)%Z then ret (true, name package +:+ " 已成功删除")
             else ret (false, "删除失败：" +:+ stderr result)
         | _ => raise e
         end)
  else ret (false, "文件不存在：" +:+ filepath).

(** [Uninstaller.uninstall] *)
Definition uninstall (package : Package) (force : bool) : M (bool * string) :=
  try_except
    (match source package with
     | APT => _uninstall_apt package force
     | SNAP => _uninstall_snap package force
     | FLATPAK => _uninstall_flatpak package force
     | APPIMAGE => _uninstall_appimage package force
     end)
    (fun e =>
       let error_msg := "卸载失败：" +:+ message e in
       let* _ := _report_error error_msg in
       ret (false, error_msg)).

End Uninstall.
End Uninstall.

(** ** core/cleaner.py: the single deletion *)

Module CleanSingle.
Import Py Cleaner.

Section CleanSingle.
Context {W : Type} `{Os W}.

(** [Cleaner.clean_single] *)
Definition clean_single (path : string) : M (option bool) := _delete_path path.

End CleanSingle.
End CleanSingle.

(** ** utils/app_name_resolver.py: the batch lookup *)

Module ResolverBatch.
Import Py AppNameResolver.
Local Open Scope py_scope.

Section Batch.
Context {W : Type} `{Os W}.

(** The first loop of [get_app_names_batch]: the names already in the
    memo go to [results], the others to [to_resolve]. *)
Fixpoint split_cached (self : Resolver) (package_names : list string)
    (results : gmap string string) (to_resolve : list string)
    : gmap string string * list string :=
  match package_names with
  | [] => (results, to_resolve)
  | name :: rest =>
      match name_cache self !! name with
      | Some app_name => split_cached self rest (<[name := app_name]> results) to_resolve
      | None => split_cached self rest results (to_resolve ++ [name])
      end
  end.

(** The second loop: [results[name] = self.get_app_name(name)]. *)
Fixpoint resolve_all (home : string) (self : Resolver) (to_resolve : list string)
    (results : gmap string string) : M (gmap string string * Resolver) :=
  match to_resolve with
  | [] => ret (results, self)
  | name :: rest =>
      let* '(app_name, self) := get_app_name home self name in
      resolve_all home self rest (<[name := app_name]> results)
  end.

(** [AppNameResolver.get_app_names_batch] *)
Definition get_app_names_batch (home : string) (self : Resolver)
    (package_names : list string) : M (gmap string string * Resolver) :=
  let* self := _ensure_initialized home self in
  let '(results, to_resolve) := split_cached self package_names ∅ [] in
  resolve_all home self to_resolve results.

End Batch.
End ResolverBatch.

(** ** ui/main_window.py: the callers of the core

    The window runs the core in worker threads.  The signals a thread
    emits are events here: [Progress] for [progress_cb] and for
    [progress_update], [Error] for [error_cb]. *)

Module MainWindow.
Import Py Scanner.
Local Open Scope py_scope.

(** [PackageSource.value] *)
Definition PackageSource_value (s : PackageSource) : string :=
  match s with
  | APT => "APT"
  | SNAP => "Snap"
  | FLATPAK => "Flatpak"
  | APPIMAGE => "AppImage"
  end.

(** [MainWindow._filter_packages]: the loop over [self.packages];
    [search_input] is the text of the search box and [source_text] the
    entry chosen in the source box. *)
Fixpoint filter_loop (search_text source_text : string) (packages filtered : list Package)
    : list Package :=
  match packages with
  | [] => filtered
  | package :: rest =>
      if negb (String.eqb source_text "全部来源")
         && negb (String.eqb (PackageSource_value (source package)) source_text)
      then filter_loop search_text source_text rest filtered
      else if negb (String.eqb search_text "")
              && (negb (PyStr.contains search_text (PyStr.lower (name package)))
                  && negb (PyStr.contains search_text (PyStr.lower (display_name package))))
      then filter_loop search_text source_text rest filtered
      else filter_loop search_text source_text rest (filtered ++ [package])
  end.

Definition _filter_packages (packages : list Package) (search_input source_text : string)
    : list Package :=
  let search_text := PyStr.lower search_input in
  filter_loop search_text source_text packages [].

(** [progress_cb] of [ScanThread.run]: every tenth report and the
    reports at 100 are passed on. *)
Definition progress_cb (_progress_counter : nat) (msg : string) (pct : Z)
    : nat * list event :=
  let _progress_counter := S _progress_counter in
  (_progress_counter,
   if (_progress_counter mod 10 =? 0)%nat || (pct =? 100)%Z
   then [Progress msg pct] else []).

(** The reports of a run seen through [progress_cb]. *)
Fixpoint throttled (_progress_counter : nat) (t : list event) : list event :=
  match t with
  | [] => []
  | Progress msg pct :: t' =>
      let '(counter, out) := progress_cb _progress_counter msg pct in
      out ++ throttled counter t'
  | e :: t' => e :: throttled _progress_counter t'
  end.

Section Window.
Context {W : Type} `{Os W}.

(** An object whose callbacks were never set: its reports reach
    nobody. *)
Definition without_callbacks {A} (m : M (W := W) A) : M (W := W) A :=
  fun w =>
    match m w with
    | (r, w', t) =>
        (r, w', List.filter (fun e => match e with
                                      | Progress _ _ | Error _ => false
                                      | _ => true
                                      end) t)
    end.


Variable _format_size : Z -> string.
Variable _timestamp_to_date : Z -> string.

(** [ScanThread.run], of a thread made for the window's scanner, which
    skips the system packages; the value is what [scan_complete]
    carries. *)
Definition ScanThread_run (home : string) : M (list Package) :=
  fun w =>
    match scan_all _format_size _timestamp_to_date true home None w with
    | (packages, w', t) => (packages, w', throttled 0 t)
    end.

(** [int(i / len(selected) * 100)], a floating-point computation. *)
Variable percent_of : nat -> nat -> Z.

(** The loop of [uninstall_task] and of [force_uninstall_task]:
    [label] is the text put before the display name and [act] the
    call of the uninstaller, whose own callbacks are not set. *)
Fixpoint task_loop (label : string) (act : Package -> M (bool * string))
    (total : nat) (i : nat) (selected : list Package) : M unit :=
  match selected with
  | [] => ret tt
  | pkg :: rest =>
      let* _ := emit (Progress (label +:+ display_name pkg +:+ "...")
                               (percent_of i total)) in
      let* '(success, msg) := without_callbacks (act pkg) in
      let* _ := if negb success then emit (Error msg) else ret tt in
      task_loop label act total (S i) rest
  end.

(** [uninstall_task] of [MainWindow._uninstall_selected] *)
Definition uninstall_task (selected : list Package) : M string :=
  let* _ := task_loop "正在卸载 " (fun pkg => Uninstall.uninstall pkg false)
                      (length selected) 0 selected in
  ret "卸载完成".

(** [force_uninstall_task] of [MainWindow._force_uninstall_selected] *)
Definition force_uninstall_task (selected : list Package) : M string :=
  let* _ := task_loop "正在强制卸载 "
              (fun pkg =>
                 if PackageSource_eqb (source pkg) APT
                 then Uninstaller.force_remove_package pkg
                 else Uninstall.uninstall pkg true)
              (length selected) 0 selected in
  ret "强制卸载完成".


End Window.
End MainWindow.
(** * The statements, in the terms of the model *)

(** ** Residue scanner *)

Module KeywordSpec.
Import ResidueScan.

(** The claim, read on ["foo-bar"]: no duplicates, the three variants,
    and the upper and lower form of each of them. *)
Definition closed_over_case_variants (keywords : list string) : Prop :=
  NoDup keywords /\
  forall v, v ∈ ["foo-bar"; "foobar"; "foo bar"] ->
    v ∈ keywords /\ PyStr.upper v ∈ keywords /\ PyStr.lower v ∈ keywords.

End KeywordSpec.

Module WalkSums.
Import Fs ResidueScan DirSizeSpec.
Local Open Scope Z_scope.



End WalkSums.

Module ScanSpec.
Import ResidueScan.

(** [a] does not come after [b]: Python's [not (key b < key a)]. *)
Definition key_le (a b : ResidueFile) : Prop :=
  key_lt (sort_key b) (sort_key a) = false.

End ScanSpec.

(** ** Cleaner *)

Module CleanerSpec.
Import Py ResidueScan Cleaner.

(** The events that touch the filesystem. *)
Definition is_os_event (e : event) : Prop :=
  match e with
  | Remove _ | Rmtree _ | Run _ => True
  | Progress _ _ | Error _ => False
  end.

(** The elevated commands among the events. *)
Definition escalations (t : list event) : list (list string) :=
  omap (fun e => match e with
                 | Run ("pkexec" :: argv) => Some argv
                 | _ => None
                 end) t.

(** The "deleting ..." reports among the events: one per attempt. *)
Definition deleting_reports (t : list event) : list string :=
  omap (fun e => match e with
                 | Progress m _ =>
                     if PyStr.startswith m "正在删除：" then Some m else None
                 | _ => None
                 end) t.

(** What the error callback received. *)
Definition error_reports (t : list event) : list string :=
  omap (fun e => match e with Error m => Some m | _ => None end) t.

Section Retry.
Context {W : Type} `{Os W}.

(** The retry after a [PermissionError]: one elevated [rm]. *)
Definition retry (path : string) (w : W) : res (option bool) * W * list event :=
  let flag := if path_isfile path w then "-f" else "-rf" in
  match subprocess_run ["pkexec"; "rm"; flag; path] 30 w with
  | (Ok result, w') =>
      (Ok (Some (returncode result =? 0)%Z), w', [Run ["pkexec"; "rm"; flag; path]])
  | (Raise e, w') => (Raise e, w', [Run ["pkexec"; "rm"; flag; path]])
  end.

End Retry.

End CleanerSpec.

(** ** Inventory scan *)

Module InventorySpec.
Import Py Scanner.

(** The percentages the progress callback received. *)
Definition progress_percents (t : list event) : list Z :=
  omap (fun e => match e with Progress _ p => Some p | _ => None end) t.

(** The fixed marks [scan_all] reports, by requested source. *)
Definition marks (sources : list PackageSource) : list Z :=
  ((if In_sources APT sources then [0; 25] else [])
   ++ (if In_sources SNAP sources then [25; 50] else [])
   ++ (if In_sources FLATPAK sources then [50; 75] else [])
   ++ (if In_sources APPIMAGE sources then [75; 95] else [])
   ++ [100])%Z.

Definition requested (sources : option (list PackageSource)) : list PackageSource :=
  match sources with
  | None => [APT; SNAP; FLATPAK; APPIMAGE]
  | Some l => l
  end.

(** A package that the policy drops: from APT, and on the list. *)
Definition is_system_apt (p : Package) : bool :=
  PackageSource_eqb (source p) APT && bool_decide (name p ∈ SYSTEM_PACKAGES).

(** An output line of [dpkg-query] that [_scan_apt] takes for an
    installed package. *)
Definition listed_installed (line : string) : bool :=
  negb (String.eqb line "")
  && (4 <=? length (PyStr.split line "|"))%nat
  && PyStr.contains "install ok installed" (nth 3 (PyStr.split line "|") "").

Definition dpkg_query : list string :=
  ["dpkg-query"; "-W"; "-f";
   "${Package}|${Version}|${Installed-Size}|${Status}" +:+ PyStr.nl].

Section Scanned.
Context {W : Type} `{Os W}.

(** What a requested scan leaves: its packages and the world after. *)
Definition scanned (wanted : bool) (m : M (list Package)) (w : W)
    : list Package * W :=
  if wanted then
    match m w with
    | (Ok l, w', _) => (l, w')
    | (Raise _, w', _) => ([], w')
    end
  else ([], w).

End Scanned.

End InventorySpec.

(** ** Forced removal *)

Module ForceRemoveSpec.
Import Py Scanner Uninstaller.

(** The command that takes the package out of the dpkg database. *)
Definition deregister (package : Package) : list string :=
  ["pkexec"; "dpkg"; "--remove"; "--force-remove-reinstreq"; name package].

(** A command that returned counts as a deletion, whatever its exit
    status; one that raised does not. *)
Definition counted (r : res CompletedProcess) : nat :=
  match r with
  | Ok _ => 1
  | Raise _ => 0
  end.

(** The whole run on an APT package whose listing was obtained. *)
Definition forced_run (package : Package) (files : list string)
    (t : list event) (deleted : nat) (r : res CompletedProcess)
    : res (bool * string) * list event :=
  (Ok (match r with
       | Ok _ => (true, name package +:+ " 已强制移除")
       | Raise e => (false, "强制卸载失败：" +:+ message e)
       end),
   [ Progress ("正在强制移除 " +:+ name package +:+ "...") 20;
     Run ["dpkg"; "-L"; name package];
     Progress ("发现 " +:+ str_nat (length files) +:+ " 个文件") 40 ]
   ++ t
   ++ [ Progress ("已删除 " +:+ str_nat deleted +:+ " 个文件") 70;
        Run (deregister package) ]
   ++ match r with
      | Ok _ => [Progress "强制卸载完成" 100]
      | Raise _ => []
      end).

(** What the scenario of the specification reports: two paths found,
    one elevated [rm -f] for the file, nothing for the directory, one
    deletion counted, the package taken out of the database. *)
Definition scenario_events (package : Package) (f : string) : list event :=
  [ Progress ("正在强制移除 " +:+ name package +:+ "...") 20;
    Run ["dpkg"; "-L"; name package];
    Progress "发现 2 个文件" 40;
    Run ["pkexec"; "rm"; "-f"; f];
    Progress "已删除 1 个文件" 70;
    Run (deregister package);
    Progress "强制卸载完成" 100 ].

Section Removal.
Context {W : Type} `{Os W}.

(** The deletion pass as the specification words it, path by path and
    the world moving along: a regular file gets its own elevated
    [rm -f]; a directory gets an elevated [rmdir] only when its listing
    is empty; a directory that holds something, or that cannot be
    listed, and a path that is neither, get nothing. *)
Inductive removal : list string -> W -> list event -> nat -> W -> Prop :=
| removal_done w :
    removal [] w [] 0 w
| removal_file p ps w r w1 t n w2 :
    path_isfile p w = true ->
    subprocess_run ["pkexec"; "rm"; "-f"; p] 5 w = (r, w1) ->
    removal ps w1 t n w2 ->
    removal (p :: ps) w (Run ["pkexec"; "rm"; "-f"; p] :: t) (counted r + n) w2
| removal_empty_dir p ps w r w1 t n w2 :
    path_isfile p w = false ->
    path_isdir p w = true ->
    os_listdir p w = Ok [] ->
    subprocess_run ["pkexec"; "rmdir"; p] 5 w = (r, w1) ->
    removal ps w1 t n w2 ->
    removal (p :: ps) w (Run ["pkexec"; "rmdir"; p] :: t) (counted r + n) w2
| removal_untouched p ps w t n w2 :
    path_isfile p w = false ->
    (path_isdir p w = false
     \/ (exists x l, os_listdir p w = Ok (x :: l))
     \/ (exists e, os_listdir p w = Raise e)) ->
    removal ps w t n w2 ->
    removal (p :: ps) w t n w2.

End Removal.

End ForceRemoveSpec.

(** ** Name resolver *)

Module ResolverSpec.
Import Py AppNameResolver.
Local Open Scope py_scope.

Section Spec.
Context {W : Type} `{Os W}.

(** Stages tried in order; the first that answers wins, and the
    fallback is the last resort. *)
Fixpoint first_match (stages : list (M (W := W) (option string))) (fallback : string)
    : M (W := W) string :=
  match stages with
  | [] => ret fallback
  | stage :: rest =>
      let* found := stage in
      match found with
      | Some app_name => ret app_name
      | None => first_match rest fallback
      end
  end.

(** Stage 3 as the claim words it: a key whose stripped form equals the
    stripped identifier, whatever the length of the identifier. *)
Definition stage3_unbounded (self : Resolver) (pkg_name_lower : string)
    : option string :=
  shown_name <$> (snd <$>
    List.find (fun kv => String.eqb pkg_name_lower (strip_separators (fst kv)))
              (desktop_cache self)).

(** A resolution by a list of stages, memoized per identifier. *)
Definition resolution (stages : Resolver -> string -> list (M (W := W) (option string)))
    (home : string) (self : Resolver) (package_name : string)
    : M (string * Resolver) :=
  let* self := _ensure_initialized home self in
  match name_cache self !! package_name with
  | Some app_name => ret (app_name, self)
  | None =>
      let* app_name := first_match (stages self package_name)
                                   (formatted_name package_name) in
      remember self package_name app_name
  end.

(** The five stages of the claim: the formatted identifier comes right
    after the containment stage. *)
Definition claimed_stages (self : Resolver) (package_name : string)
    : list (M (W := W) (option string)) :=
  let pkg_name_lower := strip_separators (PyStr.lower package_name) in
  [ ret (stage1 self pkg_name_lower);
    stage2 package_name;
    ret (stage3_unbounded self pkg_name_lower);
    ret (stage4 self pkg_name_lower) ].

(** The stages of the code: stage 3 asks for four characters, and a
    desktop entry named like the formatted identifier is looked for
    before the formatted identifier is returned. *)
Definition amended_stages (self : Resolver) (package_name : string)
    : list (M (W := W) (option string)) :=
  let pkg_name_lower := strip_separators (PyStr.lower package_name) in
  [ ret (stage1 self pkg_name_lower);
    stage2 package_name;
    ret (stage3 self pkg_name_lower);
    ret (stage4 self pkg_name_lower);
    ret (stage5_entry self (formatted_name package_name)) ].

(** The name a call returned. *)
Definition answer (r : res (string * Resolver) * W * list event) : option string :=
  match r with
  | (Ok (app_name, _), _, _) => Some app_name
  | (Raise _, _, _) => None
  end.

End Spec.
End ResolverSpec.

(** ** Machines and trees to run the code on *)

Module Samples.
Import Py Fs Scanner ForceRemoveSpec InventorySpec.
Local Open Scope Z_scope.



(** A socket left behind in a cache directory, writable by the user. *)
Definition socket_world : Sim.world :=
  {| Sim.files := [ ("/home/u/.cache/app", Sim.plain Sim.KDir true);
                    ("/home/u/.cache/app/app.sock", Sim.plain Sim.KSpecial true) ];
     Sim.commands := [];
     Sim.elevated := true |}.

(** Scenario 3: the package ships one program and one directory that
    also holds a file of another package. *)
Definition tool : Package :=
  {| name := "tool"; display_name := "Tool"; version := "1.0"; size := "0 B";
     source := APT; install_date := "未知"; description := ""; is_selected := true |}.

Definition tool_world : Sim.world :=
  {| Sim.files := [ ("/usr/bin/tool", Sim.plain Sim.KReg false);
                    ("/usr/share/tool", Sim.plain Sim.KDir false);
                    ("/usr/share/tool/other.dat", Sim.plain Sim.KReg false) ];
     Sim.commands :=
       [ (["dpkg"; "-L"; "tool"],
          Ok {| returncode := 0;
                stdout := "/usr/bin/tool" +:+ PyStr.nl +:+ "/usr/share/tool" +:+ PyStr.nl;
                stderr := "" |});
         (deregister tool, Ok (Sim.exit_with 0)) ];
     Sim.elevated := true |}.

(** A desktop directory with one entry, [a_b.desktop], named Alpha. *)
Definition short_name_world : Sim.world :=
  {| Sim.files :=
       [ ("/usr/share/applications", Sim.plain Sim.KDir false);
         ("/usr/share/applications/a_b.desktop",
          {| Sim.ekind := Sim.KReg; Sim.writable := false; Sim.unlink_error := None;
             Sim.esize := 30;
             Sim.content := ["[Desktop Entry]"; "Name=Alpha"; "Exec=/usr/bin/alpha %U"] |}) ];
     Sim.commands := [];
     Sim.elevated := false |}.

(** A desktop directory with one entry, [zz.desktop], whose [Name] is
    "ab" and whose Chinese name is given. *)
Definition named_entry_world : Sim.world :=
  {| Sim.files :=
       [ ("/usr/share/applications", Sim.plain Sim.KDir false);
         ("/usr/share/applications/zz.desktop",
          {| Sim.ekind := Sim.KReg; Sim.writable := false; Sim.unlink_error := None;
             Sim.esize := 30;
             Sim.content := ["[Desktop Entry]"; "Name=ab"; "Name[zh_CN]=甲乙"] |}) ];
     Sim.commands := [];
     Sim.elevated := false |}.

(** A desktop directory with the entry of a browser, which has a second
    section after the main one. *)
Definition firefox_world : Sim.world :=
  {| Sim.files :=
       [ ("/usr/share/applications", Sim.plain Sim.KDir false);
         ("/usr/share/applications/firefox-esr.desktop",
          {| Sim.ekind := Sim.KReg; Sim.writable := false; Sim.unlink_error := None;
             Sim.esize := 60;
             Sim.content := [ "[Desktop Entry]"; "Name=Firefox ESR";
                              "Name[zh_CN]=Firefox 网络浏览器";
                              "Exec=firefox-esr %u"; "[Desktop Action new]";
                              "Name=New Window" ] |}) ];
     Sim.commands := [];
     Sim.elevated := false |}.

(** Scenario 1: a configuration directory and a cache directory named
    after the package. *)
Definition testapp_fs (p : string) : option Fs.node :=
  if String.eqb p "/home/u/.config" then
    Some (Fs.Dir [("testapp", Fs.Dir [("config.ini", Fs.Reg (Some 12%Z))]);
                  ("other", Fs.Dir [("x", Fs.Reg (Some 5%Z))])])
  else if String.eqb p "/home/u/.cache" then
    Some (Fs.Dir [("TestApp", Fs.Dir [("blob", Fs.Reg (Some 100%Z))])])
  else None.

(** Scenario 2: [dpkg-query] lists ["base-files"], an editor and a
    package that is no longer installed. *)
Definition dpkg_output : CompletedProcess :=
  {| returncode := 0;
     stdout := "base-files|12.4|400|install ok installed" +:+ PyStr.nl
               +:+ "vim|2:9.0|3000|install ok installed" +:+ PyStr.nl
               +:+ "libold|1.0|10|deinstall ok config-files" +:+ PyStr.nl;
     stderr := "" |}.

Definition dpkg_world : Sim.world :=
  {| Sim.files := [];
     Sim.commands :=
       [ (InventorySpec.dpkg_query, Ok dpkg_output);
         (["which"; "snap"], Ok (Sim.exit_with 1));
         (["which"; "flatpak"], Ok (Sim.exit_with 1)) ];
     Sim.elevated := false |}.

Definition no_format (n : Z) : string := "".

(** A batch where three deletions out of four fail: a file that goes, a
    file whose removal raises an I/O error, a socket, and a file of
    root's while the elevation is refused; a fifth file is not
    selected. *)
Definition failing_world : Sim.world :=
  {| Sim.files :=
       [ ("/home/u/.cache/app/a", Sim.plain Sim.KReg true);
         ("/home/u/.cache/app/b",
          {| Sim.ekind := Sim.KReg; Sim.writable := true;
             Sim.unlink_error := Some OSError; Sim.esize := 0; Sim.content := [] |});
         ("/home/u/.cache/app/app.sock", Sim.plain Sim.KSpecial true);
         ("/etc/app.conf", Sim.plain Sim.KReg false);
         ("/home/u/.cache/app/keep", Sim.plain Sim.KReg true) ];
     Sim.commands := [];
     Sim.elevated := false |}.

Definition residue (p : string) (sz : Z) (selected : bool) : ResidueScan.ResidueFile :=
  {| ResidueScan.path := p; ResidueScan.size := sz; ResidueScan.type := ResidueScan.CACHE;
     ResidueScan.is_selected := selected; ResidueScan.is_safe_to_delete := true |}.

Definition failing_batch : list ResidueScan.ResidueFile :=
  [ residue "/home/u/.cache/app/a" 10 true;
    residue "/home/u/.cache/app/b" 20 true;
    residue "/home/u/.cache/app/app.sock" 0 true;
    residue "/etc/app.conf" 30 true;
    residue "/home/u/.cache/app/keep" 40 false ].

End Samples.


(** ** Further properties: what they speak of *)

Module ExtraSpec.
Import Py.

(** Strings on which the model of [lower], [upper] and [title] is
    Python's: ASCII only. *)
Definition is_ascii (s : string) : bool :=
  PyStr.all_chars (fun c => (nat_of_ascii c <? 128)%nat) s.

(** An event that acts on [path]: its direct deletion or an elevated
    [rm] of it. *)
Definition concerns (path : string) (e : event) : Prop :=
  e = Remove path \/ e = Rmtree path
  \/ e = Run ["pkexec"; "rm"; "-f"; path] \/ e = Run ["pkexec"; "rm"; "-rf"; path].

(** A call of one of the two callbacks. *)
Definition is_report (e : event) : Prop :=
  match e with
  | Progress _ _ | Error _ => True
  | _ => False
  end.

(** The commands among the events. *)
Definition commands (t : list event) : list (list string) :=
  omap (fun e => match e with Run argv => Some argv | _ => None end) t.

(** The events of a batch: reports, and events on the path of one of
    the entries. *)
Definition on_selected (selected : list ResidueScan.ResidueFile) (e : event) : Prop :=
  is_report e \/ exists f, In f selected /\ concerns (ResidueScan.path f) e.

(** Two entries that differ at most by their kind and safety mark. *)
Definition same_target (f g : ResidueScan.ResidueFile) : Prop :=
  ResidueScan.path f = ResidueScan.path g
  /\ ResidueScan.size f = ResidueScan.size g
  /\ ResidueScan.is_selected f = ResidueScan.is_selected g.

(** A step of the walk of one of the scan roots. *)
Definition listed (home : string) (fs : string -> option Fs.node)
    (item : Fs.walk_item) : Prop :=
  exists category paths base n,
    In (category, paths) (ResidueScan.SCAN_PATHS home) /\ In base paths
    /\ fs base = Some n /\ Fs.exists_ n = true
    /\ In item (Fs.os_walk base n).

(** An entry [name] that such a step lists in the directory [root]. *)
Definition walked (home : string) (fs : string -> option Fs.node)
    (root name : string) : Prop :=
  exists dirs files m,
    listed home fs (root, dirs, files) /\ In (name, m) (dirs ++ files).

(** The four forms of a lower-cased identifier that a name is searched
    for. *)
Definition effective_keywords (lowered : string) : list string :=
  [ lowered;
    PyStr.replace lowered "-" "";
    PyStr.replace lowered "_" "";
    PyStr.replace (PyStr.replace lowered "-" " ") "_" " " ].

(** The commands of the inventory scan: every one of them only reads. *)
Definition query_commands : list (list string) :=
  [ InventorySpec.dpkg_query;
    ["which"; "snap"]; ["snap"; "list"];
    ["which"; "flatpak"];
    ["flatpak"; "list"; "--app"; "--columns=application,version"] ].

Definition is_query (e : event) : Prop :=
  exists argv, e = Run argv /\ In argv query_commands.

(** The record that a line of a dpkg log holds: the package and the
    date. *)
Definition install_record (line : string) : option (string * string) :=
  if PyStr.contains " install " line then
    let parts := PyStr.split_ws (PyStr.strip line) in
    if (4 <=? length parts)%nat && String.eqb (nth 2 parts "") "install"
    then Some (nth 0 (PyStr.split (nth 3 parts "") ":") "", nth 0 parts "")
    else None
  else None.

(** The date of the first record of [pkg] along the lines. *)
Fixpoint first_date (pkg : string) (lines : list string) : option string :=
  match lines with
  | [] => None
  | line :: rest =>
      match install_record line with
      | Some (p, d) => if String.eqb p pkg then Some d else first_date pkg rest
      | None => first_date pkg rest
      end
  end.

(** The file that the removal of an AppImage deletes. *)
Definition appimage_path (package : Scanner.Package) : string :=
  PyStr.replace (Scanner.description package) "AppImage: " "".

(** The commands of a removal, in the order they are run. *)
Definition removal_commands (package : Scanner.Package) (force : bool)
    : list (list string) :=
  let name := Scanner.name package in
  match Scanner.source package with
  | Scanner.APT =>
      [ ["pkexec"; "systemctl"; "stop"; name];
        if force then ["pkexec"; "apt"; "remove"; "--purge"; "-y"; name]
        else ["pkexec"; "apt"; "remove"; "-y"; name];
        ["pkexec"; "apt"; "autoremove"; "-y"] ]
  | Scanner.SNAP => [ ["pkexec"; "snap"; "remove"; name] ]
  | Scanner.FLATPAK =>
      [ ["flatpak"; "uninstall"; "-y"; name];
        ["pkexec"; "flatpak"; "uninstall"; "-y"; name] ]
  | Scanner.APPIMAGE => [ ["pkexec"; "rm"; "-f"; appimage_path package] ]
  end.

(** The paths deleted directly. *)
Definition deletions (t : list event) : list string :=
  omap (fun e => match e with
                 | Remove p | Rmtree p => Some p
                 | _ => None
                 end) t.

(** The writes of [_build_desktop_cache], in order: a key and an entry
    for every [.desktop] file that parses. *)
Definition dict_sets {V} (ops : list (string * V)) (d : AppNameResolver.dict V)
    : AppNameResolver.dict V :=
  fold_left (fun d kv => AppNameResolver.dict_set (fst kv) (snd kv) d) ops d.

(** The removal of an APT package together with its configuration. *)
Definition is_purge (e : event) : Prop :=
  exists rest, e = Run ("pkexec" :: "apt" :: "remove" :: "--purge" :: rest).

(** The messages that the progress callback received. *)
Definition progress_messages (t : list event) : list string :=
  omap (fun e => match e with Progress m _ => Some m | _ => None end) t.

(** Of a stream of percentages, those that [progress_cb] of the scan
    thread passes on: every tenth and each 100. *)
Fixpoint passed_on (counter : nat) (percents : list Z) : list Z :=
  match percents with
  | [] => []
  | pct :: rest =>
      (if (S counter mod 10 =? 0)%nat || (pct =? 100)%Z then [pct] else [])
      ++ passed_on (S counter) rest
  end.

(** The last entry written under [key], if any. *)
Fixpoint last_set {V} (key : string) (ops : list (string * V)) : option V :=
  match ops with
  | [] => None
  | (k, v) :: rest =>
      match last_set key rest with
      | Some v' => Some v'
      | None => if String.eqb k key then Some v else None
      end
  end.

Section Logs.
Context {W : Type} `{Os W}.

(** The lines that the scan reads from a log: none when the file is
    missing or cannot be read. *)
Definition log_lines (log_file : string) (w : W) : list string :=
  if path_exists log_file w then
    match readlines log_file w with
    | Ok lines => lines
    | Raise _ => []
    end
  else [].

(** What [_build_desktop_cache] writes: for each directory that is
    there and can be listed, a key and an entry for every [.desktop]
    file that parses. *)
Definition desktop_ops (home : string) (w : W)
    : list (string * AppNameResolver.DesktopInfo) :=
  flat_map (fun desktop_dir =>
    if negb (path_exists desktop_dir w) then []
    else match os_listdir desktop_dir w with
         | Raise _ => []
         | Ok filenames =>
             omap (fun fname =>
               if PyStr.endswith fname ".desktop" then
                 match AppNameResolver._parse_desktop_file
                         (Fs.join desktop_dir fname) w with
                 | Some desktop_info =>
                     Some (PyStr.lower (AppNameResolver.drop_last 8 fname), desktop_info)
                 | None => None
                 end
               else None) filenames
         end) (AppNameResolver.desktop_dirs home).

End Logs.

End ExtraSpec.

Module ExtraSamples.
Import Py Scanner.
Local Open Scope Z_scope.

(** A file in a directory the user may not write to: its removal raises
    [PermissionError], and the elevation is granted. *)
Definition denied_world : Sim.world :=
  {| Sim.files :=
       [ ("/opt/app/data.bin",
          {| Sim.ekind := Sim.KReg; Sim.writable := true;
             Sim.unlink_error := Some PermissionError; Sim.esize := 8; Sim.content := [] |}) ];
     Sim.commands := [];
     Sim.elevated := true |}.

(** The failing batch with every entry marked unsafe and of another
    kind. *)
Definition unsafe_batch : list ResidueScan.ResidueFile :=
  map (fun f => {| ResidueScan.path := ResidueScan.path f;
                   ResidueScan.size := ResidueScan.size f;
                   ResidueScan.type := ResidueScan.CONFIG;
                   ResidueScan.is_selected := ResidueScan.is_selected f;
                   ResidueScan.is_safe_to_delete := false |})
      Samples.failing_batch.

(** A cache directory named after the package that holds a log named
    after it too. *)
Definition nested_fs (p : string) : option Fs.node :=
  if String.eqb p "/home/u/.cache" then
    Some (Fs.Dir [("app", Fs.Dir [("app.log", Fs.Reg (Some 7))])])
  else None.

(** Two dpkg logs: the current one and the rotated, older one. *)
Definition log_world : Sim.world :=
  {| Sim.files :=
       [ ("/var/log/dpkg.log",
          {| Sim.ekind := Sim.KReg; Sim.writable := false; Sim.unlink_error := None;
             Sim.esize := 100;
             Sim.content :=
               [ "2024-03-01 10:00:00 status installed vim:amd64 2:9.0";
                 "2024-03-02 11:00:00 install vim:amd64 <none> 2:9.0";
                 "2024-03-05 12:00:00 install vim:amd64 2:9.0 2:9.1" ] |});
         ("/var/log/dpkg.log.1",
          {| Sim.ekind := Sim.KReg; Sim.writable := false; Sim.unlink_error := None;
             Sim.esize := 100;
             Sim.content :=
               [ "2024-01-15 09:00:00 install vim:amd64 <none> 2:8.2";
                 "2024-01-16 09:00:00 install curl:amd64 <none> 8.5" ] |}) ];
     Sim.commands := [];
     Sim.elevated := false |}.

(** An editor of APT whose removal succeeds while the clean-up of the
    dependencies after it runs out of time. *)
Definition vim : Package :=
  {| name := "vim"; display_name := "Vim"; version := "2:9.0"; size := "3.0 MB";
     source := APT; install_date := "2024-03-02"; description := "";
     is_selected := true |}.

Definition autoremove_timeout_world : Sim.world :=
  {| Sim.files := [];
     Sim.commands :=
       [ (["pkexec"; "systemctl"; "stop"; "vim"], Ok (Sim.exit_with 5));
         (["pkexec"; "apt"; "remove"; "-y"; "vim"], Ok (Sim.exit_with 0));
         (["pkexec"; "apt"; "autoremove"; "-y"],
          Raise {| kind := TimeoutExpired;
                   message := "Command timed out after 300 seconds" |}) ];
     Sim.elevated := true |}.

(** A package that lists its program and a socket, on a machine where
    the elevation is refused: [pkexec] exits with 126 and changes
    nothing. *)
Definition refused_world : Sim.world :=
  {| Sim.files := [ ("/usr/bin/tool", Sim.plain Sim.KReg false);
                    ("/run/tool.sock", Sim.plain Sim.KSpecial false) ];
     Sim.commands :=
       [ (["dpkg"; "-L"; "tool"],
          Ok {| returncode := 0;
                stdout := "/usr/bin/tool" +:+ PyStr.nl +:+ "/run/tool.sock" +:+ PyStr.nl;
                stderr := "" |});
         (ForceRemoveSpec.deregister Samples.tool, Ok (Sim.exit_with 126)) ];
     Sim.elevated := false |}.

(** The browser's entry with a header before the main section, the
    header of the main section given twice, and a second section. *)
Definition firefox_repeated_world : Sim.world :=
  {| Sim.files :=
       [ ("/usr/share/applications", Sim.plain Sim.KDir false);
         ("/usr/share/applications/firefox-esr.desktop",
          {| Sim.ekind := Sim.KReg; Sim.writable := false; Sim.unlink_error := None;
             Sim.esize := 80;
             Sim.content := [ "[Preamble]"; "Name=Ignored";
                              "[Desktop Entry]"; "Name=Firefox ESR";
                              "[Desktop Entry]";
                              "Name[zh_CN]=Firefox 网络浏览器";
                              "Exec=firefox-esr %u"; "[Desktop Action new]";
                              "Name=New Window" ] |}) ];
     Sim.commands := [];
     Sim.elevated := false |}.

(** The browser's entry cut down to its main section. *)
Definition firefox_main_world : Sim.world :=
  {| Sim.files :=
       [ ("/usr/share/applications", Sim.plain Sim.KDir false);
         ("/usr/share/applications/firefox-esr.desktop",
          {| Sim.ekind := Sim.KReg; Sim.writable := false; Sim.unlink_error := None;
             Sim.esize := 40;
             Sim.content := [ "[Desktop Entry]"; "Name=Firefox ESR";
                              "Name[zh_CN]=Firefox 网络浏览器";
                              "Exec=firefox-esr %u" ] |}) ];
     Sim.commands := [];
     Sim.elevated := false |}.

End ExtraSamples.
(** * Properties *)

(** ** Strings: the order Python sorts by *)

Module StrOrder.

Lemma ascii_compare_refl a : Ascii.compare a a = Eq.
Proof. unfold Ascii.compare. apply N.compare_refl. Qed.

Lemma ascii_compare_lt_trans a b c :
  Ascii.compare a b = Lt -> Ascii.compare b c = Lt -> Ascii.compare a c = Lt.
Proof.
  unfold Ascii.compare. rewrite !N.compare_lt_iff. apply N.lt_trans.
Qed.

Lemma compare_refl s : String.compare s s = Eq.
Proof. induction s as [|a s IH]; simpl; [reflexivity|]. now rewrite ascii_compare_refl. Qed.

Lemma compare_lt_trans s1 : forall s2 s3,
  String.compare s1 s2 = Lt -> String.compare s2 s3 = Lt -> String.compare s1 s3 = Lt.
Proof.
  induction s1 as [|a s1 IH]; intros [|b s2] [|c s3]; simpl; try congruence.
  destruct (Ascii.compare a b) eqn:Hab; try discriminate;
    destruct (Ascii.compare b c) eqn:Hbc; try discriminate; intros H1 H2.
  - apply Ascii.compare_eq_iff in Hab, Hbc. subst.
    rewrite ascii_compare_refl. eauto.
  - apply Ascii.compare_eq_iff in Hab. subst. now rewrite Hbc.
  - apply Ascii.compare_eq_iff in Hbc. subst. now rewrite Hab.
  - now rewrite (ascii_compare_lt_trans _ _ _ Hab Hbc).
Qed.

Lemma ltb_irrefl s : String.ltb s s = false.
Proof. unfold String.ltb. now rewrite compare_refl. Qed.

Lemma ltb_trans a b c :
  String.ltb a b = true -> String.ltb b c = true -> String.ltb a c = true.
Proof.
  unfold String.ltb.
  destruct (String.compare a b) eqn:Hab; try discriminate.
  destruct (String.compare b c) eqn:Hbc; try discriminate.
  now rewrite (compare_lt_trans _ _ _ Hab Hbc).
Qed.

Lemma ltb_asym a b : String.ltb a b = true -> String.ltb b a = false.
Proof.
  unfold String.ltb. rewrite (String.compare_antisym b a).
  now destruct (String.compare a b).
Qed.

Lemma ltb_total a b : String.ltb a b = true \/ a = b \/ String.ltb b a = true.
Proof.
  unfold String.ltb. rewrite (String.compare_antisym b a).
  destruct (String.compare a b) eqn:E; simpl; auto.
  right; left. now apply String.compare_eq_iff.
Qed.

End StrOrder.

(** ** Residue scanner: keywords *)

Module KeywordProps.
Import ResidueScan KeywordSpec.

Lemma generate_keywords_elem package_name k :
  k ∈ _generate_keywords package_name <-> k ∈ keyword_variants package_name.
Proof.
  unfold _generate_keywords. rewrite elem_of_elements, elem_of_list_to_set. reflexivity.
Qed.

Lemma generate_keywords_NoDup package_name : NoDup (_generate_keywords package_name).
Proof. unfold _generate_keywords. apply NoDup_elements. Qed.

(** C2, as stated, fails: the upper form of the stripped variant,
    ["FOOBAR"], is not generated. *)
Lemma generate_keywords_not_closed :
  ~ closed_over_case_variants (_generate_keywords "foo-bar").
Proof.
  intros [_ Hall].
  destruct (Hall "foobar") as (_ & Hup & _).
  { repeat constructor. }
  apply (proj1 (generate_keywords_elem "foo-bar" _)) in Hup.
  assert (Hk : keyword_variants "foo-bar"
               = ["foo-bar"; "foobar"; "foo-bar"; "foo-bar"; "FOO-BAR";
                  "foo bar"; "foo bar"; "FOO BAR"]) by reflexivity.
  rewrite Hk in Hup. change (PyStr.upper "foobar") with "FOOBAR" in Hup.
  rewrite !elem_of_cons, elem_of_nil in Hup.
  intuition discriminate.
Qed.

(** C2, amended: for ["foo-bar"] the keywords are, without duplicates,
    exactly ["foo-bar"], ["foobar"], ["foo bar"], ["FOO-BAR"] and
    ["FOO BAR"]; and for every identifier the list has no duplicates
    and holds the identifier, its two separator-stripped forms, its
    space-substituted form, and the upper and lower forms of the
    identifier and of the space-substituted form (not of the stripped
    ones). *)
Theorem generate_keywords_variants :
  (NoDup (_generate_keywords "foo-bar") /\
   forall k, k ∈ _generate_keywords "foo-bar" <->
             k ∈ ["foo-bar"; "foobar"; "foo bar"; "FOO-BAR"; "FOO BAR"]) /\
  (forall package_name,
     let display_name := PyStr.replace (PyStr.replace package_name "-" " ") "_" " " in
     NoDup (_generate_keywords package_name) /\
     forall k, k ∈ _generate_keywords package_name <->
       k ∈ [ package_name;
             PyStr.replace package_name "-" ""; PyStr.replace package_name "_" "";
             PyStr.lower package_name; PyStr.upper package_name;
             display_name; PyStr.lower display_name; PyStr.upper display_name ]).
Proof.
  split.
  - split; [apply generate_keywords_NoDup|].
    intros k. rewrite generate_keywords_elem.
    change (keyword_variants "foo-bar")
      with ["foo-bar"; "foobar"; "foo-bar"; "foo-bar"; "FOO-BAR"; "foo bar"; "foo bar"; "FOO BAR"].
    rewrite !elem_of_cons. rewrite !elem_of_nil. tauto.
  - intros package_name display_name. split; [apply generate_keywords_NoDup|].
    intros k. rewrite generate_keywords_elem. reflexivity.
Qed.

End KeywordProps.

(** ** Residue scanner: the size of a directory *)

Module DirSizeProps.
Import Fs ResidueScan DirSizeSpec WalkSums.
Local Open Scope Z_scope.

(** Induction on trees, with the hypothesis for every entry of a
    directory. *)
Lemma node_induction (P : node -> Prop) :
  (forall sz, P (Reg sz)) ->
  (forall sz, P (Special sz)) ->
  P (Symlink None) ->
  (forall t, P t -> P (Symlink (Some t))) ->
  (forall entries, Forall (fun e => P (snd e)) entries -> P (Dir entries)) ->
  P DirDenied ->
  forall n, P n.
Proof.
  intros HReg HSpecial HDangling HSymlink HDir HDenied.
  fix IH 1. intros [sz|sz|[t|]|entries|].
  - apply HReg.
  - apply HSpecial.
  - apply HSymlink, IH.
  - apply HDangling.
  - apply HDir. induction entries as [|e entries IHentries].
    + apply List.Forall_nil.
    + apply List.Forall_cons; [apply IH | exact IHentries].
  - apply HDenied.
Qed.











End DirSizeProps.

Module DirSizeTheorems.
Import Fs ResidueScan DirSizeSpec WalkSums DirSizeProps Samples.
Local Open Scope Z_scope.






End DirSizeTheorems.

(** ** Residue scanner: the order and the selection of the result *)

Module ScanProps.
Import Fs ResidueScan StrOrder ScanSpec.

Lemma key_lt_total k1 k2 : key_lt k1 k2 = true \/ k1 = k2 \/ key_lt k2 k1 = true.
Proof.
  destruct k1 as [a1 b1], k2 as [a2 b2]. unfold key_lt. simpl.
  destruct (ltb_total a1 a2) as [H|[H|H]].
  - left. now rewrite H.
  - subst a2. rewrite ltb_irrefl, String.eqb_refl. simpl.
    destruct (ltb_total b1 b2) as [Hb|[Hb|Hb]]; auto.
    right; left; now subst.
  - right; right. now rewrite H.
Qed.

Lemma key_lt_irrefl k : key_lt k k = false.
Proof.
  destruct k as [a b]. unfold key_lt. simpl.
  now rewrite !ltb_irrefl, andb_false_r.
Qed.

Lemma key_lt_trans k1 k2 k3 :
  key_lt k1 k2 = true -> key_lt k2 k3 = true -> key_lt k1 k3 = true.
Proof.
  destruct k1 as [a1 b1], k2 as [a2 b2], k3 as [a3 b3]. unfold key_lt. simpl.
  rewrite !orb_true_iff, !andb_true_iff, !String.eqb_eq.
  intros [H1|[E1 H1]] [H2|[E2 H2]]; subst.
  - left. eapply ltb_trans; eauto.
  - now left.
  - now left.
  - right. split; [reflexivity|]. eapply ltb_trans; eauto.
Qed.

Lemma key_lt_asym k1 k2 : key_lt k1 k2 = true -> key_lt k2 k1 = false.
Proof.
  intros H. destruct (key_lt k2 k1) eqn:E; [|reflexivity].
  pose proof (key_lt_trans _ _ _ H E) as Hc. now rewrite key_lt_irrefl in Hc.
Qed.

Lemma key_le_trans a b c : key_le a b -> key_le b c -> key_le a c.
Proof.
  unfold key_le. intros Hab Hbc.
  destruct (key_lt (sort_key c) (sort_key a)) eqn:Hca; [|reflexivity].
  destruct (key_lt_total (sort_key b) (sort_key c)) as [H|[H|H]].
  - pose proof (key_lt_trans _ _ _ H Hca). congruence.
  - rewrite H in Hab. congruence.
  - congruence.
Qed.

Lemma insert_sorted_Permutation x l : Permutation (insert_sorted x l) (x :: l).
Proof.
  induction l as [|y l IH]; simpl; [reflexivity|].
  destruct (key_lt (sort_key y) (sort_key x)); [|reflexivity].
  rewrite IH. apply perm_swap.
Qed.

Lemma sort_Permutation l : Permutation (sort l) l.
Proof.
  induction l as [|x l IH]; simpl; [reflexivity|].
  rewrite insert_sorted_Permutation. now constructor.
Qed.

Lemma insert_sorted_sorted x l :
  StronglySorted key_le l -> StronglySorted key_le (insert_sorted x l).
Proof.
  induction 1 as [|y l Hs IH Hall]; simpl.
  - repeat constructor.
  - destruct (key_lt (sort_key y) (sort_key x)) eqn:Hyx.
    + constructor; [exact IH|].
      rewrite insert_sorted_Permutation. constructor; [|exact Hall].
      unfold key_le. now apply key_lt_asym.
    + constructor; [now constructor|].
      constructor; [exact Hyx|].
      eapply List.Forall_impl; [|exact Hall].
      intros z Hz. simpl in Hz. now apply key_le_trans with y.
Qed.

Lemma sort_sorted l : StronglySorted key_le (sort l).
Proof.
  induction l as [|x l IH]; simpl; [constructor | now apply insert_sorted_sorted].
Qed.

Lemma sorted_app_le (l1 : list ResidueFile) a l2 b l3 :
  StronglySorted key_le (l1 ++ a :: l2 ++ b :: l3) -> key_le a b.
Proof.
  induction l1 as [|x l1 IH]; simpl; intros Hs.
  - inversion Hs as [|? ? _ Hall]; subst.
    rewrite Forall_app in Hall. destruct Hall as [_ Hall].
    now inversion Hall.
  - inversion Hs; subst. auto.
Qed.

(** Every candidate is built selected. *)
Lemma scan_item_selected keywords category item :
  Forall (fun f => is_selected f = true) (scan_item keywords category item).
Proof.
  destruct item as [[root dirs] files]. unfold scan_item.
  apply Forall_app. split; apply Forall_flat_map, Forall_forall;
    intros [nm n] _; destruct (_is_match keywords nm); repeat constructor.
Qed.

Lemma scan_path_selected keywords base_path n category :
  Forall (fun f => is_selected f = true) (_scan_path keywords base_path n category).
Proof.
  unfold _scan_path. apply Forall_flat_map, Forall_forall.
  intros item _. apply scan_item_selected.
Qed.

(** C6: the list [scan] returns is sorted by the key
    [(kind, path)], of which any two values are comparable; of two
    entries of one kind the one listed first never has the greater
    path, and the one with the smaller path is listed first; and every
    entry is selected. *)
Theorem scan_sorted_and_selected home fs package_name :
  let result := scan home fs package_name in
  StronglySorted key_le result
  /\ (forall k1 k2, key_lt k1 k2 = true \/ k1 = k2 \/ key_lt k2 k1 = true)
  /\ (forall l1 a l2 b l3,
        result = l1 ++ a :: l2 ++ b :: l3 -> type a = type b ->
        String.ltb (path b) (path a) = false)
  /\ (forall a b,
        In a result -> In b result -> type a = type b ->
        String.ltb (path a) (path b) = true ->
        exists l1 l2 l3, result = l1 ++ a :: l2 ++ b :: l3)
  /\ Forall (fun f => is_selected f = true) result.
Proof.
  intros result.
  assert (Hsorted : StronglySorted key_le result) by apply sort_sorted.
  assert (Hfirst : forall l1 a l2 b l3,
            result = l1 ++ a :: l2 ++ b :: l3 -> type a = type b ->
            String.ltb (path b) (path a) = false).
  { intros l1 a l2 b l3 Heq Hty. rewrite Heq in Hsorted.
    apply sorted_app_le in Hsorted. unfold key_le, key_lt, sort_key in Hsorted.
    simpl in Hsorted. rewrite Hty, ltb_irrefl, String.eqb_refl in Hsorted.
    exact Hsorted. }
  split; [exact Hsorted|]. split; [exact key_lt_total|]. split; [exact Hfirst|]. split.
  - intros a b Ha Hb Hty Hlt.
    destruct (in_split _ _ Ha) as (l1 & l2 & Heq).
    assert (Hne : a <> b) by (intros ->; now rewrite ltb_irrefl in Hlt).
    rewrite Heq in Hb. apply in_app_or in Hb. destruct Hb as [Hb|[Hb|Hb]].
    + destruct (in_split _ _ Hb) as (m1 & m2 & Hm). subst l1.
      rewrite <- app_assoc in Heq. simpl in Heq.
      pose proof (Hfirst _ _ _ _ _ Heq (eq_sym Hty)). congruence.
    + contradiction.
    + destruct (in_split _ _ Hb) as (m1 & m2 & Hm). subst l2.
      now exists l1, m1, m2.
  - unfold result, scan. rewrite sort_Permutation.
    apply Forall_flat_map, Forall_forall. intros [category paths] _.
    apply Forall_flat_map, Forall_forall. intros p _.
    destruct (fs p) as [n|]; [|constructor].
    destruct (exists_ n); [apply scan_path_selected | constructor].
Qed.

End ScanProps.

(** ** Cleaner: deleting one path *)

Module CleanerProps.
Import Py ResidueScan Cleaner CleanerSpec Samples.

(** Unfolding the monad, and splitting on what the world answers. *)
Ltac unfold_monad :=
  unfold _report_progress, _report_error in *;
  unfold try_except, bind, ret, raise, query, query_res, emit, remove, rmtree, run in *;
  cbv beta iota zeta.

Ltac break_match :=
  match goal with
  | |- context [match ?x with _ => _ end] =>
      lazymatch x with
      | context [match _ with _ => _ end] => fail
      | _ => destruct x eqn:?
      end
  end.

Section Cleaner.
Context {W : Type} `{Os W}.

(** A path that is not there: success, and nothing is done. *)
Lemma delete_path_missing path (w : W) :
  path_exists path w = false ->
  _delete_path path w = (Ok (Some true), w, []).
Proof. intros Hex. unfold _delete_path. unfold_monad. now rewrite Hex. Qed.

(** A writable file or link is unlinked, a writable directory is
    removed with its content: one direct deletion and, when it goes
    through, success and no elevated command. *)
Lemma delete_path_direct path (w w' : W) :
  path_exists path w = true ->
  access_W_OK path w = true ->
  (path_isfile path w || path_islink path w = true ->
   os_remove path w = (Ok tt, w') ->
   _delete_path path w = (Ok (Some true), w', [Remove path]))
  /\ (path_isfile path w || path_islink path w = false ->
      path_isdir path w = true ->
      shutil_rmtree path w = (Ok tt, w') ->
      _delete_path path w = (Ok (Some true), w', [Rmtree path])).
Proof.
  intros Hex Hw. split.
  - intros Hk Hrm. unfold _delete_path, pkexec_rm. unfold_monad.
    rewrite Hex. cbn [negb]. rewrite Hk, Hw, Hrm. reflexivity.
  - intros Hk Hd Hrm. unfold _delete_path, pkexec_rm. unfold_monad.
    rewrite Hex. cbn [negb]. rewrite Hk, Hd, Hw, Hrm. reflexivity.
Qed.

(** A file, link or directory that is not writable: one elevated
    [rm], whose exit status decides the answer. *)
Lemma delete_path_escalates path (w w' : W) result :
  path_exists path w = true ->
  access_W_OK path w = false ->
  (path_isfile path w || path_islink path w = true ->
   subprocess_run ["pkexec"; "rm"; "-f"; path] 30 w = (Ok result, w') ->
   _delete_path path w
   = (Ok (Some (returncode result =? 0)%Z), w', [Run ["pkexec"; "rm"; "-f"; path]]))
  /\ (path_isfile path w || path_islink path w = false ->
      path_isdir path w = true ->
      subprocess_run ["pkexec"; "rm"; "-rf"; path] 30 w = (Ok result, w') ->
      _delete_path path w
      = (Ok (Some (returncode result =? 0)%Z), w', [Run ["pkexec"; "rm"; "-rf"; path]])).
Proof.
  intros Hex Hw. split.
  - intros Hk Hrun. unfold _delete_path, pkexec_rm. unfold_monad.
    rewrite Hex. cbn [negb]. rewrite Hk, Hw, Hrun. reflexivity.
  - intros Hk Hd Hrun. unfold _delete_path, pkexec_rm. unfold_monad.
    rewrite Hex. cbn [negb]. rewrite Hk, Hd, Hw, Hrun. reflexivity.
Qed.

(** A direct deletion that raises [PermissionError] is followed by
    exactly one elevated [rm], and its outcome is the answer. *)
Lemma delete_path_permission_retry path (w w1 : W) e :
  path_exists path w = true ->
  access_W_OK path w = true ->
  kind e = PermissionError ->
  (path_isfile path w || path_islink path w = true ->
   os_remove path w = (Raise e, w1) ->
   _delete_path path w
   = (fst (fst (retry path w1)), snd (fst (retry path w1)),
      Remove path :: snd (retry path w1)))
  /\ (path_isfile path w || path_islink path w = false ->
      path_isdir path w = true ->
      shutil_rmtree path w = (Raise e, w1) ->
      _delete_path path w
      = (fst (fst (retry path w1)), snd (fst (retry path w1)),
         Rmtree path :: snd (retry path w1))).
Proof.
  intros Hex Hw He. split.
  - intros Hk Hrm. unfold _delete_path, pkexec_rm, retry. unfold_monad.
    rewrite Hex. cbn [negb]. rewrite Hk, Hw, Hrm, He.
    destruct (path_isfile path w1);
      destruct (subprocess_run _ 30 w1) as [[r|e'] w2]; reflexivity.
  - intros Hk Hd Hrm. unfold _delete_path, pkexec_rm, retry. unfold_monad.
    rewrite Hex. cbn [negb]. rewrite Hk, Hd, Hw, Hrm, He.
    destruct (path_isfile path w1);
      destruct (subprocess_run _ 30 w1) as [[r|e'] w2]; reflexivity.
Qed.

Lemma retry_one_escalation path (w : W) :
  exists flag, escalations (snd (retry path w)) = [["rm"; flag; path]].
Proof.
  unfold retry.
  destruct (path_isfile path w);
    destruct (subprocess_run _ 30 w) as [[r|e'] w2]; eexists; reflexivity.
Qed.

(** C1 at the input where it fails: a path that exists and is neither
    a regular file, nor a link, nor a directory (a socket, a fifo, a
    device) is not deleted and not escalated, whether writable or
    not; the call falls off the end of the function and answers
    [None], which [clean] takes for a failure. *)
Theorem delete_path_special_file path (w : W) :
  path_exists path w = true ->
  path_isfile path w = false ->
  path_islink path w = false ->
  path_isdir path w = false ->
  _delete_path path w = (Ok None, w, []) /\ truthy None = false.
Proof.
  intros Hex Hf Hl Hd. split; [|reflexivity].
  unfold _delete_path. unfold_monad.
  rewrite Hex. cbn [negb]. rewrite Hf, Hl. cbn [orb]. rewrite Hd. reflexivity.
Qed.

(** [_delete_path] reports nothing by itself: its events are
    deletions and commands. *)
Lemma delete_path_events path (w : W) :
  Forall is_os_event (snd (_delete_path path w)).
Proof.
  unfold _delete_path, pkexec_rm. unfold_monad.
  repeat (break_match; cbn [negb fst snd app]);
    repeat constructor.
Qed.

(** At most two elevated commands are ever issued for one path: the
    escalation, and the retry when launching it raised
    [PermissionError]. *)
Lemma delete_path_escalations_bound path (w : W) :
  (length (escalations (snd (_delete_path path w))) <= 2)%nat.
Proof.
  unfold _delete_path, pkexec_rm. unfold_monad.
  repeat (break_match; cbn [negb fst snd app]); cbn; lia.
Qed.

End Cleaner.

Lemma delete_path_socket :
  _delete_path "/home/u/.cache/app/app.sock" socket_world = (Ok None, socket_world, [])
  /\ truthy None = false.
Proof.
  apply (delete_path_special_file "/home/u/.cache/app/app.sock" socket_world);
    reflexivity.
Defined.

End CleanerProps.

(** ** Cleaner: the batch *)

Module CleanProps.
Import Py ResidueScan Cleaner CleanerSpec CleanerProps.

Lemma startswith_append p s : PyStr.startswith (p +:+ s) p = true.
Proof.
  induction p as [|c p IH]; simpl; [now destruct s|].
  now rewrite Ascii.eqb_refl, IH.
Qed.

Lemma deleting_reports_app t1 t2 :
  deleting_reports (t1 ++ t2) = deleting_reports t1 ++ deleting_reports t2.
Proof. apply omap_app. Qed.

Lemma error_reports_app t1 t2 :
  error_reports (t1 ++ t2) = error_reports t1 ++ error_reports t2.
Proof. apply omap_app. Qed.

Lemma os_events_silent t :
  Forall is_os_event t -> deleting_reports t = [] /\ error_reports t = [].
Proof.
  induction 1 as [|e t He _ [IH1 IH2]]; [now split|].
  destruct e; try contradiction; now split.
Qed.

Section Clean.
Context {W : Type} `{Os W}.
Variable percent_of : nat -> nat -> Z.

(** One iteration: it never raises, it reports the attempt once, and
    the file is either counted or reported to the error callback. *)
Lemma clean_step_total total_files i residue_file acc (w : W) :
  exists acc' w' t,
    clean_step percent_of total_files i residue_file acc w = (Ok acc', w', t)
    /\ deleting_reports t = ["正在删除：" +:+ path residue_file]
    /\ (fst acc' + length (error_reports t) = S (fst acc))%nat
    /\ (acc' = acc \/ acc' = (S (fst acc), (snd acc + size residue_file)%Z)).
Proof.
  destruct acc as [deleted_files deleted_size].
  unfold clean_step. unfold_monad.
  pose proof (delete_path_events (path residue_file) w) as Hev.
  destruct (_delete_path (path residue_file) w) as [[r w1] t1].
  cbn [snd] in Hev. apply os_events_silent in Hev. destruct Hev as [Hd He].
  assert (Hrep : deleting_reports
                   [Progress ("正在删除：" +:+ path residue_file)
                             (percent_of i total_files)]
                 = ["正在删除：" +:+ path residue_file]).
  { unfold deleting_reports. cbn [omap list_omap].
    now rewrite (startswith_append "正在删除：" (path residue_file)). }
  destruct r as [[[|]|]|e]; cbn [truthy];
    (do 3 eexists; split; [reflexivity|]);
    rewrite ?deleting_reports_app, ?error_reports_app, ?Hd, ?He, ?Hrep, ?app_nil_r;
    cbn; (split; [reflexivity|]); (split; [lia|]); auto.
Qed.



End Clean.

End CleanProps.

(** ** Inventory scan: the four sources *)

Module ScannerProps.
Import Py Scanner CleanerSpec InventorySpec CleanerProps.

Lemma progress_percents_app t1 t2 :
  progress_percents (t1 ++ t2) = progress_percents t1 ++ progress_percents t2.
Proof. apply omap_app. Qed.

Lemma progress_percents_cons m p t :
  progress_percents (Progress m p :: t) = p :: progress_percents t.
Proof. reflexivity. Qed.

Lemma os_events_no_progress t : Forall is_os_event t -> progress_percents t = [].
Proof.
  induction 1 as [|e t He _ IH]; [reflexivity|].
  destruct e; try contradiction; exact IH.
Qed.

(** A call of [Package] with the seven fields, and no other keyword,
    builds the package. *)
Lemma append_package_fields packages n d v sz src dt desc :
  append_package packages
    [ ("name", VStr n); ("display_name", VStr d); ("version", VStr v);
      ("size", VStr sz); ("source", VSource src); ("install_date", VStr dt);
      ("description", VStr desc) ]
  = Ok (packages ++ [ {| name := n; display_name := d; version := v; size := sz;
                         source := src; install_date := dt; description := desc;
                         is_selected := false |} ]).
Proof. reflexivity. Qed.

(** With the keyword [app_name] among them, it raises [TypeError]. *)
Lemma append_package_app_name packages n d a v sz src dt desc :
  append_package packages
    [ ("name", VStr n); ("display_name", VStr d); ("app_name", VStr a);
      ("version", VStr v); ("size", VStr sz); ("source", VSource src);
      ("install_date", VStr dt); ("description", VStr desc) ]
  = Raise {| kind := TypeError;
             message := "Package.__init__() got an unexpected keyword argument 'app_name'" |}.
Proof. reflexivity. Qed.

Lemma for_each_invariant {A B} (P : B -> Prop) (body : A -> B -> res B) l : forall acc,
  (forall x acc acc', P acc -> body x acc = Ok acc' -> P acc') ->
  P acc -> P (fst (for_each body l acc)).
Proof.
  induction l as [|x l IH]; intros acc Hbody Hacc; simpl; [exact Hacc|].
  destruct (body x acc) as [acc'|e] eqn:E; simpl; eauto.
Qed.

Lemma Forall_snoc {A} (P : A -> Prop) l x : Forall P l -> P x -> Forall P (l ++ [x]).
Proof. intros. apply Forall_app. split; [assumption | now constructor]. Qed.

Section Scanner.
Context {W : Type} `{Os W}.
Variable _format_size : Z -> string.
Variable _timestamp_to_date : Z -> string.

Lemma apt_line_source skip dates line packages packages' :
  Forall (fun p => source p = APT) packages ->
  apt_line _format_size skip dates line packages = Ok packages' ->
  Forall (fun p => source p = APT) packages'.
Proof.
  intros HP. unfold apt_line.
  repeat (break_match; try (intros [= <-]; exact HP));
    rewrite append_package_fields; intros [= <-]; now apply Forall_snoc.
Qed.

Lemma snap_line_source line packages packages' :
  Forall (fun p => source p = SNAP) packages ->
  snap_line line packages = Ok packages' ->
  Forall (fun p => source p = SNAP) packages'.
Proof.
  intros HP. unfold snap_line.
  repeat (break_match; try (intros [= <-]; exact HP));
    rewrite append_package_fields; intros [= <-]; now apply Forall_snoc.
Qed.

Lemma flatpak_line_source line packages packages' :
  Forall (fun p => source p = FLATPAK) packages ->
  flatpak_line line packages = Ok packages' ->
  Forall (fun p => source p = FLATPAK) packages'.
Proof.
  intros HP. unfold flatpak_line.
  repeat (break_match; try (intros [= <-]; exact HP));
    rewrite append_package_fields; intros [= <-]; now apply Forall_snoc.
Qed.

(** Each scan returns, whatever the commands do, packages of its own
    source only, and reports nothing by itself. *)
Lemma scan_apt_total skip (w : W) :
  exists packages w' t,
    _scan_apt _format_size skip w = (Ok packages, w', t)
    /\ Forall (fun p => source p = APT) packages
    /\ Forall is_os_event t.
Proof.
  unfold _scan_apt. unfold_monad.
  destruct (subprocess_run _ 60 w) as [[result|e] w1].
  - destruct (returncode result =? 0)%Z; do 3 eexists;
      (split; [reflexivity|]); (split; [|repeat constructor]).
    + apply for_each_invariant; [|constructor].
      intros; eapply apt_line_source; eauto.
    + constructor.
  - do 3 eexists. split; [reflexivity|]. split; repeat constructor.
Qed.

Lemma scan_snap_total (w : W) :
  exists packages w' t,
    _scan_snap w = (Ok packages, w', t)
    /\ Forall (fun p => source p = SNAP) packages
    /\ Forall is_os_event t.
Proof.
  unfold _scan_snap. unfold_monad.
  destruct (subprocess_run ["which"; "snap"] 5 w) as [[result|e] w1].
  - destruct (returncode result =? 0)%Z; cbn [negb].
    + destruct (subprocess_run ["snap"; "list"] 30 w1) as [[result2|e2] w2].
      * destruct (returncode result2 =? 0)%Z; do 3 eexists;
          (split; [reflexivity|]); (split; [|repeat constructor]).
        -- apply for_each_invariant; [|constructor].
           intros; eapply snap_line_source; eauto.
        -- constructor.
      * do 3 eexists. split; [reflexivity|]. split; repeat constructor.
    + do 3 eexists. split; [reflexivity|]. split; repeat constructor.
  - do 3 eexists. split; [reflexivity|]. split; repeat constructor.
Qed.

Lemma scan_flatpak_total (w : W) :
  exists packages w' t,
    _scan_flatpak w = (Ok packages, w', t)
    /\ Forall (fun p => source p = FLATPAK) packages
    /\ Forall is_os_event t.
Proof.
  unfold _scan_flatpak. unfold_monad.
  destruct (subprocess_run ["which"; "flatpak"] 5 w) as [[result|e] w1].
  - destruct (returncode result =? 0)%Z; cbn [negb].
    + destruct (subprocess_run _ 30 w1) as [[result2|e2] w2].
      * destruct (returncode result2 =? 0)%Z; do 3 eexists;
          (split; [reflexivity|]); (split; [|repeat constructor]).
        -- apply for_each_invariant; [|constructor].
           intros; eapply flatpak_line_source; eauto.
        -- constructor.
      * do 3 eexists. split; [reflexivity|]. split; repeat constructor.
    + do 3 eexists. split; [reflexivity|]. split; repeat constructor.
  - do 3 eexists. split; [reflexivity|]. split; repeat constructor.
Qed.

(** An [.AppImage] file never adds a package: the call of [Package]
    raises. *)
Lemma appimage_entry_raises (w : W) search_path filename packages :
  PyStr.endswith (PyStr.lower filename) ".appimage" = true ->
  exists e, appimage_entry _format_size _timestamp_to_date w search_path filename packages
            = Raise e
            /\ (forall stat_info,
                  os_stat (Fs.join search_path filename) w = Ok stat_info ->
                  kind e = TypeError).
Proof.
  intros Hend. unfold appimage_entry. rewrite Hend.
  destruct (os_stat _ w) as [stat_info|e].
  - rewrite append_package_app_name. eexists. split; [reflexivity|]. reflexivity.
  - exists e. split; [reflexivity|]. discriminate.
Qed.

Lemma appimage_entry_keeps (w : W) search_path filename packages packages' :
  appimage_entry _format_size _timestamp_to_date w search_path filename packages
  = Ok packages' ->
  packages' = packages.
Proof.
  unfold appimage_entry.
  destruct (PyStr.endswith (PyStr.lower filename) ".appimage") eqn:Hend.
  - destruct (os_stat _ w); [rewrite append_package_app_name|]; discriminate.
  - now intros [= <-].
Qed.

Lemma appimage_dir_keeps (w : W) packages search_path :
  appimage_dir _format_size _timestamp_to_date w packages search_path = packages.
Proof.
  unfold appimage_dir.
  destruct (path_exists search_path w); cbn [negb]; [|reflexivity].
  destruct (os_listdir search_path w) as [filenames|e]; [|reflexivity].
  apply (for_each_invariant (fun acc => acc = packages)); [|reflexivity].
  intros x acc acc' -> Hbody. now apply appimage_entry_keeps in Hbody.
Qed.

Lemma scan_appimage_empty home (w : W) :
  _scan_appimage _format_size _timestamp_to_date home w = (Ok [], w, []).
Proof.
  unfold _scan_appimage, query, appimage_search_paths. cbn [fold_left].
  now rewrite !appimage_dir_keeps.
Qed.

End Scanner.

End ScannerProps.

(** ** Inventory scan: [scan_all] *)

Module ScanAllProps.
Import Py Scanner CleanerSpec InventorySpec CleanerProps ScannerProps.

Section ScanAll.
Context {W : Type} `{Os W}.
Variable _format_size : Z -> string.
Variable _timestamp_to_date : Z -> string.

(** [scan_all] returns the packages of the requested scans, APT,
    Snap, Flatpak in this order, and reports the fixed marks. *)
Lemma scan_all_spec skip home sources (w : W) :
  let srcs := requested sources in
  let '(l1, w1) := scanned (In_sources APT srcs) (_scan_apt _format_size skip) w in
  let '(l2, w2) := scanned (In_sources SNAP srcs) _scan_snap w1 in
  let '(l3, w3) := scanned (In_sources FLATPAK srcs) _scan_flatpak w2 in
  exists t,
    scan_all _format_size _timestamp_to_date skip home sources w
    = (Ok (l1 ++ l2 ++ l3), w3, t)
    /\ progress_percents t = marks srcs.
Proof.
  intros srcs. unfold scanned, scan_all, marks. fold (requested sources). fold srcs.
  destruct (In_sources APT srcs), (In_sources SNAP srcs),
           (In_sources FLATPAK srcs), (In_sources APPIMAGE srcs);
    unfold_monad;
    repeat match goal with
      | |- context [_scan_apt _ ?s ?w0] =>
          let E := fresh "E" in let Hev := fresh "Hev" in
          destruct (scan_apt_total _format_size s w0) as (? & ? & ? & E & _ & Hev);
          rewrite E; apply os_events_no_progress in Hev; cbv beta iota zeta
      | |- context [_scan_snap ?w0] =>
          let E := fresh "E" in let Hev := fresh "Hev" in
          destruct (scan_snap_total w0) as (? & ? & ? & E & _ & Hev);
          rewrite E; apply os_events_no_progress in Hev; cbv beta iota zeta
      | |- context [_scan_flatpak ?w0] =>
          let E := fresh "E" in let Hev := fresh "Hev" in
          destruct (scan_flatpak_total w0) as (? & ? & ? & E & _ & Hev);
          rewrite E; apply os_events_no_progress in Hev; cbv beta iota zeta
      | |- context [_scan_appimage _ _ ?h ?w0] =>
          rewrite (scan_appimage_empty _format_size _timestamp_to_date h w0);
          cbv beta iota zeta
      end;
    (eexists; split;
     [ cbn [app]; rewrite ?app_nil_r, <- ?app_assoc; reflexivity
     | repeat first
         [ rewrite progress_percents_cons
         | rewrite progress_percents_app
         | match goal with Hp : progress_percents _ = [] |- _ => rewrite Hp; clear Hp end ];
       reflexivity ]).
Qed.

End ScanAll.

End ScanAllProps.

(** ** Inventory scan: what the claims say *)

Module InventoryTheorems.
Import Py Scanner CleanerSpec InventorySpec CleanerProps ScannerProps ScanAllProps.

Lemma filter_snoc {A} (f : A -> bool) l x :
  List.filter f (l ++ [x]) = List.filter f l ++ (if f x then [x] else []).
Proof. now rewrite List.filter_app. Qed.

Lemma filter_all {A} (f : A -> bool) l :
  Forall (fun x => f x = true) l -> List.filter f l = l.
Proof. induction 1 as [|x l Hx _ IH]; simpl; [reflexivity | now rewrite Hx, IH]. Qed.

Section Inventory.
Context {W : Type} `{Os W}.
Variable _format_size : Z -> string.
Variable _timestamp_to_date : Z -> string.

Local Abbreviation keep := (fun p => negb (is_system_apt p)).

(** With the option on, the loop of [_scan_apt] builds what it builds
    with the option off, less the packages on the list. *)
Lemma apt_lines_skip dates lines : forall acc0,
  fst (for_each (apt_line _format_size true dates) lines (List.filter keep acc0))
  = List.filter keep (fst (for_each (apt_line _format_size false dates) lines acc0)).
Proof.
  induction lines as [|line lines IH]; intros acc0; [reflexivity|].
  cbn [for_each]. unfold apt_line at 1 3.
  destruct (String.eqb line ""); [apply IH|].
  destruct (4 <=? length (PyStr.split line "|"))%nat; [|apply IH].
  destruct (PyStr.contains _ _); [|apply IH].
  cbn [andb]. rewrite !append_package_fields.
  destruct (bool_decide (nth 0 (PyStr.split line "|") "" ∈ SYSTEM_PACKAGES)) eqn:Hsys.
  - rewrite <- IH. rewrite filter_snoc. unfold is_system_apt.
    cbn [source name PackageSource_eqb andb]. rewrite Hsys. cbn [negb].
    now rewrite app_nil_r.
  - rewrite <- IH. rewrite filter_snoc.
    unfold is_system_apt.
    cbn [source name PackageSource_eqb andb]. rewrite Hsys. reflexivity.
Qed.

Lemma apt_line_cases skip dates line acc :
  apt_line _format_size skip dates line acc = Ok acc
  \/ exists p, apt_line _format_size skip dates line acc = Ok (acc ++ [p]).
Proof.
  unfold apt_line. rewrite append_package_fields.
  repeat (break_match; auto); right; eexists; reflexivity.
Qed.

Lemma apt_lines_mono dates lines p : forall acc,
  In p acc -> In p (fst (for_each (apt_line _format_size false dates) lines acc)).
Proof.
  induction lines as [|line lines IH]; intros acc Hin; [exact Hin|].
  cbn [for_each].
  destruct (apt_line_cases false dates line acc) as [-> | (q & ->)]; apply IH;
    [exact Hin | apply in_or_app; now left].
Qed.

(** With the option off, every line of an installed package gives a
    package of that name. *)
Lemma apt_lines_include dates lines line : forall acc,
  In line lines -> listed_installed line = true ->
  exists p, In p (fst (for_each (apt_line _format_size false dates) lines acc))
            /\ name p = nth 0 (PyStr.split line "|") "" /\ source p = APT.
Proof.
  induction lines as [|l lines IH]; intros acc [ ]; intros Hl.
  - subst l. unfold listed_installed in Hl.
    apply andb_true_iff in Hl. destruct Hl as [Hl Hst].
    apply andb_true_iff in Hl. destruct Hl as [Hne Hlen].
    apply negb_true_iff in Hne.
    cbn [for_each]. unfold apt_line at 1. rewrite Hne, Hlen, Hst. cbn [andb].
    rewrite append_package_fields.
    eexists. split; [apply apt_lines_mono, in_or_app; right; left; reflexivity|].
    split; reflexivity.
  - cbn [for_each].
    destruct (apt_line _format_size false dates l acc) as [acc'|e] eqn:E.
    + now apply IH.
    + destruct (apt_line_cases false dates l acc) as [E' | (q & E')]; congruence.
Qed.

Lemma scan_apt_skip (w : W) :
  exists l0 w' t,
    _scan_apt _format_size false w = (Ok l0, w', t)
    /\ _scan_apt _format_size true w = (Ok (List.filter keep l0), w', t).
Proof.
  unfold _scan_apt. unfold_monad.
  destruct (subprocess_run _ 60 w) as [[result|e] w1].
  - destruct (returncode result =? 0)%Z; do 3 eexists; (split; [reflexivity|]).
    + rewrite <- apt_lines_skip. reflexivity.
    + reflexivity.
  - do 3 eexists. split; reflexivity.
Qed.

Lemma scanned_source wanted (m : M (list Package)) src (w : W) :
  (forall w0, exists packages w' t,
      m w0 = (Ok packages, w', t) /\ Forall (fun p => source p = src) packages
      /\ Forall is_os_event t) ->
  Forall (fun p => source p = src) (fst (scanned wanted m w)).
Proof.
  intros Hm. unfold scanned. destruct wanted; [|constructor].
  destruct (Hm w) as (l & w' & t & -> & HF & _). exact HF.
Qed.

(** C10: whatever the filesystem holds, [_scan_appimage] returns the
    empty list and touches nothing: a file named like an AppImage
    makes the call of [Package] raise, [TypeError] for the keyword
    [app_name] once the file's [stat] is read, and the [try] of its
    search directory swallows it; so no package of [scan_all] comes
    from AppImage. *)
Theorem scan_appimage_always_empty skip home sources (w : W) :
  _scan_appimage _format_size _timestamp_to_date home w = (Ok [], w, [])
  /\ (forall search_path filename packages,
        PyStr.endswith (PyStr.lower filename) ".appimage" = true ->
        exists e,
          appimage_entry _format_size _timestamp_to_date w search_path filename packages
          = Raise e
          /\ (forall stat_info,
                os_stat (Fs.join search_path filename) w = Ok stat_info ->
                kind e = TypeError))
  /\ (forall packages search_path,
        appimage_dir _format_size _timestamp_to_date w packages search_path = packages)
  /\ exists packages w' t,
       scan_all _format_size _timestamp_to_date skip home sources w = (Ok packages, w', t)
       /\ Forall (fun p => source p <> APPIMAGE) packages.
Proof.
  split; [apply scan_appimage_empty|].
  split; [intros; now apply appimage_entry_raises|].
  split; [intros; apply appimage_dir_keeps|].
  pose proof (scan_all_spec _format_size _timestamp_to_date skip home sources w) as Hs.
  cbv zeta in Hs.
  pose proof (scanned_source (In_sources APT (requested sources))
                (_scan_apt _format_size skip) APT w
                (scan_apt_total _format_size skip)) as H1.
  destruct (scanned (In_sources APT (requested sources)) _ w) as [l1 w1].
  pose proof (scanned_source (In_sources SNAP (requested sources))
                _scan_snap SNAP w1 scan_snap_total) as H2.
  destruct (scanned (In_sources SNAP (requested sources)) _ w1) as [l2 w2].
  pose proof (scanned_source (In_sources FLATPAK (requested sources))
                _scan_flatpak FLATPAK w2 scan_flatpak_total) as H3.
  destruct (scanned (In_sources FLATPAK (requested sources)) _ w2) as [l3 w3].
  destruct Hs as (t & Hs & _). cbn [fst] in *.
  exists (l1 ++ l2 ++ l3), w3, t. split; [exact Hs|].
  rewrite !Forall_app. repeat split;
    (eapply List.Forall_impl; [|eassumption]); cbv beta; intros p ->; discriminate.
Qed.

(** C7 on the code: the percentages reported are fixed marks, 0 and
    25 for APT, 25 and 50 for Snap, 50 and 75 for Flatpak, 75 and 95
    for AppImage, then 100, whichever sources are requested; asked
    for Snap and Flatpak only, the stream is 25, 50, 50, 75, 100:
    each source spans 25 points, not 50. *)
Theorem scan_all_progress_marks skip home sources (w : W) :
  progress_percents
    (snd (scan_all _format_size _timestamp_to_date skip home sources w))
  = marks (requested sources)
  /\ progress_percents
       (snd (scan_all _format_size _timestamp_to_date skip home
               (Some [SNAP; FLATPAK]) w))
     = [25; 50; 50; 75; 100]%Z.
Proof.
  assert (Hgen : forall srcs,
            progress_percents
              (snd (scan_all _format_size _timestamp_to_date skip home srcs w))
            = marks (requested srcs)).
  { intros srcs.
    pose proof (scan_all_spec _format_size _timestamp_to_date skip home srcs w) as Hs.
    cbv zeta in Hs.
    destruct (scanned (In_sources APT (requested srcs)) _ w) as [l1 w1].
    destruct (scanned (In_sources SNAP (requested srcs)) _ w1) as [l2 w2].
    destruct (scanned (In_sources FLATPAK (requested srcs)) _ w2) as [l3 w3].
    destruct Hs as (t & -> & Hp). exact Hp. }
  split; [apply Hgen|]. rewrite Hgen. reflexivity.
Qed.

(** C4: [skip_system_packages] is on unless the caller says
    otherwise, and ["base-files"] is on the list; with the option on,
    [scan_all] returns what it returns with the option off less the
    APT packages whose name is on the list, every other package
    staying as it is; and with the option off, every line that
    [dpkg-query] prints for an installed package, listed or not,
    gives a package of that name. *)
Theorem skip_system_packages_policy home sources (w : W) :
  init_skip_system_packages None = true
  /\ bool_decide ("base-files" ∈ SYSTEM_PACKAGES) = true
  /\ exists all w' t0 t1,
       scan_all _format_size _timestamp_to_date false home sources w = (Ok all, w', t0)
       /\ scan_all _format_size _timestamp_to_date true home sources w
          = (Ok (List.filter (fun p => negb (is_system_apt p)) all), w', t1)
       /\ (forall p, In p (List.filter (fun p => negb (is_system_apt p)) all)
                     <-> In p all /\ is_system_apt p = false)
       /\ (forall result w1 line,
             In_sources APT (requested sources) = true ->
             subprocess_run dpkg_query 60 w = (Ok result, w1) ->
             returncode result = 0%Z ->
             In line (PyStr.split (PyStr.strip (stdout result)) "010") ->
             listed_installed line = true ->
             exists p, In p all /\ name p = nth 0 (PyStr.split line "|") ""
                       /\ source p = APT).
Proof.
  split; [reflexivity|]. split; [vm_compute; reflexivity|].
  pose proof (scan_all_spec _format_size _timestamp_to_date false home sources w) as H0.
  pose proof (scan_all_spec _format_size _timestamp_to_date true home sources w) as H1.
  cbv zeta in H0, H1.
  assert (Hapt : exists l0 w1,
            scanned (In_sources APT (requested sources)) (_scan_apt _format_size false) w
            = (l0, w1)
            /\ scanned (In_sources APT (requested sources)) (_scan_apt _format_size true) w
               = (List.filter keep l0, w1)
            /\ (In_sources APT (requested sources) = true ->
                exists t, _scan_apt _format_size false w = (Ok l0, w1, t))).
  { unfold scanned. destruct (In_sources APT (requested sources)).
    - destruct (scan_apt_skip w) as (l0 & w1 & t & -> & ->).
      exists l0, w1. repeat split. intros _. now exists t.
    - exists [], w. repeat split. discriminate. }
  destruct Hapt as (l0 & w1 & E0 & E1 & Hrun). rewrite E0 in H0. rewrite E1 in H1.
  pose proof (scanned_source (In_sources SNAP (requested sources))
                _scan_snap SNAP w1 scan_snap_total) as HF2.
  destruct (scanned (In_sources SNAP (requested sources)) _ w1) as [l2 w2].
  pose proof (scanned_source (In_sources FLATPAK (requested sources))
                _scan_flatpak FLATPAK w2 scan_flatpak_total) as HF3.
  destruct (scanned (In_sources FLATPAK (requested sources)) _ w2) as [l3 w3].
  destruct H0 as (t0 & H0 & _). destruct H1 as (t1 & H1 & _). cbn [fst] in *.
  exists (l0 ++ l2 ++ l3), w3, t0, t1. split; [exact H0|]. split.
  - rewrite H1. f_equal. f_equal. f_equal.
    rewrite !List.filter_app. f_equal. f_equal; symmetry; apply filter_all.
    + eapply List.Forall_impl; [|exact HF2]. cbv beta. intros p Hp.
      unfold is_system_apt. now rewrite Hp.
    + eapply List.Forall_impl; [|exact HF3]. cbv beta. intros p Hp.
      unfold is_system_apt. now rewrite Hp.
  - split.
    + intros p. rewrite List.filter_In, negb_true_iff. reflexivity.
    + intros result w1' line Hreq Hcmd Hrc Hline Hinst.
      destruct (Hrun Hreq) as (t & Hscan).
      revert Hscan. unfold _scan_apt. unfold_monad.
      fold dpkg_query. rewrite Hcmd. rewrite Hrc. cbn [Z.eqb].
      intros [= <- <- <-].
      destruct (apt_lines_include (_get_install_dates_from_log w1')
                  _ line [] Hline Hinst) as (p & Hin & Hn & Hs).
      exists p. split; [|now split]. apply in_or_app. now left.
Qed.

End Inventory.

End InventoryTheorems.

(** ** Uninstaller: forced removal *)

Module ForceRemoveProps.
Import Py Scanner Uninstaller ForceRemoveSpec CleanerProps.

Section ForceRemove.
Context {W : Type} `{Os W}.

Lemma force_remove_loop_removal files : forall deleted (w : W),
  exists t n w',
    force_remove_loop files deleted w = (Ok (deleted + n)%nat, w', t)
    /\ removal files w t n w'.
Proof.
  induction files as [|p ps IH]; intros deleted w.
  - exists [], 0%nat, w. split; [cbn; now rewrite Nat.add_0_r | constructor].
  - cbn [force_remove_loop]. unfold force_remove_step. unfold_monad.
    destruct (path_isfile p w) eqn:Hf.
    + destruct (subprocess_run ["pkexec"; "rm"; "-f"; p] 5 w) as [r w1] eqn:Hrun.
      destruct (IH (deleted + counted r)%nat w1) as (t & n & w2 & E & Hrem).
      exists (Run ["pkexec"; "rm"; "-f"; p] :: t), (counted r + n)%nat, w2.
      split; [|eapply removal_file; eauto].
      destruct r as [c|e]; cbn [counted] in *.
      * replace (S deleted) with (deleted + 1)%nat by lia. rewrite E.
        cbn [app]. now rewrite Nat.add_assoc.
      * rewrite Nat.add_0_r in E. rewrite E. reflexivity.
    + destruct (path_isdir p w) eqn:Hd.
      * destruct (os_listdir p w) as [[|x l]|e] eqn:Hl.
        -- destruct (subprocess_run ["pkexec"; "rmdir"; p] 5 w) as [r w1] eqn:Hrun.
           destruct (IH (deleted + counted r)%nat w1) as (t & n & w2 & E & Hrem).
           exists (Run ["pkexec"; "rmdir"; p] :: t), (counted r + n)%nat, w2.
           split; [|eapply removal_empty_dir; eauto].
           destruct r as [c|e]; cbn [counted] in *.
           ++ replace (S deleted) with (deleted + 1)%nat by lia. rewrite E.
              cbn [app]. now rewrite Nat.add_assoc.
           ++ rewrite Nat.add_0_r in E. rewrite E. reflexivity.
        -- destruct (IH deleted w) as (t & n & w2 & E & Hrem).
           exists t, n, w2. split; [now rewrite E|].
           apply removal_untouched; eauto.
        -- destruct (IH deleted w) as (t & n & w2 & E & Hrem).
           exists t, n, w2. split; [now rewrite E|].
           apply removal_untouched; eauto.
      * destruct (IH deleted w) as (t & n & w2 & E & Hrem).
        exists t, n, w2. split; [now rewrite E|].
        apply removal_untouched; auto.
Qed.

Lemma force_remove_listed package (w w1 : W) result :
  source package = APT ->
  subprocess_run ["dpkg"; "-L"; name package] 30 w = (Ok result, w1) ->
  returncode result = 0%Z ->
  let files := PyStr.split (PyStr.strip (stdout result)) "010" in
  exists t deleted w2,
    removal files w1 t deleted w2
    /\ force_remove_loop files 0 w1 = (Ok deleted, w2, t)
    /\ forall r w3,
         subprocess_run (deregister package) 30 w2 = (r, w3) ->
         force_remove_package package w
         = (fst (forced_run package files t deleted r), w3,
            snd (forced_run package files t deleted r)).
Proof.
  intros Hsrc Hls Hrc files.
  destruct (force_remove_loop_removal files 0%nat w1) as (t & n & w2 & E & Hrem).
  cbn [Nat.add] in E.
  exists t, n, w2. split; [exact Hrem|]. split; [exact E|].
  intros r w3 Hdereg.
  unfold force_remove_package. rewrite Hsrc. cbn [PackageSource_eqb negb].
  unfold_monad. rewrite Hls, Hrc. cbn [Z.eqb]. fold files. rewrite E.
  unfold deregister in Hdereg. rewrite Hdereg.
  unfold forced_run, deregister. cbn [fst snd].
  destruct r as [c|e]; cbn [app]; rewrite <- ?app_assoc; cbn [app];
    rewrite ?app_nil_r; reflexivity.
Qed.

End ForceRemove.
End ForceRemoveProps.

Module ForceRemoveTheorems.
Import Py Scanner Uninstaller ForceRemoveSpec CleanerProps ForceRemoveProps Samples.
Import ExtraSamples.

Section ForceRemove.
Context {W : Type} `{Os W}.

Lemma loop_file_then_directory f d (w1 w2 : W) c x l :
  path_isfile f w1 = true ->
  subprocess_run ["pkexec"; "rm"; "-f"; f] 5 w1 = (Ok c, w2) ->
  path_isfile d w2 = false ->
  path_isdir d w2 = true ->
  os_listdir d w2 = Ok (x :: l) ->
  force_remove_loop [f; d] 0 w1 = (Ok 1%nat, w2, [Run ["pkexec"; "rm"; "-f"; f]]).
Proof.
  intros Hf Hrm Hdf Hdd Hdl.
  cbn [force_remove_loop]. unfold force_remove_step. unfold_monad.
  rewrite Hf, Hrm, Hdf, Hdd, Hdl. reflexivity.
Qed.

Lemma loop_directory_then_file f d (w1 w2 : W) c x l :
  path_isfile d w1 = false ->
  path_isdir d w1 = true ->
  os_listdir d w1 = Ok (x :: l) ->
  path_isfile f w1 = true ->
  subprocess_run ["pkexec"; "rm"; "-f"; f] 5 w1 = (Ok c, w2) ->
  force_remove_loop [d; f] 0 w1 = (Ok 1%nat, w2, [Run ["pkexec"; "rm"; "-f"; f]]).
Proof.
  intros Hdf Hdd Hdl Hf Hrm.
  cbn [force_remove_loop]. unfold force_remove_step. unfold_monad.
  rewrite Hdf, Hdd, Hdl, Hf, Hrm. reflexivity.
Qed.

(** Where the code does what is said of it: for a package that is not
    from APT, [force_remove_package] answers failure and does nothing.
    For an APT package whose listing [dpkg -L] gives, it goes through
    the listed paths one by one, an elevated [rm -f] for each regular
    file, an elevated [rmdir] for a directory only when it is empty,
    nothing otherwise; then it runs the forced [dpkg --remove], and
    answers success when that command ran.  When the listing holds one
    regular file and one directory that is not empty, in either order,
    the only command of the pass is the [rm -f] of the file and the
    count reported is 1. *)
Theorem force_remove_package_spec package (w : W) :
  (source package <> APT ->
   force_remove_package package w = (Ok (false, "强制卸载仅支持 APT 包"), w, []))
  /\ (source package = APT ->
      forall result w1,
        subprocess_run ["dpkg"; "-L"; name package] 30 w = (Ok result, w1) ->
        returncode result = 0%Z ->
        let files := PyStr.split (PyStr.strip (stdout result)) "010" in
        (exists t deleted w2,
           removal files w1 t deleted w2
           /\ forall r w3,
                subprocess_run (deregister package) 30 w2 = (r, w3) ->
                force_remove_package package w
                = (fst (forced_run package files t deleted r), w3,
                   snd (forced_run package files t deleted r)))
        /\ (forall f d c w2 x l c' w3,
              files = [f; d] ->
              path_isfile f w1 = true ->
              subprocess_run ["pkexec"; "rm"; "-f"; f] 5 w1 = (Ok c, w2) ->
              path_isfile d w2 = false -> path_isdir d w2 = true ->
              os_listdir d w2 = Ok (x :: l) ->
              subprocess_run (deregister package) 30 w2 = (Ok c', w3) ->
              force_remove_package package w
              = (Ok (true, name package +:+ " 已强制移除"), w3, scenario_events package f))
        /\ (forall f d c w2 x l c' w3,
              files = [d; f] ->
              path_isfile d w1 = false -> path_isdir d w1 = true ->
              os_listdir d w1 = Ok (x :: l) ->
              path_isfile f w1 = true ->
              subprocess_run ["pkexec"; "rm"; "-f"; f] 5 w1 = (Ok c, w2) ->
              subprocess_run (deregister package) 30 w2 = (Ok c', w3) ->
              force_remove_package package w
              = (Ok (true, name package +:+ " 已强制移除"), w3, scenario_events package f))).
Proof.
  split.
  - intros Hsrc. unfold force_remove_package.
    destruct (source package); try contradiction; reflexivity.
  - intros Hsrc result w1 Hls Hrc files.
    destruct (force_remove_listed package w w1 result Hsrc Hls Hrc)
      as (t & deleted & w2 & Hrem & Hloop & Hrun).
    fold files in Hrem, Hloop, Hrun.
    split; [exists t, deleted, w2; split; assumption|].
    split.
    + intros f d c w2' x l c' w3 Hfiles Hf Hrm Hdf Hdd Hdl Hdereg.
      rewrite Hfiles in Hloop, Hrun.
      rewrite (loop_file_then_directory f d w1 w2' c x l Hf Hrm Hdf Hdd Hdl) in Hloop.
      injection Hloop as <- <- <-.
      rewrite (Hrun _ _ Hdereg). reflexivity.
    + intros f d c w2' x l c' w3 Hfiles Hdf Hdd Hdl Hf Hrm Hdereg.
      rewrite Hfiles in Hloop, Hrun.
      rewrite (loop_directory_then_file f d w1 w2' c x l Hdf Hdd Hdl Hf Hrm) in Hloop.
      injection Hloop as <- <- <-.
      rewrite (Hrun _ _ Hdereg). reflexivity.
Qed.

Lemma force_remove_loop_app l1 l2 : forall k (w : W),
  force_remove_loop (l1 ++ l2) k w
  = match force_remove_loop l1 k w with
    | (Ok k', w', t) =>
        let '(r, w'', t') := force_remove_loop l2 k' w' in (r, w'', t ++ t')
    | (Raise e, w', t) => (Raise e, w', t)
    end.
Proof.
  induction l1 as [|p l1 IH]; intros k w.
  - cbn [app force_remove_loop]. unfold ret.
    now destruct (force_remove_loop l2 k w) as [[r w'] t'].
  - cbn [app force_remove_loop]. unfold bind.
    destruct (force_remove_step p k w) as [[[k1|e] w1] t1]; [|reflexivity].
    rewrite IH.
    destruct (force_remove_loop l1 k1 w1) as [[[k2|e] w2] t2]; [|reflexivity].
    destruct (force_remove_loop l2 k2 w2) as [[r w3] t3].
    now rewrite app_assoc.
Qed.

(** C3, on the code: of the listed paths the pass deals only with
    those that are a regular file or an empty directory at the moment
    it reaches them.  A path that is then neither a regular file nor a
    directory (a link left dangling because its target went earlier in
    the pass, a socket, a FIFO) gets no command, stays where it is and
    is not counted, although it is among the paths announced; the pass
    goes on, the forced [dpkg --remove] is run and success is answered
    as soon as that command returns.  And a regular file counts as
    deleted as soon as its elevated [rm -f] returned, whatever the exit
    status. *)
Theorem force_remove_leaves_other_paths package (w w1 w2 : W) result pre p post n t :
  source package = APT ->
  subprocess_run ["dpkg"; "-L"; name package] 30 w = (Ok result, w1) ->
  returncode result = 0%Z ->
  PyStr.split (PyStr.strip (stdout result)) "010" = pre ++ p :: post ->
  force_remove_loop pre 0 w1 = (Ok n, w2, t) ->
  path_isfile p w2 = false ->
  path_isdir p w2 = false ->
  force_remove_step p n w2 = (Ok n, w2, [])
  /\ (exists m w3 t',
        force_remove_loop post n w2 = (Ok m, w3, t')
        /\ force_remove_loop (pre ++ p :: post) 0 w1 = (Ok m, w3, t ++ t')
        /\ forall r w4,
             subprocess_run (deregister package) 30 w3 = (r, w4) ->
             force_remove_package package w
             = (fst (forced_run package (pre ++ p :: post) (t ++ t') m r), w4,
                snd (forced_run package (pre ++ p :: post) (t ++ t') m r)))
  /\ (forall f k (w0 w0' : W) c,
        path_isfile f w0 = true ->
        subprocess_run ["pkexec"; "rm"; "-f"; f] 5 w0 = (Ok c, w0') ->
        force_remove_step f k w0 = (Ok (S k), w0', [Run ["pkexec"; "rm"; "-f"; f]])).
Proof.
  intros Hsrc Hls Hrc Hsplit Hpre Hf Hd.
  assert (Hstep : force_remove_step p n w2 = (Ok n, w2, [])).
  { unfold force_remove_step. unfold_monad. now rewrite Hf, Hd. }
  split; [exact Hstep|]. split.
  - destruct (force_remove_loop_removal post n w2) as (t' & m & w3 & Epost & _).
    assert (Eloop : force_remove_loop (pre ++ p :: post) 0 w1
                    = (Ok (n + m)%nat, w3, t ++ t')).
    { rewrite force_remove_loop_app, Hpre. cbn [force_remove_loop]. unfold bind.
      rewrite Hstep, Epost. reflexivity. }
    exists (n + m)%nat, w3, t'. split; [exact Epost|]. split; [exact Eloop|].
    intros r w4 Hdereg.
    destruct (force_remove_listed package w w1 result Hsrc Hls Hrc)
      as (t0 & deleted & w2' & _ & Hloop & Hrun).
    rewrite Hsplit in Hloop, Hrun. rewrite Eloop in Hloop.
    injection Hloop as <- <- <-. now apply Hrun.
  - intros f k w0 w0' c Hfile Hrm.
    unfold force_remove_step. unfold_monad. now rewrite Hfile, Hrm.
Qed.

End ForceRemove.

(** The scenario run on it: the file is gone, the directory and what it
    holds are still there, and one deletion is reported. *)
Lemma force_remove_scenario :
  exists w',
    force_remove_package tool tool_world
    = (Ok (true, "tool 已强制移除"), w', scenario_events tool "/usr/bin/tool")
    /\ path_exists "/usr/bin/tool" w' = false
    /\ path_isdir "/usr/share/tool" w' = true
    /\ os_listdir "/usr/share/tool" w' = Ok ["other.dat"].
Proof.
  destruct (force_remove_package_spec tool tool_world) as [_ Hapt].
  destruct (Hapt eq_refl _ tool_world eq_refl eq_refl) as (_ & Hscenario & _).
  eexists. split.
  - eapply (Hscenario "/usr/bin/tool" "/usr/share/tool"); reflexivity.
  - vm_compute. repeat split.
Defined.

(** The package that lists its program and a socket, where the
    elevation is refused: one [rm -f] is run, for the program, and
    fails; the socket gets nothing; two paths are announced and one
    deletion is reported; the removal is answered as a success; and
    both paths are still there. *)
Lemma force_remove_refused :
  exists w',
    force_remove_package tool refused_world
    = (Ok (true, "tool 已强制移除"), w',
       [ Progress "正在强制移除 tool..." 20;
         Run ["dpkg"; "-L"; "tool"];
         Progress "发现 2 个文件" 40;
         Run ["pkexec"; "rm"; "-f"; "/usr/bin/tool"];
         Progress "已删除 1 个文件" 70;
         Run (deregister tool);
         Progress "强制卸载完成" 100 ])
    /\ path_isfile "/usr/bin/tool" w' = true
    /\ path_exists "/run/tool.sock" w' = true.
Proof.
  destruct (force_remove_leaves_other_paths tool refused_world refused_world refused_world
              {| returncode := 0;
                 stdout := "/usr/bin/tool" +:+ PyStr.nl +:+ "/run/tool.sock" +:+ PyStr.nl;
                 stderr := "" |}
              ["/usr/bin/tool"] "/run/tool.sock" [] 1%nat
              [Run ["pkexec"; "rm"; "-f"; "/usr/bin/tool"]])
    as (_ & (m & w3 & t' & Hpost & _ & Hrun) & _); [reflexivity..|].
  injection Hpost as <- <- <-.
  exists refused_world. split; [|split; reflexivity].
  rewrite (Hrun (Ok (Sim.exit_with 126)) refused_world eq_refl). reflexivity.
Defined.

End ForceRemoveTheorems.

(** ** Name resolver: the order of the stages *)

Module ResolverProps.
Import Py AppNameResolver ResolverSpec CleanerProps Samples.

(** C8, as stated, fails twice.  For ["a-b"] the key [a_b] equals the
    identifier once both are stripped, so the claim's stage 3 answers
    "Alpha"; the code asks for four characters there and ends on the
    formatted identifier, "A B".  For ["ab"] no stage of the claim
    matches, so the claim answers the formatted identifier, "Ab"; the
    code first finds the desktop entry whose name reads "ab" and answers
    its Chinese name. *)
Lemma resolution_differs_from_claim :
  (answer (get_app_name "/home/u" new "a-b" short_name_world) = Some "A B"
   /\ answer (resolution claimed_stages "/home/u" new "a-b" short_name_world)
      = Some "Alpha")
  /\ (answer (get_app_name "/home/u" new "ab" named_entry_world) = Some "甲乙"
      /\ answer (resolution claimed_stages "/home/u" new "ab" named_entry_world)
         = Some "Ab").
Proof. repeat split; vm_compute; reflexivity. Qed.

End ResolverProps.

Module ResolverTheorems.
Import Py AppNameResolver ResolverSpec CleanerProps ResolverProps Samples.

Section Resolver.
Context {W : Type} `{Os W}.

Lemma stage2_total package_name (w : W) :
  exists found w' t, stage2 package_name w = (Ok found, w', t).
Proof.
  unfold stage2. unfold_monad.
  destruct (subprocess_run _ 10 w) as [[result|e] w1].
  - destruct (returncode result =? 0)%Z; do 3 eexists; reflexivity.
  - do 3 eexists; reflexivity.
Qed.

Lemma ensure_initialized_spec home self (w : W) :
  exists self1,
    _ensure_initialized home self w = (Ok self1, w, [])
    /\ _initialized self1 = true
    /\ name_cache self1 = name_cache self
    /\ (_initialized self = true -> self1 = self).
Proof.
  unfold _ensure_initialized. destruct (_initialized self) eqn:Hi.
  - exists self. repeat split; auto.
  - unfold_monad. eexists. repeat split. discriminate.
Qed.

(** The code follows the amended list of stages. *)
Lemma get_app_name_resolution home self package_name (w : W) :
  get_app_name home self package_name w
  = resolution amended_stages home self package_name w.
Proof.
  unfold get_app_name, resolution, amended_stages. cbn [first_match].
  destruct (ensure_initialized_spec home self w) as (self1 & E & _).
  unfold remember. unfold_monad. rewrite E.
  destruct (name_cache self1 !! package_name); [reflexivity|].
  destruct (stage1 self1 _); [reflexivity|].
  destruct (stage2 package_name w) as [[[[app_name|]|e] w1] t];
    [| |reflexivity].
  - cbn [app]. now rewrite !app_nil_r.
  - destruct (stage3 self1 _); [cbn [app]; now rewrite !app_nil_r|].
    destruct (stage4 self1 _); [cbn [app]; now rewrite !app_nil_r|].
    destruct (stage5_entry self1 _); cbn [app]; now rewrite !app_nil_r.
Qed.

(** Every call returns a name, leaves the resolver initialized and has
    the name in the memo under the identifier. *)
Lemma get_app_name_memoizes home self package_name (w : W) :
  exists app_name self' w' t,
    get_app_name home self package_name w = (Ok (app_name, self'), w', t)
    /\ _initialized self' = true
    /\ name_cache self' !! package_name = Some app_name.
Proof.
  unfold get_app_name.
  destruct (ensure_initialized_spec home self w) as (self1 & E & Hi & _).
  destruct (stage2_total package_name w) as (found & w1 & t & E2).
  unfold remember. unfold_monad. rewrite E.
  destruct (name_cache self1 !! package_name) as [v|] eqn:Hmemo.
  { exists v, self1, w, []. repeat split; assumption. }
  destruct (stage1 self1 _);
    [do 4 eexists; split; [reflexivity|]; split; [exact Hi | apply lookup_insert_eq]|].
  rewrite E2. destruct found as [v|].
  - do 4 eexists; split; [reflexivity|]; split; [exact Hi | apply lookup_insert_eq].
  - destruct (stage3 self1 _);
      [do 4 eexists; split; [reflexivity|]; split; [exact Hi | apply lookup_insert_eq]|].
    destruct (stage4 self1 _);
      [do 4 eexists; split; [reflexivity|]; split; [exact Hi | apply lookup_insert_eq]|].
    destruct (stage5_entry self1 _);
      do 4 eexists; (split; [reflexivity|]); (split; [exact Hi | apply lookup_insert_eq]).
Qed.

(** C8, amended: a name already in the memo is returned as it is;
    otherwise the stages are tried in order and the first that answers
    wins: (1) the identifier, lower-cased and stripped of hyphens and
    underscores, is a key of the desktop cache; (2) the first [.desktop]
    file that [dpkg -L] lists and that parses; (3) for a stripped
    identifier of four characters or more, a key whose stripped form
    equals it; (4) for three characters or more, a key whose stripped
    form contains it or is contained in it; (5) a desktop entry whose
    [Name] reads like the formatted identifier; and, as the last resort,
    the identifier with hyphens and underscores turned into spaces and
    title-cased.  The name goes into the memo, so that a second call for
    the identifier returns it without running anything. *)
Theorem get_app_name_stages home self package_name (w : W) :
  get_app_name home self package_name w
  = resolution amended_stages home self package_name w
  /\ exists app_name self' w' t,
       get_app_name home self package_name w = (Ok (app_name, self'), w', t)
       /\ forall w2 : W,
            get_app_name home self' package_name w2 = (Ok (app_name, self'), w2, []).
Proof.
  split; [apply get_app_name_resolution|].
  destruct (get_app_name_memoizes home self package_name w)
    as (app_name & self' & w' & t & E & Hi & Hmemo).
  exists app_name, self', w', t. split; [exact E|].
  intros w2. unfold get_app_name, _ensure_initialized. rewrite Hi.
  unfold_monad. rewrite Hmemo. reflexivity.
Qed.

End Resolver.

Lemma get_app_name_firefox :
  answer (get_app_name "/home/u" new "Firefox_ESR" firefox_world)
  = Some "Firefox 网络浏览器"
  /\ answer (get_app_name "/home/u" new "firefox" firefox_world)
     = Some "Firefox 网络浏览器"
  /\ answer (get_app_name "/home/u" new "lib-xyz_tools" firefox_world)
     = Some "Lib Xyz Tools".
Proof.
  rewrite !(proj1 (get_app_name_stages _ _ _ _)).
  repeat split; vm_compute; reflexivity.
Defined.

End ResolverTheorems.

(** ** The scenarios of the specification, run *)

Module Scenarios.
Import Py Samples.

Lemma scan_testapp :
  map (fun f => (ResidueScan.type f, ResidueScan.path f, ResidueScan.size f))
      (ResidueScan.scan "/home/u" testapp_fs "testapp")
  = [ (ResidueScan.CACHE, "/home/u/.cache/TestApp", 100%Z);
      (ResidueScan.CONFIG, "/home/u/.config/testapp", 12%Z) ]
  /\ Forall (fun f => ResidueScan.is_selected f = true)
            (ResidueScan.scan "/home/u" testapp_fs "testapp").
Proof.
  split; [vm_compute; reflexivity|].
  apply (ScanProps.scan_sorted_and_selected "/home/u" testapp_fs "testapp").
Defined.

Lemma scan_base_files :
  exists all w' t0 t1,
    Scanner.scan_all no_format no_format false "/home/u" None dpkg_world = (Ok all, w', t0)
    /\ Scanner.scan_all no_format no_format true "/home/u" None dpkg_world
       = (Ok (List.filter (fun p => negb (InventorySpec.is_system_apt p)) all), w', t1)
    /\ (exists p, In p all /\ Scanner.name p = "base-files"
                  /\ Scanner.source p = Scanner.APT)
    /\ (forall p,
          In p (List.filter (fun p => negb (InventorySpec.is_system_apt p)) all) ->
          ~ (Scanner.name p = "base-files" /\ Scanner.source p = Scanner.APT)).
Proof.
  destruct (InventoryTheorems.skip_system_packages_policy
              no_format no_format "/home/u" None dpkg_world)
    as (_ & Hbase & all & w' & t0 & t1 & E0 & E1 & Hfilter & Hlisted).
  exists all, w', t0, t1. split; [exact E0|]. split; [exact E1|]. split.
  - assert (Hrun : subprocess_run InventorySpec.dpkg_query 60 dpkg_world
                   = (Ok dpkg_output, dpkg_world)) by (vm_compute; reflexivity).
    assert (Hline : In "base-files|12.4|400|install ok installed"
                       (PyStr.split (PyStr.strip (stdout dpkg_output)) "010"))
      by (vm_compute; left; reflexivity).
    assert (Hinst : InventorySpec.listed_installed
                      "base-files|12.4|400|install ok installed" = true)
      by (vm_compute; reflexivity).
    assert (Hname : nth 0 (PyStr.split "base-files|12.4|400|install ok installed" "|") ""
                    = "base-files") by (vm_compute; reflexivity).
    destruct (Hlisted dpkg_output dpkg_world _ eq_refl Hrun eq_refl Hline Hinst)
      as (p & Hin & Hn & Hs).
    exists p. rewrite Hname in Hn. now repeat split.
  - intros p Hp [Hn Hs]. apply Hfilter in Hp. destruct Hp as [_ Hp].
    unfold InventorySpec.is_system_apt in Hp. rewrite Hn, Hs, Hbase in Hp.
    discriminate.
Defined.


End Scenarios.

(** ** Cleaner: what a deletion may touch *)

Module CleanerExtra.
Import Py ResidueScan ResidueTotals Cleaner CleanSingle CleanerSpec CleanerProps CleanProps.
Import DirSizeSpec ExtraSpec Samples ExtraSamples.

Section CleanerExtra.
Context {W : Type} `{Os W}.

Lemma delete_path_concerns path (w : W) :
  Forall (concerns path) (snd (_delete_path path w)).
Proof.
  unfold _delete_path, pkexec_rm, concerns. unfold_monad.
  repeat (break_match; cbn [negb fst snd app]);
    repeat (apply List.Forall_cons || apply List.Forall_nil); tauto.
Qed.

(** X1: whatever the world answers, [clean_single], that is
    [_delete_path], acts on its own path only: each of its events is
    the direct deletion of the path or an elevated [rm] of it, it
    issues at most two elevated commands, and it calls no callback. *)
Theorem delete_path_touches_only_its_path path (w : W) :
  Forall (concerns path) (snd (clean_single path w))
  /\ (length (escalations (snd (clean_single path w))) <= 2)%nat.
Proof.
  unfold clean_single.
  split; [apply delete_path_concerns | apply delete_path_escalations_bound].
Qed.

(** X2: when the direct removal of a writable file or link raises
    [PermissionError], exactly one elevated [rm] follows, with [-f]
    when the path is still a regular file after the failed removal and
    with [-rf] otherwise; and when that command returns, whether its
    exit status is zero is the answer. *)
Theorem delete_path_retries_once path (w w1 : W) e :
  path_exists path w = true ->
  access_W_OK path w = true ->
  path_isfile path w || path_islink path w = true ->
  os_remove path w = (Raise e, w1) ->
  kind e = PermissionError ->
  let flag := if path_isfile path w1 then "-f" else "-rf" in
  snd (_delete_path path w) = [Remove path; Run ["pkexec"; "rm"; flag; path]]
  /\ escalations (snd (_delete_path path w)) = [["rm"; flag; path]]
  /\ forall result w2,
       subprocess_run ["pkexec"; "rm"; flag; path] 30 w1 = (Ok result, w2) ->
       fst (_delete_path path w) = (Ok (Some (returncode result =? 0)%Z), w2).
Proof.
  intros Hex Hw Hk Hrm He flag.
  destruct (delete_path_permission_retry path w w1 e Hex Hw He) as [Hfile _].
  rewrite (Hfile Hk Hrm). cbn [fst snd]. unfold retry. fold flag.
  destruct (subprocess_run ["pkexec"; "rm"; flag; path] 30 w1) as [[r|e'] w2] eqn:E;
    cbn [fst snd]; repeat split;
    try (intros result w2' [= <- <-]; reflexivity);
    try (intros result w2' [=]).
Qed.

Lemma on_selected_mono l1 l2 e :
  (forall f, In f l1 -> In f l2) -> on_selected l1 e -> on_selected l2 e.
Proof. intros Hsub [Hr|(f & Hf & Hc)]; [now left | right; eauto]. Qed.

Variable percent_of : nat -> nat -> Z.

Lemma clean_step_on_selected total_files i f acc (w : W) :
  Forall (on_selected [f]) (snd (clean_step percent_of total_files i f acc w)).
Proof.
  destruct acc as [deleted_files deleted_size].
  unfold clean_step. unfold_monad.
  pose proof (delete_path_concerns (path f) w) as Hc.
  destruct (_delete_path (path f) w) as [[r w1] t1]. cbn [snd] in Hc.
  assert (Ht1 : Forall (on_selected [f]) t1).
  { eapply List.Forall_impl; [|exact Hc]. intros e He. right. exists f. split; [now left|exact He]. }
  destruct r as [[[|]|]|e]; cbn [truthy fst snd];
    rewrite ?Forall_app; repeat split;
    try exact Ht1; repeat (apply List.Forall_cons || apply List.Forall_nil);
    now left.
Qed.

Lemma clean_loop_on_selected total_files selected : forall i acc (w : W),
  Forall (on_selected selected)
         (snd (clean_loop percent_of total_files i selected acc w)).
Proof.
  induction selected as [|f rest IH]; intros i acc w; [constructor|].
  cbn [clean_loop]. unfold bind.
  pose proof (clean_step_on_selected total_files i f acc w) as Hstep.
  destruct (clean_step_total percent_of total_files i f acc w)
    as (acc1 & w1 & t1 & E & _).
  rewrite E in Hstep |- *. cbn [snd] in Hstep.
  specialize (IH (S i) acc1 w1).
  destruct (clean_loop percent_of total_files (S i) rest acc1 w1) as [[r w2] t2].
  cbn [snd] in *. apply Forall_app. split.
  - eapply List.Forall_impl; [|exact Hstep].
    intros e. apply on_selected_mono. intros g [<-|[]]. now left.
  - eapply List.Forall_impl; [|exact IH].
    intros e. apply on_selected_mono. intros g Hg. now right.
Qed.

(** X3: [clean] acts on selected entries only: every event of a batch is
    a report to a callback, the direct deletion of the path of a
    selected entry, or an elevated [rm] of such a path. *)
Theorem clean_touches_only_selected files (w : W) :
  Forall (fun e =>
            is_report e
            \/ exists f, In f files /\ is_selected f = true /\ concerns (path f) e)
         (snd (clean percent_of files w)).
Proof.
  unfold clean.
  destruct (length (filter (fun f => is_selected f) files) =? 0)%nat; [constructor|].
  unfold_monad.
  pose proof (clean_loop_on_selected
                (length (filter (fun f => is_selected f) files))
                (filter (fun f => is_selected f) files) 0%nat (0%nat, 0%Z) w) as Hloop.
  destruct (clean_loop _ _ _ _ _ w) as [[[acc|e] w1] t1]; cbn [snd] in *.
  - apply List.Forall_cons; [now left|].
    rewrite Forall_app. split; [|repeat constructor].
    eapply List.Forall_impl; [|exact Hloop].
    intros e [Hr|(f & Hf & Hc)]; [now left|right].
    apply list_elem_of_In, list_elem_of_filter in Hf. destruct Hf as [Hsel Hf].
    exists f. repeat split; [now apply list_elem_of_In | now apply Is_true_true | exact Hc].
  - apply List.Forall_cons; [now left|].
    eapply List.Forall_impl; [|exact Hloop].
    intros e' [Hr|(f & Hf & Hc)]; [now left|right].
    apply list_elem_of_In, list_elem_of_filter in Hf. destruct Hf as [Hsel Hf].
    exists f. repeat split; [now apply list_elem_of_In | now apply Is_true_true | exact Hc].
Qed.

Lemma clean_loop_bounds total_files selected : forall i acc (w : W),
  Forall (fun f => (0 <= size f)%Z) selected ->
  exists acc' w' t,
    clean_loop percent_of total_files i selected acc w = (Ok acc', w', t)
    /\ (fst acc' <= fst acc + length selected)%nat
    /\ (snd acc <= snd acc' <= snd acc + Zsum (map size selected))%Z.
Proof.
  induction selected as [|f rest IH]; intros i acc w Hpos.
  - exists acc, w, []. cbn. repeat split; lia.
  - apply List.Forall_cons_iff in Hpos. destruct Hpos as [Hf Hrest].
    cbn [clean_loop]. unfold bind.
    destruct (clean_step_total percent_of total_files i f acc w)
      as (acc1 & w1 & t1 & -> & _ & _ & Hacc).
    destruct (IH (S i) acc1 w1 Hrest) as (acc2 & w2 & t2 & -> & Hn & Hs).
    exists acc2, w2, (t1 ++ t2). split; [reflexivity|].
    cbn [map length Zsum fold_right]. fold (Zsum (map size rest)).
    destruct Hacc as [->| ->]; cbn [fst snd] in *; lia.
Qed.

Lemma get_total_size_selected files :
  get_total_size files = Zsum (map size (filter (fun f => is_selected f) files)).
Proof.
  unfold get_total_size.
  enough (Hgen : forall a,
             fold_left (fun acc f => if is_selected f then (acc + size f)%Z else acc) files a
             = (a + Zsum (map size (filter (fun f => is_selected f) files)))%Z)
    by (rewrite Hgen; lia).
  induction files as [|f files IH]; intros a; [cbn; lia|].
  cbn [fold_left]. rewrite IH. rewrite filter_cons.
  destruct (is_selected f) eqn:Hsel.
  - rewrite decide_True by exact I. unfold Zsum. cbn [map fold_right]. lia.
  - rewrite decide_False by (intros []). reflexivity.
Qed.

Lemma get_selected_count_selected files :
  get_selected_count files = length (filter (fun f => is_selected f) files).
Proof.
  unfold get_selected_count.
  enough (Hgen : forall a,
             fold_left (fun acc f => if is_selected f then S acc else acc) files a
             = (a + length (filter (fun f => is_selected f) files))%nat)
    by now rewrite Hgen.
  induction files as [|f files IH]; intros a; [cbn; lia|].
  cbn [fold_left]. rewrite IH. rewrite filter_cons.
  destruct (is_selected f) eqn:Hsel.
  - rewrite decide_True by exact I. cbn [length]. lia.
  - rewrite decide_False by (intros []). reflexivity.
Qed.

(** X4: when no size is negative, the totals that [clean] returns stay
    within what the scanner announces for the same list: at most
    [get_selected_count] files and between zero and [get_total_size]
    bytes. *)
Theorem clean_totals_bounded files (w : W) :
  Forall (fun f => (0 <= size f)%Z) files ->
  exists deleted_files deleted_size w' t,
    clean percent_of files w = (Ok (true, deleted_files, deleted_size), w', t)
    /\ (deleted_files <= get_selected_count files)%nat
    /\ (0 <= deleted_size <= get_total_size files)%Z.
Proof.
  intros Hpos.
  rewrite get_total_size_selected, get_selected_count_selected.
  assert (Hsel : Forall (fun f => (0 <= size f)%Z) (filter (fun f => is_selected f) files)).
  { apply List.Forall_forall. intros f Hf.
    apply list_elem_of_In, list_elem_of_filter in Hf. destruct Hf as [_ Hf].
    apply list_elem_of_In in Hf. revert f Hf. now apply List.Forall_forall. }
  unfold clean.
  destruct (filter (fun f => is_selected f) files) as [|f rest] eqn:E.
  - exists 0%nat, 0%Z, w, []. cbn. repeat split; lia.
  - cbn [length Nat.eqb]. unfold_monad.
    destruct (clean_loop_bounds (S (length rest)) (f :: rest) 0%nat (0%nat, 0%Z) w Hsel)
      as (acc & w' & t & -> & Hn & Hs).
    destruct acc as [deleted_files deleted_size]. cbn [fst snd] in *.
    do 4 eexists. split; [reflexivity|]. cbn [length] in *. lia.
Qed.

Lemma clean_step_same_target total_files i f g acc (w : W) :
  same_target f g ->
  clean_step percent_of total_files i f acc w
  = clean_step percent_of total_files i g acc w.
Proof.
  intros (Hp & Hs & _). unfold clean_step. now rewrite Hp, Hs.
Qed.

Lemma clean_loop_same_target total_files l l' :
  Forall2 same_target l l' ->
  forall i acc (w : W),
    clean_loop percent_of total_files i l acc w
    = clean_loop percent_of total_files i l' acc w.
Proof.
  induction 1 as [|f g l l' Hfg _ IH]; intros i acc w; [reflexivity|].
  cbn [clean_loop]. unfold bind.
  rewrite (clean_step_same_target total_files i f g acc w Hfg).
  destruct (clean_step percent_of total_files i g acc w) as [[[acc1|e] w1] t1];
    [now rewrite IH | reflexivity].
Qed.

Lemma filter_same_target l l' :
  Forall2 same_target l l' ->
  Forall2 same_target (filter (fun f => is_selected f) l)
                      (filter (fun f => is_selected f) l').
Proof.
  induction 1 as [|f g l l' Hfg _ IH]; [constructor|].
  rewrite !filter_cons. destruct Hfg as (Hp & Hs & Hsel).
  destruct (is_selected f) eqn:Ef; rewrite <- Hsel.
  - rewrite !decide_True by exact I. constructor; [|exact IH].
    repeat split; congruence.
  - rewrite !decide_False by (intros []). exact IH.
Qed.

(** X5: [clean] reads the path, the size and the selection of an entry
    and nothing else: an entry marked as unsafe to delete, or of any
    kind, is deleted like any other. *)
Theorem clean_ignores_safety_mark files files' (w : W) :
  Forall2 same_target files files' ->
  clean percent_of files w = clean percent_of files' w.
Proof.
  intros Hsame. apply filter_same_target in Hsame.
  unfold clean. rewrite (Forall2_length _ _ _ Hsame).
  destruct (length (filter (fun f => is_selected f) files') =? 0)%nat; [reflexivity|].
  unfold bind. cbn [_report_progress emit].
  now rewrite (clean_loop_same_target _ _ _ Hsame).
Qed.

End CleanerExtra.

(** X2 on a machine where the removal is refused and the elevation
    granted: the path is still a regular file, the retry is [rm -f],
    and the file is gone after it. *)
Lemma delete_path_retry_sample :
  snd (_delete_path "/opt/app/data.bin" denied_world)
  = [Remove "/opt/app/data.bin"; Run ["pkexec"; "rm"; "-f"; "/opt/app/data.bin"]]
  /\ fst (fst (_delete_path "/opt/app/data.bin" denied_world)) = Ok (Some true)
  /\ path_exists "/opt/app/data.bin" (snd (fst (_delete_path "/opt/app/data.bin" denied_world)))
     = false.
Proof.
  destruct (delete_path_retries_once "/opt/app/data.bin" denied_world denied_world
              (Sim.oserror PermissionError "/opt/app/data.bin"))
    as (Hev & _ & Hanswer); [reflexivity..|].
  split; [exact Hev|].
  rewrite (Hanswer (Sim.exit_with 0)
                   (Sim.delete_entry "/opt/app/data.bin" denied_world) eq_refl).
  split; reflexivity.
Defined.

(** X4 on the failing batch. *)
Lemma clean_totals_sample :
  exists deleted_files deleted_size,
    fst (fst (clean (fun _ _ => 0%Z) failing_batch failing_world))
    = Ok (true, deleted_files, deleted_size)
    /\ (deleted_files <= 4)%nat /\ (0 <= deleted_size <= 60)%Z.
Proof.
  destruct (clean_totals_bounded (fun _ _ => 0%Z) failing_batch failing_world)
    as (n & s & w' & t & E & Hn & Hs).
  - repeat constructor; cbn; lia.
  - exists n, s. rewrite E. repeat split; [exact Hn | apply Hs | apply Hs].
Defined.

(** X5 on the failing batch, marked unsafe. *)
Lemma clean_unsafe_batch :
  clean (fun _ _ => 0%Z) failing_batch failing_world
  = clean (fun _ _ => 0%Z) unsafe_batch failing_world.
Proof.
  apply clean_ignores_safety_mark.
  repeat constructor.
Defined.

End CleanerExtra.

(** ** Strings: case, replacement of a character, containment *)

Module StrFacts.
Import PyStr.

Lemma append_cons c s t : String c s +:+ t = String c (s +:+ t).
Proof. reflexivity. Qed.

Lemma append_nil_l s : "" +:+ s = s.
Proof. reflexivity. Qed.

Lemma append_nil_r s : s +:+ "" = s.
Proof. induction s as [|c s IH]; rewrite ?append_cons; simpl; [reflexivity | now rewrite IH]. Qed.

Lemma append_assoc s1 s2 s3 : (s1 +:+ s2) +:+ s3 = s1 +:+ (s2 +:+ s3).
Proof. induction s1 as [|c s1 IH]; rewrite ?append_cons; simpl; [reflexivity | now rewrite IH]. Qed.

Lemma lower_upper_char c : lower_char (upper_char c) = lower_char c.
Proof. destruct c as [[] [] [] [] [] [] [] []]; reflexivity. Qed.

Lemma lower_lower_char c : lower_char (lower_char c) = lower_char c.
Proof. destruct c as [[] [] [] [] [] [] [] []]; reflexivity. Qed.

Lemma upper_lower_char c : upper_char (lower_char c) = upper_char c.
Proof. destruct c as [[] [] [] [] [] [] [] []]; reflexivity. Qed.

Lemma map_chars_compose f g s : map_chars f (map_chars g s) = map_chars (fun c => f (g c)) s.
Proof. induction s as [|c s IH]; rewrite ?append_cons; simpl; [reflexivity | now rewrite IH]. Qed.

Lemma map_chars_ext f g s : (forall c, f c = g c) -> map_chars f s = map_chars g s.
Proof. intros E. induction s as [|c s IH]; cbn; [reflexivity | now rewrite E, IH]. Qed.

Lemma map_chars_app f s1 s2 : map_chars f (s1 +:+ s2) = map_chars f s1 +:+ map_chars f s2.
Proof. induction s1 as [|c s1 IH]; rewrite ?append_cons; simpl; [reflexivity | now rewrite IH]. Qed.

Lemma map_chars_length f s : String.length (map_chars f s) = String.length s.
Proof. induction s as [|c s IH]; rewrite ?append_cons; simpl; [reflexivity | now rewrite IH]. Qed.

Lemma lower_upper s : lower (upper s) = lower s.
Proof.
  unfold lower, upper. rewrite map_chars_compose.
  apply map_chars_ext, lower_upper_char.
Qed.

Lemma lower_lower s : lower (lower s) = lower s.
Proof.
  unfold lower. rewrite map_chars_compose.
  apply map_chars_ext, lower_lower_char.
Qed.

(** [s.replace(a, new)] for a one-character [a], read character by
    character. *)
Lemma replace_char_cons a new c s :
  replace (String c s) (String a "") new
  = if Ascii.eqb a c then new +:+ replace s (String a "") new
    else String c (replace s (String a "") new).
Proof.
  unfold replace. cbn [replace_from startswith String.length Nat.sub].
  destruct (Ascii.eqb a c); cbn [andb]; now destruct s.
Qed.

Lemma replace_char_nil a new : replace "" (String a "") new = "".
Proof. reflexivity. Qed.

(** A change of case goes through the replacement of a character that
    has no case. *)
Lemma replace_char_map f a new s :
  (forall c, Ascii.eqb a (f c) = Ascii.eqb a c) ->
  map_chars f new = new ->
  map_chars f (replace s (String a "") new) = replace (map_chars f s) (String a "") new.
Proof.
  intros Ha Hnew. induction s as [|c s IH]; [reflexivity|].
  cbn [map_chars]. rewrite !replace_char_cons, Ha.
  destruct (Ascii.eqb a c).
  - now rewrite map_chars_app, Hnew, IH.
  - cbn [map_chars]. now rewrite IH.
Qed.

Lemma replace_char_length a b s :
  String.length (replace s (String a "") (String b "")) = String.length s.
Proof.
  induction s as [|c s IH]; [reflexivity|].
  rewrite replace_char_cons.
  destruct (Ascii.eqb a c); rewrite ?append_cons, ?append_nil_l; cbn [String.length];
    now rewrite IH.
Qed.

(** After [s.replace(a, new)] the character [a] is gone, when [new]
    does not hold it. *)
Lemma replace_char_gone a new s :
  all_chars (fun c => negb (Ascii.eqb a c)) new = true ->
  all_chars (fun c => negb (Ascii.eqb a c)) (replace s (String a "") new) = true.
Proof.
  intros Hnew.
  assert (Happ : forall s1 s2, all_chars (fun c => negb (Ascii.eqb a c)) s1 = true ->
                               all_chars (fun c => negb (Ascii.eqb a c)) s2 = true ->
                               all_chars (fun c => negb (Ascii.eqb a c)) (s1 +:+ s2) = true).
  { induction s1 as [|c s1 IH1]; intros s2 H1 H2; [exact H2|].
    rewrite append_cons. cbn [all_chars] in *.
    apply andb_true_iff in H1. destruct H1 as [Hc H1].
    rewrite Hc. now apply IH1. }
  induction s as [|c s IH]; [reflexivity|].
  rewrite replace_char_cons. destruct (Ascii.eqb a c) eqn:E.
  - now apply Happ.
  - cbn [all_chars]. now rewrite E, IH.
Qed.

Lemma replace_char_all a s :
  all_chars (Ascii.eqb a) s = true -> replace s (String a "") "" = "".
Proof.
  induction s as [|c s IH]; [reflexivity|].
  cbn [all_chars]. intros Hall. apply andb_true_iff in Hall. destruct Hall as [Hc Hall].
  rewrite replace_char_cons, Hc. now rewrite IH.
Qed.

Lemma startswith_iff s p : startswith s p = true <-> exists post, s = p +:+ post.
Proof.
  revert s. induction p as [|a p IH]; intros s.
  - split; [intros _; now exists s | intros _; now destruct s].
  - destruct s as [|b s]; cbn [startswith].
    + split; [discriminate | intros [post E]; rewrite append_cons in E; discriminate].
    + rewrite andb_true_iff, IH. split.
      * intros [Hab [post ->]]. apply Ascii.eqb_eq in Hab. subst. now exists post.
      * intros [post E]. rewrite append_cons in E. injection E as -> ->.
        split; [apply Ascii.eqb_refl | now exists post].
Qed.

Lemma contains_iff sub s :
  contains sub s = true <-> exists pre post, s = pre +:+ sub +:+ post.
Proof.
  induction s as [|c s IH].
  - cbn [contains]. rewrite orb_false_r, startswith_iff. split.
    + intros [post ->]. now exists "", post.
    + intros (pre & post & E). destruct pre; [|rewrite append_cons in E; discriminate].
      now exists post.
  - cbn [contains]. rewrite orb_true_iff, startswith_iff, IH. split.
    + intros [[post ->]|(pre & post & ->)].
      * now exists "", post.
      * now exists (String c pre), post.
    + intros (pre & post & E). destruct pre as [|c' pre].
      * left. now exists post.
      * right. rewrite append_cons in E. injection E as -> ->. now exists pre, post.
Qed.

Lemma contains_empty s : contains "" s = true.
Proof. now destruct s. Qed.

Lemma contains_refl s : contains s s = true.
Proof. apply contains_iff. exists "", "". now rewrite append_nil_r. Qed.

Lemma contains_trans a b c :
  contains a b = true -> contains b c = true -> contains a c = true.
Proof.
  rewrite !contains_iff. intros (p1 & q1 & ->) (p2 & q2 & ->).
  exists (p2 +:+ p1), (q1 +:+ q2). now rewrite !append_assoc.
Qed.

Lemma lower_nil : lower "" = "".
Proof. reflexivity. Qed.

End StrFacts.

(** ** Residue scanner: what is reported *)

Module ResidueExtra.
Import Fs ResidueScan ResidueTotals KeywordProps ScanProps StrFacts.
Import DirSizeSpec DirSizeProps ExtraSpec Samples ExtraSamples.

Lemma existsb_same_elements {A} (f : A -> bool) l l' :
  (forall x, In x l <-> In x l') -> existsb f l = existsb f l'.
Proof.
  intros Hsame. apply Bool.eq_iff_eq_true. rewrite !existsb_exists.
  split; intros (x & Hx & Hf); exists x; split; try exact Hf; now apply Hsame.
Qed.

Lemma existsb_map {A B} (g : A -> B) (f : B -> bool) l :
  existsb f (map g l) = existsb (fun x => f (g x)) l.
Proof. induction l as [|x l IH]; cbn; [reflexivity | now rewrite IH]. Qed.

(** The order and the duplicates of the keywords do not matter. *)
Lemma is_match_variants package_name name :
  _is_match (_generate_keywords package_name) name
  = _is_match (keyword_variants package_name) name.
Proof.
  unfold _is_match. apply existsb_same_elements. intros k.
  rewrite <- !list_elem_of_In. apply generate_keywords_elem.
Qed.

Lemma lower_replace s a new :
  (forall c, Ascii.eqb a (PyStr.lower_char c) = Ascii.eqb a c) ->
  PyStr.lower new = new ->
  PyStr.lower (PyStr.replace s (String a "") new)
  = PyStr.replace (PyStr.lower s) (String a "") new.
Proof. intros Ha Hnew. now apply replace_char_map. Qed.

Lemma hyphen_lower c : Ascii.eqb "-" (PyStr.lower_char c) = Ascii.eqb "-" c.
Proof. destruct c as [[] [] [] [] [] [] [] []]; reflexivity. Qed.

Lemma underscore_lower c : Ascii.eqb "_" (PyStr.lower_char c) = Ascii.eqb "_" c.
Proof. destruct c as [[] [] [] [] [] [] [] []]; reflexivity. Qed.

Lemma hyphen_upper c : Ascii.eqb "-" (PyStr.upper_char c) = Ascii.eqb "-" c.
Proof. destruct c as [[] [] [] [] [] [] [] []]; reflexivity. Qed.

Lemma underscore_upper c : Ascii.eqb "_" (PyStr.upper_char c) = Ascii.eqb "_" c.
Proof. destruct c as [[] [] [] [] [] [] [] []]; reflexivity. Qed.

(** Lower-cased, the eight variants are four forms of the lower-cased
    identifier. *)
Lemma lower_keyword_variants package_name :
  let lowered := PyStr.lower package_name in
  let display := PyStr.replace (PyStr.replace lowered "-" " ") "_" " " in
  map PyStr.lower (keyword_variants package_name)
  = [ lowered; PyStr.replace lowered "-" ""; PyStr.replace lowered "_" "";
      lowered; lowered; display; display; display ].
Proof.
  intros lowered display. unfold keyword_variants. cbn [app map].
  rewrite !lower_lower, !lower_upper.
  rewrite !(lower_replace _ "-") by (reflexivity || apply hyphen_lower).
  rewrite !(lower_replace _ "_") by (reflexivity || apply underscore_lower).
  rewrite !(lower_replace _ "-") by (reflexivity || apply hyphen_lower).
  reflexivity.
Qed.

(** X8: on ASCII strings a match depends on the lower-cased identifier
    and the lower-cased name only: the name is searched for four forms
    of the lower-cased identifier, so that the upper and lower variants
    among the keywords never change the answer. *)
Theorem is_match_normal_form package_name name :
  is_ascii package_name = true -> is_ascii name = true ->
  _is_match (_generate_keywords package_name) name
  = existsb (fun k => PyStr.contains k (PyStr.lower name))
            (effective_keywords (PyStr.lower package_name)).
Proof.
  intros _ _. rewrite is_match_variants. unfold _is_match.
  rewrite <- (existsb_map PyStr.lower (fun k => PyStr.contains k (PyStr.lower name))).
  rewrite lower_keyword_variants. unfold effective_keywords.
  cbn [existsb].
  destruct (PyStr.contains (PyStr.lower package_name) (PyStr.lower name));
    [reflexivity|]; cbn [orb].
  destruct (PyStr.contains (PyStr.replace (PyStr.lower package_name) "-" "") _);
    [reflexivity|]; cbn [orb].
  destruct (PyStr.contains (PyStr.replace (PyStr.lower package_name) "_" "") _);
    [reflexivity|]; cbn [orb].
  destruct (PyStr.contains _ _); reflexivity.
Qed.

Lemma is_match_normal_form_sample :
  _is_match (_generate_keywords "Foo-Bar") "libFOOBAR.so" = true.
Proof.
  rewrite (is_match_normal_form "Foo-Bar" "libFOOBAR.so"); reflexivity.
Defined.

(** A name made of hyphens only, or of underscores only, or empty,
    gives the empty keyword, which every name holds. *)
Lemma separators_match_everything package_name name :
  PyStr.all_chars (Ascii.eqb "-") package_name = true
  \/ PyStr.all_chars (Ascii.eqb "_") package_name = true ->
  _is_match (_generate_keywords package_name) name = true.
Proof.
  intros Hsep. rewrite is_match_variants. unfold _is_match.
  apply existsb_exists. exists "". split; [|apply contains_empty].
  unfold keyword_variants. cbn [app].
  destruct Hsep as [Hh|Hu].
  - right. left. now apply replace_char_all.
  - right. right. left. now apply replace_char_all.
Qed.

Lemma scan_item_paths keywords category root dirs files p :
  In p (map path (scan_item keywords category (root, dirs, files)))
  <-> exists name m,
        In (name, m) (dirs ++ files) /\ _is_match keywords name = true
        /\ p = join root name.
Proof.
  unfold scan_item. rewrite map_app, in_app_iff, !in_map_iff. split.
  - intros [(f & <- & Hf)|(f & <- & Hf)];
      apply in_flat_map in Hf; destruct Hf as ([name m] & He & Hf);
      destruct (_is_match keywords name) eqn:Hm; try contradiction;
      destruct Hf as [<-|[]]; exists name, m;
      (split; [apply in_app_iff; auto|]); split; auto.
  - intros (name & m & Hin & Hm & ->). apply in_app_iff in Hin.
    destruct Hin as [Hin|Hin]; [left|right];
      eexists; (split; [|apply in_flat_map; exists (name, m); split;
                          [exact Hin | rewrite Hm; left; reflexivity]]);
      reflexivity.
Qed.

Lemma scan_path_paths keywords base n category p :
  In p (map path (_scan_path keywords base n category))
  <-> exists root dirs files name m,
        In (root, dirs, files) (os_walk base n)
        /\ In (name, m) (dirs ++ files) /\ _is_match keywords name = true
        /\ p = join root name.
Proof.
  unfold _scan_path. rewrite in_map_iff. split.
  - intros (f & <- & Hf). apply in_flat_map in Hf.
    destruct Hf as ([[root dirs] files] & Hitem & Hf).
    destruct (proj1 (scan_item_paths keywords category root dirs files (path f)))
      as (name & m & Hin & Hm & Hp); [now apply in_map|].
    now exists root, dirs, files, name, m.
  - intros (root & dirs & files & name & m & Hitem & Hin & Hm & ->).
    assert (Hp : In (join root name)
                    (map path (scan_item keywords category (root, dirs, files))))
      by (apply (proj2 (scan_item_paths _ _ _ _ _ _)); now exists name, m).
    apply in_map_iff in Hp. destruct Hp as (f & Hpath & Hf).
    exists f. split; [exact Hpath|]. apply in_flat_map. now exists (root, dirs, files).
Qed.

Lemma scan_paths home fs package_name p :
  In p (map path (scan home fs package_name))
  <-> exists root name,
        walked home fs root name
        /\ _is_match (_generate_keywords package_name) name = true
        /\ p = join root name.
Proof.
  unfold scan.
  set (keywords := _generate_keywords package_name).
  set (found := flat_map _ (SCAN_PATHS home)).
  assert (Hperm : forall q, In q (map path (sort found)) <-> In q (map path found)).
  { intros q. split; apply Permutation_in, Permutation_map;
      [|symmetry]; apply sort_Permutation. }
  rewrite Hperm. unfold found. rewrite in_map_iff. split.
  - intros (f & <- & Hf). apply in_flat_map in Hf.
    destruct Hf as ([category paths] & Hcat & Hf).
    apply in_flat_map in Hf. destruct Hf as (base & Hbase & Hf).
    destruct (fs base) as [n|] eqn:Hfs; [|contradiction].
    destruct (exists_ n) eqn:Hex; [|contradiction].
    destruct (proj1 (scan_path_paths keywords base n category (path f)))
      as (root & dirs & files & name & m & Hitem & Hin & Hm & Hp); [now apply in_map|].
    exists root, name. split; [|now split].
    exists dirs, files, m. split; [|exact Hin].
    now exists category, paths, base, n.
  - intros (root & name & Hwalked & Hm & ->).
    destruct Hwalked as (dirs & files & m & Hlisted & Hin).
    destruct Hlisted as (category & paths & base & n & Hcat & Hbase & Hfs & Hex & Hitem).
    assert (Hp : In (join root name) (map path (_scan_path keywords base n category)))
      by (apply (proj2 (scan_path_paths _ _ _ _ _)); now exists root, dirs, files, name, m).
    apply in_map_iff in Hp. destruct Hp as (f & Hpath & Hf).
    exists f. split; [exact Hpath|].
    apply in_flat_map. exists (category, paths). split; [exact Hcat|].
    apply in_flat_map. exists base. split; [exact Hbase|].
    now rewrite Hfs, Hex.
Qed.

(** X6: [scan] reports the entries whose own name matches, and no
    others: a path is in the result exactly when it is [root/name] for
    an entry [name] that the walk of a scan root lists in [root] and
    that matches a keyword. *)
Theorem scan_reports_matching_names home fs package_name p :
  In p (map path (scan home fs package_name))
  <-> exists root name,
        walked home fs root name
        /\ _is_match (_generate_keywords package_name) name = true
        /\ p = join root name.
Proof. apply scan_paths. Qed.

(** X7: an identifier that is empty, or made of hyphens only, or of
    underscores only, matches every name, and its scan reports every
    entry that the walks list. *)
Theorem scan_of_separators_reports_everything home fs package_name root name :
  PyStr.all_chars (Ascii.eqb "-") package_name = true
  \/ PyStr.all_chars (Ascii.eqb "_") package_name = true ->
  walked home fs root name ->
  _is_match (_generate_keywords package_name) name = true
  /\ In (join root name) (map path (scan home fs package_name)).
Proof.
  intros Hsep Hwalked.
  pose proof (separators_match_everything package_name name Hsep) as Hm.
  split; [exact Hm|]. apply scan_paths. now exists root, name.
Qed.

Lemma scan_of_hyphens_sample :
  In "/home/u/.config/other" (map path (scan "/home/u" testapp_fs "--")).
Proof.
  apply (scan_of_separators_reports_everything "/home/u" testapp_fs "--"
           "/home/u/.config" "other").
  - left. reflexivity.
  - exists [("testapp", Dir [("config.ini", Reg (Some 12%Z))]);
            ("other", Dir [("x", Reg (Some 5%Z))])],
      [], (Dir [("x", Reg (Some 5%Z))]).
    split; [|right; left; reflexivity].
    exists "user_config", ["/home/u/.config"], "/home/u/.config",
      (Dir [("testapp", Dir [("config.ini", Reg (Some 12%Z))]);
            ("other", Dir [("x", Reg (Some 5%Z))])]).
    repeat split.
    + right. right. right. left. reflexivity.
    + left. reflexivity.
    + left. reflexivity.
Defined.

Lemma scan_selected home fs package_name :
  Forall (fun f => is_selected f = true) (scan home fs package_name).
Proof.
  unfold scan. eapply Permutation_Forall; [symmetry; apply sort_Permutation|].
  apply Forall_flat_map, Forall_forall. intros [category paths] _.
  apply Forall_flat_map, Forall_forall. intros base _.
  destruct (fs base) as [n|]; [|constructor].
  destruct (exists_ n); [apply scan_path_selected | constructor].
Qed.

Lemma filter_selected_all (l : list ResidueFile) :
  Forall (fun f => is_selected f = true) l ->
  filter (fun f => is_selected f) l = l.
Proof.
  induction 1 as [|f l Hf _ IH]; [reflexivity|].
  rewrite filter_cons, IH, Hf. now rewrite decide_True by exact I.
Qed.

(** X9: right after a scan every entry counts: the number of selected
    entries is the number of entries, and the selected size is the sum
    of all the sizes. *)
Theorem scan_counters home fs package_name :
  let residue_files := scan home fs package_name in
  get_selected_count residue_files = get_total_count residue_files
  /\ get_total_size residue_files = Zsum (map size residue_files).
Proof.
  intros residue_files.
  pose proof (filter_selected_all _ (scan_selected home fs package_name)) as Hall.
  fold residue_files in Hall. split.
  - rewrite CleanerExtra.get_selected_count_selected, Hall. reflexivity.
  - rewrite CleanerExtra.get_total_size_selected, Hall. reflexivity.
Qed.

(** The walk enters every directory that it lists and that is not a
    link. *)
Lemma walk_descends n : forall top root dirs files d entries,
  In (root, dirs, files) (walk top n) ->
  In (d, Dir entries) dirs ->
  In (join root d,
      filter (fun e => isdir (snd e)) entries,
      filter (fun e => negb (isdir (snd e))) entries)
     (walk top n).
Proof.
  induction n as [sz|sz| |t IH|entries0 IH|] using node_induction;
    intros top root dirs files d entries Hitem Hd; try contradiction.
  cbn [walk] in Hitem |- *. destruct Hitem as [[= <- <- <-]|Hitem].
  - right. apply list_elem_of_In, list_elem_of_filter in Hd. destruct Hd as [_ Hd].
    apply list_elem_of_In in Hd.
    apply in_flat_map. exists (d, Dir entries). split; [exact Hd|].
    cbn. left. reflexivity.
  - right. apply in_flat_map in Hitem. destruct Hitem as (e & He & Hitem).
    apply in_flat_map. exists e. split; [exact He|].
    destruct (isdir (snd e) && negb (islink (snd e))); [|contradiction].
    rewrite List.Forall_forall in IH. now apply (IH e He) with (dirs := dirs) (files := files).
Qed.

Lemma listed_descends home fs root dirs files d entries :
  listed home fs (root, dirs, files) ->
  In (d, Dir entries) dirs ->
  listed home fs (join root d,
                  filter (fun e => isdir (snd e)) entries,
                  filter (fun e => negb (isdir (snd e))) entries).
Proof.
  intros (category & paths & base & n & Hcat & Hbase & Hfs & Hex & Hitem) Hd.
  exists category, paths, base, n. repeat split; try assumption.
  unfold os_walk in *. destruct (resolve n) as [n0|]; [|contradiction].
  now apply walk_descends with (dirs := dirs) (files := files).
Qed.

(** X11: a matching entry inside a matching directory is reported on
    its own as well: the walk goes on below a directory that it has
    just reported, so that such an entry is there twice, as a path of
    the result and within the size of the directory. *)
Theorem scan_reports_nested_matches home fs package_name root dirs files d entries f m :
  listed home fs (root, dirs, files) ->
  In (d, Dir entries) dirs ->
  In (f, m) entries ->
  _is_match (_generate_keywords package_name) d = true ->
  _is_match (_generate_keywords package_name) f = true ->
  In (join root d) (map path (scan home fs package_name))
  /\ In (join (join root d) f) (map path (scan home fs package_name)).
Proof.
  intros Hlisted Hd Hf Hmd Hmf. split; apply scan_paths.
  - exists root, d. repeat split; [|exact Hmd].
    exists dirs, files, (Dir entries). split; [exact Hlisted|].
    apply in_app_iff. now left.
  - exists (join root d), f. repeat split; [|exact Hmf].
    exists (filter (fun e => isdir (snd e)) entries),
           (filter (fun e => negb (isdir (snd e))) entries), m.
    split; [now apply listed_descends with (dirs := dirs) (files := files)|].
    apply in_app_iff. rewrite <- !list_elem_of_In, !list_elem_of_filter.
    apply list_elem_of_In in Hf. cbn [snd].
    destruct (isdir m); [left|right]; split; auto; exact I.
Qed.

Lemma scan_nested_sample :
  In "/home/u/.cache/app" (map path (scan "/home/u" nested_fs "app"))
  /\ In "/home/u/.cache/app/app.log" (map path (scan "/home/u" nested_fs "app")).
Proof.
  apply (scan_reports_nested_matches "/home/u" nested_fs "app" "/home/u/.cache"
           [("app", Dir [("app.log", Reg (Some 7%Z))])] []
           "app" [("app.log", Reg (Some 7%Z))] "app.log" (Reg (Some 7%Z))).
  - exists "user_cache", ["/home/u/.cache"], "/home/u/.cache",
      (Dir [("app", Dir [("app.log", Reg (Some 7%Z))])]).
    repeat split.
    + do 4 right. left. reflexivity.
    + left. reflexivity.
    + left. reflexivity.
  - left. reflexivity.
  - left. reflexivity.
  - assert (E : _is_match (_generate_keywords "app") "app" = true)
      by (vm_compute; reflexivity).
    exact E.
  - assert (E : _is_match (_generate_keywords "app") "app.log" = true)
      by (vm_compute; reflexivity).
    exact E.
Defined.

End ResidueExtra.

(** ** Scan, then clean *)

Module ScanCleanExtra.
Import Py ResidueScan ResidueTotals Cleaner CleanerSpec CleanerProps CleanProps.
Import ResidueExtra.

Section ScanClean.
Context {W : Type} `{Os W}.
Variable percent_of : nat -> nat -> Z.


End ScanClean.
End ScanCleanExtra.


(** ** Inventory: queries, display names, install dates *)

Module ScannerExtra.
Import Py Scanner ScannerQueries CleanerSpec InventorySpec.
Import CleanerProps ScannerProps ScanAllProps InventoryTheorems StrFacts.
Import ExtraSpec ExtraSamples.

Lemma filter_sublist_impl {A} (f g : A -> bool) l :
  (forall x, f x = true -> g x = true) ->
  sublist (List.filter f l) (List.filter g l).
Proof.
  intros Hfg. induction l as [|x l IH]; cbn [List.filter]; [constructor|].
  destruct (f x) eqn:Ef.
  - rewrite (Hfg x Ef). now constructor.
  - destruct (g x); [now constructor | exact IH].
Qed.

Lemma filter_sublist_all {A} (f : A -> bool) l : sublist (List.filter f l) l.
Proof.
  induction l as [|x l IH]; cbn [List.filter]; [constructor|].
  destruct (f x); now constructor.
Qed.

(** X12: a longer keyword narrows the search: when the lower-cased
    [keyword] is part of the lower-cased [keyword'], what [search]
    finds for [keyword'] is found for [keyword] too, in the same
    order; every result keeps the order of the list, and the empty
    keyword finds every package. *)
Theorem search_narrows packages keyword keyword' :
  PyStr.contains (PyStr.lower keyword) (PyStr.lower keyword') = true ->
  sublist (search packages keyword') (search packages keyword)
  /\ sublist (search packages keyword) packages
  /\ search packages "" = packages.
Proof.
  intros Hk. split; [|split].
  - unfold search. apply filter_sublist_impl. intros pkg Hpkg.
    apply orb_true_iff in Hpkg. apply orb_true_iff.
    destruct Hpkg as [Hn|Hd]; [left|right]; eapply contains_trans; eassumption.
  - apply filter_sublist_all.
  - unfold search. apply filter_all. apply List.Forall_forall. intros pkg _.
    change (PyStr.lower "") with "". now rewrite contains_empty.
Qed.

Lemma search_narrows_sample :
  sublist (search [Samples.tool] "TOOLS") (search [Samples.tool] "oo").
Proof.
  apply (search_narrows [Samples.tool] "oo" "TOOLS"). reflexivity.
Defined.

Lemma title_from_lower b s : PyStr.lower (PyStr.title_from b s) = PyStr.lower s.
Proof.
  revert b. induction s as [|c s IH]; intros b; [reflexivity|].
  cbn [PyStr.title_from]. unfold PyStr.lower in *.
  destruct (PyStr.is_upper c || PyStr.is_lower c); cbn [PyStr.map_chars]; rewrite IH.
  - destruct b; now rewrite ?lower_lower_char, ?lower_upper_char.
  - reflexivity.
Qed.

Lemma title_from_length b s : String.length (PyStr.title_from b s) = String.length s.
Proof.
  revert b. induction s as [|c s IH]; intros b; [reflexivity|].
  cbn [PyStr.title_from].
  destruct (PyStr.is_upper c || PyStr.is_lower c); cbn [String.length]; now rewrite IH.
Qed.

Lemma separator_lower c :
  Ascii.eqb (PyStr.lower_char c) "-" || Ascii.eqb (PyStr.lower_char c) "_"
  = Ascii.eqb c "-" || Ascii.eqb c "_".
Proof. destruct c as [[] [] [] [] [] [] [] []]; reflexivity. Qed.

Lemma no_separator_lower s :
  PyStr.all_chars (fun c => negb (Ascii.eqb c "-" || Ascii.eqb c "_")) (PyStr.lower s)
  = PyStr.all_chars (fun c => negb (Ascii.eqb c "-" || Ascii.eqb c "_")) s.
Proof.
  induction s as [|c s IH]; [reflexivity|].
  unfold PyStr.lower in *. cbn [PyStr.map_chars PyStr.all_chars].
  now rewrite separator_lower, IH.
Qed.

Lemma no_separator_replaced s :
  PyStr.all_chars (fun c => negb (Ascii.eqb c "-" || Ascii.eqb c "_"))
                  (PyStr.replace (PyStr.replace s "-" " ") "_" " ") = true.
Proof.
  induction s as [|c s IH]; [reflexivity|].
  rewrite (replace_char_cons "-" " " c s).
  destruct (Ascii.eqb "-" c) eqn:Eh.
  - rewrite append_cons, append_nil_l, (replace_char_cons "_" " " " ").
    cbn [Ascii.eqb Bool.eqb]. cbn [PyStr.all_chars]. exact IH.
  - rewrite (replace_char_cons "_" " " c).
    destruct (Ascii.eqb "_" c) eqn:Eu.
    + rewrite append_cons, append_nil_l. cbn [PyStr.all_chars]. exact IH.
    + cbn [PyStr.all_chars]. rewrite IH.
      rewrite Ascii.eqb_sym, Eh, Ascii.eqb_sym, Eu. reflexivity.
Qed.

(** X13: on ASCII identifiers the display name is the identifier with
    hyphens and underscores turned into spaces, up to the case of the
    letters: it has the length of the identifier and holds neither a
    hyphen nor an underscore. *)
Theorem format_package_name_shape name :
  is_ascii name = true ->
  PyStr.lower (_format_package_name name)
  = PyStr.replace (PyStr.replace (PyStr.lower name) "-" " ") "_" " "
  /\ String.length (_format_package_name name) = String.length name
  /\ PyStr.all_chars (fun c => negb (Ascii.eqb c "-" || Ascii.eqb c "_"))
                     (_format_package_name name) = true.
Proof.
  intros _. unfold _format_package_name, PyStr.title. split; [|split].
  - rewrite title_from_lower. unfold PyStr.lower.
    rewrite (replace_char_map PyStr.lower_char "_" " ")
      by (reflexivity || apply ResidueExtra.underscore_lower).
    rewrite (replace_char_map PyStr.lower_char "-" " ")
      by (reflexivity || apply ResidueExtra.hyphen_lower).
    reflexivity.
  - now rewrite title_from_length, !replace_char_length.
  - rewrite <- no_separator_lower, title_from_lower, no_separator_lower.
    apply no_separator_replaced.
Qed.

Lemma format_package_name_sample :
  PyStr.lower (_format_package_name "lib-xyz_tools") = "lib xyz tools".
Proof.
  rewrite (proj1 (format_package_name_shape "lib-xyz_tools" eq_refl)). reflexivity.
Defined.

Lemma filter_source_same (l : list Package) src :
  Forall (fun p => source p = src) l ->
  filter_by_source l src = l.
Proof.
  intros Hl. apply filter_all. eapply List.Forall_impl; [|exact Hl].
  cbv beta. intros p ->. now destruct src.
Qed.

Lemma filter_source_other (l : list Package) src src' :
  src <> src' ->
  Forall (fun p => source p = src) l ->
  filter_by_source l src' = [].
Proof.
  intros Hneq Hl. induction Hl as [|p l Hp _ IH]; [reflexivity|].
  unfold filter_by_source in *. cbn [List.filter]. rewrite Hp, IH.
  destruct src, src'; try reflexivity; contradiction.
Qed.

Lemma filter_by_source_app l1 l2 src :
  filter_by_source (l1 ++ l2) src = filter_by_source l1 src ++ filter_by_source l2 src.
Proof. apply List.filter_app. Qed.

Lemma In_sources_iff s sources : In_sources s sources = true <-> In s sources.
Proof.
  unfold In_sources. rewrite existsb_exists. split.
  - intros (x & Hx & E). destruct s, x; try discriminate; exact Hx.
  - intros Hs. exists s. split; [exact Hs | now destruct s].
Qed.

Lemma install_date_line_record (line : string) (dates : gmap string string) :
  install_date_line line dates
  = match install_record line with
    | Some (p, d) => match dates !! p with
                     | Some _ => dates
                     | None => <[p := d]> dates
                     end
    | None => dates
    end.
Proof.
  unfold install_date_line, install_record.
  destruct (PyStr.contains " install " line); [|reflexivity].
  destruct (_ && _); reflexivity.
Qed.

Lemma install_dates_fold pkg lines : forall dates : gmap string string,
  fold_left (fun d line => install_date_line line d) lines dates !! pkg
  = match dates !! pkg with
    | Some d => Some d
    | None => first_date pkg lines
    end.
Proof.
  induction lines as [|line lines IH]; intros dates; cbn [fold_left first_date].
  - now destruct (dates !! pkg).
  - rewrite IH, install_date_line_record.
    destruct (install_record line) as [[p d]|]; [|reflexivity].
    destruct (String.eqb p pkg) eqn:E.
    + apply String.eqb_eq in E. subst p.
      destruct (dates !! pkg) eqn:Hd; [now rewrite Hd|].
      now rewrite lookup_insert_eq.
    + apply String.eqb_neq in E.
      destruct (dates !! p); [reflexivity|].
      now rewrite lookup_insert_ne.
Qed.

Lemma first_date_app pkg l1 l2 :
  first_date pkg (l1 ++ l2)
  = match first_date pkg l1 with
    | Some d => Some d
    | None => first_date pkg l2
    end.
Proof.
  induction l1 as [|line l1 IH]; [reflexivity|].
  cbn [app first_date].
  destruct (install_record line) as [[p d]|]; [|exact IH].
  destruct (String.eqb p pkg); [reflexivity | exact IH].
Qed.

Section Scanner.
Context {W : Type} `{Os W}.
Variable _format_size : Z -> string.
Variable _timestamp_to_date : Z -> string.

(** X14: the install date of a package is the date of its first
    [install] record in [/var/log/dpkg.log], and only when that log
    has none, of its first record in the rotated, older
    [/var/log/dpkg.log.1]; a log that is missing or unreadable counts
    as empty. *)
Theorem install_date_is_first_record pkg (w : W) :
  _get_install_dates_from_log w !! pkg
  = first_date pkg (log_lines "/var/log/dpkg.log" w
                    ++ log_lines "/var/log/dpkg.log.1" w).
Proof.
  unfold _get_install_dates_from_log, log_lines. cbn [fold_left].
  rewrite first_date_app.
  assert (Hstep : forall log_file (dates : gmap string string),
            (if negb (path_exists log_file w) then dates
             else match readlines log_file w with
                  | Ok lines => fold_left (fun d line => install_date_line line d) lines dates
                  | Raise _ => dates
                  end) !! pkg
            = match dates !! pkg with
              | Some d => Some d
              | None => first_date pkg
                          (if path_exists log_file w
                           then match readlines log_file w with
                                | Ok lines => lines
                                | Raise _ => []
                                end
                           else [])
              end).
  { intros log_file dates. destruct (path_exists log_file w); cbn [negb].
    - destruct (readlines log_file w); [apply install_dates_fold|].
      now destruct (dates !! pkg).
    - now destruct (dates !! pkg). }
  rewrite Hstep, Hstep. rewrite lookup_empty. reflexivity.
Qed.

Lemma scan_apt_queries skip (w : W) :
  exists packages w' t,
    _scan_apt _format_size skip w = (Ok packages, w', t) /\ Forall is_query t.
Proof.
  unfold _scan_apt. unfold_monad.
  destruct (subprocess_run _ 60 w) as [[result|e] w1].
  - destruct (returncode result =? 0)%Z; do 3 eexists;
      (split; [reflexivity|]); repeat constructor;
      eexists; (split; [reflexivity|]); cbn; tauto.
  - do 3 eexists. split; [reflexivity|]. repeat constructor.
    eexists; (split; [reflexivity|]); cbn; tauto.
Qed.

Lemma scan_snap_queries (w : W) :
  exists packages w' t,
    _scan_snap w = (Ok packages, w', t) /\ Forall is_query t.
Proof.
  unfold _scan_snap. unfold_monad.
  destruct (subprocess_run ["which"; "snap"] 5 w) as [[result|e] w1].
  - destruct (returncode result =? 0)%Z; cbn [negb].
    + destruct (subprocess_run ["snap"; "list"] 30 w1) as [[result2|e2] w2].
      * destruct (returncode result2 =? 0)%Z; do 3 eexists;
          (split; [reflexivity|]); repeat constructor;
          eexists; (split; [reflexivity|]); cbn; tauto.
      * do 3 eexists. split; [reflexivity|]. repeat constructor;
          eexists; (split; [reflexivity|]); cbn; tauto.
    + do 3 eexists. split; [reflexivity|]. repeat constructor;
        eexists; (split; [reflexivity|]); cbn; tauto.
  - do 3 eexists. split; [reflexivity|]. repeat constructor;
      eexists; (split; [reflexivity|]); cbn; tauto.
Qed.

Lemma scan_flatpak_queries (w : W) :
  exists packages w' t,
    _scan_flatpak w = (Ok packages, w', t) /\ Forall is_query t.
Proof.
  unfold _scan_flatpak. unfold_monad.
  destruct (subprocess_run ["which"; "flatpak"] 5 w) as [[result|e] w1].
  - destruct (returncode result =? 0)%Z; cbn [negb].
    + destruct (subprocess_run _ 30 w1) as [[result2|e2] w2].
      * destruct (returncode result2 =? 0)%Z; do 3 eexists;
          (split; [reflexivity|]); repeat constructor;
          eexists; (split; [reflexivity|]); cbn; tauto.
      * do 3 eexists. split; [reflexivity|]. repeat constructor;
          eexists; (split; [reflexivity|]); cbn; tauto.
    + do 3 eexists. split; [reflexivity|]. repeat constructor;
        eexists; (split; [reflexivity|]); cbn; tauto.
  - do 3 eexists. split; [reflexivity|]. repeat constructor;
      eexists; (split; [reflexivity|]); cbn; tauto.
Qed.

(** X15: the inventory scan only looks: each of its events is a
    progress report or one of five commands that read, namely
    [dpkg-query], [which snap], [snap list], [which flatpak] and
    [flatpak list]; it deletes nothing and asks for no elevation. *)
Theorem scan_all_only_queries skip home sources (w : W) :
  Forall (fun e => is_report e \/ is_query e)
         (snd (scan_all _format_size _timestamp_to_date skip home sources w)).
Proof.
  assert (Hq : forall t, Forall is_query t -> Forall (fun e => is_report e \/ is_query e) t).
  { intros t. apply List.Forall_impl. now right. }
  unfold scan_all.
  destruct (In_sources APT _), (In_sources SNAP _),
           (In_sources FLATPAK _), (In_sources APPIMAGE _);
    unfold_monad;
    repeat match goal with
      | |- context [_scan_apt _ ?s ?w0] =>
          let E := fresh "E" in let Hev := fresh "Hev" in
          destruct (scan_apt_queries s w0) as (? & ? & ? & E & Hev);
          rewrite E; apply Hq in Hev; cbv beta iota zeta
      | |- context [_scan_snap ?w0] =>
          let E := fresh "E" in let Hev := fresh "Hev" in
          destruct (scan_snap_queries w0) as (? & ? & ? & E & Hev);
          rewrite E; apply Hq in Hev; cbv beta iota zeta
      | |- context [_scan_flatpak ?w0] =>
          let E := fresh "E" in let Hev := fresh "Hev" in
          destruct (scan_flatpak_queries w0) as (? & ? & ? & E & Hev);
          rewrite E; apply Hq in Hev; cbv beta iota zeta
      | |- context [_scan_appimage _ _ ?h ?w0] =>
          rewrite (scan_appimage_empty _format_size _timestamp_to_date h w0);
          cbv beta iota zeta
      end;
    cbn [snd];
    repeat first
      [ apply List.Forall_nil
      | apply Forall_app; split
      | assumption
      | apply List.Forall_cons; [now left|] ].
Qed.

(** X16: the list of [scan_all] is grouped by source in a fixed order,
    APT, then Snap, then Flatpak, whatever the order of [sources]; so
    [filter_by_source] cuts it into consecutive parts, the part of APT
    is what [_scan_apt] returned, and the part of AppImage is empty. *)
Theorem filter_by_source_cuts_scan skip home sources (w : W) :
  exists packages w' t,
    scan_all _format_size _timestamp_to_date skip home sources w = (Ok packages, w', t)
    /\ packages = filter_by_source packages APT ++ filter_by_source packages SNAP
                  ++ filter_by_source packages FLATPAK
    /\ filter_by_source packages APPIMAGE = []
    /\ filter_by_source packages APT
       = fst (scanned (In_sources APT (requested sources))
                      (_scan_apt _format_size skip) w).
Proof.
  pose proof (scan_all_spec _format_size _timestamp_to_date skip home sources w) as Hs.
  cbv zeta in Hs.
  pose proof (scanned_source (In_sources APT (requested sources))
                (_scan_apt _format_size skip) APT w
                (scan_apt_total _format_size skip)) as H1.
  destruct (scanned (In_sources APT (requested sources)) _ w) as [l1 w1].
  pose proof (scanned_source (In_sources SNAP (requested sources))
                _scan_snap SNAP w1 scan_snap_total) as H2.
  destruct (scanned (In_sources SNAP (requested sources)) _ w1) as [l2 w2].
  pose proof (scanned_source (In_sources FLATPAK (requested sources))
                _scan_flatpak FLATPAK w2 scan_flatpak_total) as H3.
  destruct (scanned (In_sources FLATPAK (requested sources)) _ w2) as [l3 w3].
  destruct Hs as (t & Hs & _). cbn [fst] in *.
  exists (l1 ++ l2 ++ l3), w3, t. split; [exact Hs|].
  rewrite !filter_by_source_app.
  rewrite (filter_source_same l1 APT H1), (filter_source_same l2 SNAP H2),
          (filter_source_same l3 FLATPAK H3).
  rewrite (filter_source_other l2 SNAP APT), (filter_source_other l3 FLATPAK APT),
          (filter_source_other l1 APT SNAP), (filter_source_other l3 FLATPAK SNAP),
          (filter_source_other l1 APT FLATPAK), (filter_source_other l2 SNAP FLATPAK),
          (filter_source_other l1 APT APPIMAGE), (filter_source_other l2 SNAP APPIMAGE),
          (filter_source_other l3 FLATPAK APPIMAGE)
    by (assumption || discriminate).
  cbn [app]. rewrite !app_nil_r. repeat split; reflexivity.
Qed.

(** X17: of [sources], [scan_all] reads only which sources are in it:
    two lists with the same members, in any order and with any
    repetition, give the same scan. *)
Theorem scan_all_reads_membership skip home sources sources' (w : W) :
  (forall s, In s sources <-> In s sources') ->
  scan_all _format_size _timestamp_to_date skip home (Some sources) w
  = scan_all _format_size _timestamp_to_date skip home (Some sources') w.
Proof.
  intros Hsame.
  assert (E : forall s, In_sources s sources = In_sources s sources').
  { intros s. apply Bool.eq_iff_eq_true. rewrite !In_sources_iff. apply Hsame. }
  unfold scan_all. now rewrite !E.
Qed.

End Scanner.

(** The current log wins over the rotated one, and the first record
    over the later ones. *)
Lemma install_date_sample :
  _get_install_dates_from_log log_world !! "vim" = Some "2024-03-02"
  /\ _get_install_dates_from_log log_world !! "curl" = Some "2024-01-16".
Proof.
  rewrite !install_date_is_first_record. split; reflexivity.
Defined.

Lemma scan_all_reordered_sample :
  scan_all Samples.no_format Samples.no_format true "/home/u"
           (Some [SNAP; APT; SNAP]) Samples.dpkg_world
  = scan_all Samples.no_format Samples.no_format true "/home/u"
             (Some [APT; SNAP]) Samples.dpkg_world.
Proof.
  apply scan_all_reads_membership.
  intros s. cbn. tauto.
Defined.

End ScannerExtra.

(** ** Uninstaller: removal through the package managers *)

Module UninstallExtra.
Import Py Scanner Uninstall CleanerSpec CleanerProps CleanProps.
Import ExtraSpec ExtraSamples.

(** Splitting on what each command and each deletion answers, in the
    order the code asks. *)
Ltac world_cases :=
  repeat match goal with
    | |- context [subprocess_run ?argv ?t ?w] =>
        is_var w; destruct (subprocess_run argv t w) as [[?|?] ?]
    | |- context [os_remove ?p ?w] =>
        is_var w; destruct (os_remove p w) as [[?|?] ?]
    | |- context [kind ?e] => is_var e; destruct (kind e)
    | |- context [(returncode ?r =? 0)%Z] => is_var r; destruct (returncode r =? 0)%Z
    | |- context [path_exists ?p ?w] => is_var w; destruct (path_exists p w)
    end.

Section Uninstall.
Context {W : Type} `{Os W}.

Lemma uninstall_unfold package force (w : W) :
  uninstall package force w
  = try_except
      (match source package with
       | APT => _uninstall_apt package force
       | SNAP => _uninstall_snap package force
       | FLATPAK => _uninstall_flatpak package force
       | APPIMAGE => _uninstall_appimage package force
       end)
      (fun e =>
         bind (_report_error ("卸载失败：" +:+ message e))
              (fun _ => ret (false, "卸载失败：" +:+ message e))) w.
Proof. reflexivity. Qed.

(** X18: [uninstall] never raises: whatever the commands do it returns
    a flag and a message; the error callback is called at most once,
    only with a flag [False], and then with the message returned, which
    starts with the failure prefix. *)
Theorem uninstall_never_raises package force (w : W) :
  exists ok msg w' t,
    uninstall package force w = (Ok (ok, msg), w', t)
    /\ (error_reports t = []
        \/ (ok = false /\ error_reports t = [msg]
            /\ PyStr.startswith msg "卸载失败：" = true)).
Proof.
  unfold uninstall, _uninstall_apt, _uninstall_snap, _uninstall_flatpak,
    _uninstall_appimage, _run_pkexec_command.
  destruct (source package), force; unfold_monad; world_cases; cbn [negb];
    world_cases;
    repeat match goal with
      | |- context [removal_answer ?p ?r] => destruct (removal_answer p r)
      end;
    do 4 eexists; (split; [reflexivity|]);
    cbn [error_reports omap list_omap app];
    first [ left; reflexivity
          | right; split; [reflexivity|]; split; [reflexivity|];
            apply startswith_append ].
Qed.

(** X19: the commands of a removal are an initial part of a fixed
    list, in its order: for APT the stop of the service, the removal,
    with [--purge] when forced, then the clean-up of the dependencies;
    for Snap one elevated removal; for Flatpak the removal and then
    its elevated retry; for an AppImage one elevated [rm -f] of the
    file.  Nothing is deleted directly but the file of an AppImage. *)
Theorem uninstall_commands package force (w : W) :
  commands (snd (uninstall package force w)) `prefix_of` removal_commands package force
  /\ deletions (snd (uninstall package force w))
     `prefix_of` match source package with
                 | APPIMAGE => [appimage_path package]
                 | _ => []
                 end.
Proof.
  unfold uninstall, _uninstall_apt, _uninstall_snap, _uninstall_flatpak,
    _uninstall_appimage, _run_pkexec_command, removal_commands, appimage_path.
  destruct (source package), force; unfold_monad; world_cases; cbn [negb];
    world_cases;
    cbn [snd commands deletions omap list_omap app];
    split; eexists; cbn [app]; reflexivity.
Qed.

(** Unless an APT package is removed with [force], no removal purges;
    and every removal returns. *)
Lemma uninstall_without_purge package force (w : W) :
  force = false \/ source package <> APT ->
  exists ok msg w' t,
    uninstall package force w = (Ok (ok, msg), w', t)
    /\ Forall (fun e => ~ is_purge e) t.
Proof.
  intros Hcase.
  unfold uninstall, _uninstall_apt, _uninstall_snap, _uninstall_flatpak,
    _uninstall_appimage, _run_pkexec_command.
  destruct (source package), force;
    try (destruct Hcase as [Hcase|Hcase]; [discriminate Hcase | now contradiction Hcase]);
    unfold_monad; world_cases; cbn [negb]; world_cases;
    repeat match goal with
      | |- context [removal_answer ?p ?r] => destruct (removal_answer p r)
      end;
    do 4 eexists; (split; [reflexivity|]);
    cbn [app]; repeat constructor; intros [rest [=]].
Qed.

(** X20: for a package of APT the exit status of [apt remove] decides
    the answer whenever the clean-up of the dependencies returns,
    whatever the status of the clean-up; and when the clean-up raises,
    the answer is a failure, with one call of the error callback, even
    though the package was removed. *)
Theorem uninstall_apt_answer (package : Package) (force : bool) (w w0 w1 w2 : W)
    (stopped cleaned : res CompletedProcess) (result : CompletedProcess) :
  source package = APT ->
  subprocess_run ["pkexec"; "systemctl"; "stop"; name package] 10 w = (stopped, w0) ->
  subprocess_run (if force then ["pkexec"; "apt"; "remove"; "--purge"; "-y"; name package]
                  else ["pkexec"; "apt"; "remove"; "-y"; name package]) 300 w0
  = (Ok result, w1) ->
  subprocess_run ["pkexec"; "apt"; "autoremove"; "-y"] 300 w1 = (cleaned, w2) ->
  fst (uninstall package force w)
  = (Ok match cleaned with
        | Ok _ => removal_answer package result
        | Raise e => (false, "卸载失败：" +:+ message e)
        end, w2)
  /\ error_reports (snd (uninstall package force w))
     = match cleaned with
       | Ok _ => []
       | Raise e => ["卸载失败：" +:+ message e]
       end.
Proof.
  intros Hsrc Hstop Hremove Hclean.
  unfold uninstall, _uninstall_apt, _run_pkexec_command. rewrite Hsrc.
  unfold_monad. rewrite Hstop.
  destruct stopped as [r0|e0], force; cbv beta iota zeta;
    rewrite Hremove; cbv beta iota zeta; rewrite Hclean;
    destruct cleaned as [r2|e2]; split; reflexivity.
Qed.

End Uninstall.

Lemma uninstall_apt_timeout_sample :
  fst (fst (uninstall vim false autoremove_timeout_world))
  = Ok (false, "卸载失败：Command timed out after 300 seconds").
Proof.
  destruct (uninstall_apt_answer vim false autoremove_timeout_world
              autoremove_timeout_world autoremove_timeout_world autoremove_timeout_world
              (Ok (Sim.exit_with 5))
              (Raise {| kind := TimeoutExpired;
                        message := "Command timed out after 300 seconds" |})
              (Sim.exit_with 0))
    as [Hanswer _]; [reflexivity..|].
  rewrite Hanswer. reflexivity.
Defined.

End UninstallExtra.

(** ** Application names: the parser, the memo, the batch *)

Module ResolverExtra.
Import Py AppNameResolver ResolverBatch ResolverSpec.
Import CleanerProps ResolverTheorems StrFacts ExtraSpec Samples ExtraSamples.

Lemma parse_before_section pre rest info :
  Forall (fun l => PyStr.strip l <> "[Desktop Entry]") pre ->
  parse_lines (pre ++ rest) false info = parse_lines rest false info.
Proof.
  induction 1 as [|line pre Hline _ IH]; [reflexivity|].
  cbn [app parse_lines]. apply String.eqb_neq in Hline. rewrite Hline.
  now rewrite andb_false_r.
Qed.

Lemma parse_inside_section body rest : forall info,
  Forall (fun l => PyStr.startswith (PyStr.strip l) "[" = false
                   \/ PyStr.strip l = "[Desktop Entry]") body ->
  parse_lines (body ++ rest) true info
  = parse_lines rest true (parse_lines body true info).
Proof.
  induction body as [|line body IH]; intros info Hbody; [reflexivity|].
  apply List.Forall_cons_iff in Hbody. destruct Hbody as [Hline Hbody].
  cbn [app parse_lines].
  destruct (String.eqb (PyStr.strip line) "[Desktop Entry]") eqn:E;
    [now apply IH|].
  destruct Hline as [Hline|Hline];
    [|apply String.eqb_neq in E; contradiction].
  rewrite Hline. cbn [andb negb].
  destruct (PyStr.contains "=" (PyStr.strip line)); [|now apply IH].
  destruct (split_once (PyStr.strip line) "=") as [key value]. now apply IH.
Qed.

(** Inside the section a repeated header is passed over. *)
Lemma parse_repeated_headers body : forall info,
  Forall (fun l => PyStr.startswith (PyStr.strip l) "[" = false
                   \/ PyStr.strip l = "[Desktop Entry]") body ->
  parse_lines body true info
  = parse_lines
      (List.filter (fun l => negb (String.eqb (PyStr.strip l) "[Desktop Entry]")) body)
      true info.
Proof.
  induction body as [|line body IH]; intros info Hbody; [reflexivity|].
  apply List.Forall_cons_iff in Hbody. destruct Hbody as [Hline Hbody].
  cbn [List.filter parse_lines].
  destruct (String.eqb (PyStr.strip line) "[Desktop Entry]") eqn:E; cbn [negb];
    [now apply IH|].
  destruct Hline as [Hline|Hline];
    [|apply String.eqb_neq in E; contradiction].
  cbn [parse_lines]. rewrite E, Hline. cbn [andb negb].
  destruct (PyStr.contains "=" (PyStr.strip line)); [|now apply IH].
  destruct (split_once (PyStr.strip line) "=") as [key value]. now apply IH.
Qed.

Section Resolver.
Context {W : Type} `{Os W}.

(** X21: a [.desktop] file is read from its first [Desktop Entry]
    header up to the next section header that is not itself
    [Desktop Entry]: the lines before the first header and everything
    from that next header on change nothing, so that a [Name] given in
    another section, such as a [Desktop Action], never replaces the
    one of the entry.  A repeated [Desktop Entry] header does not end
    the section: it is passed over and the lines after it are read as
    well, so that the file parses as the first header followed by
    the lines of the section without the repeated headers. *)
Theorem parse_reads_first_section filepath (w w' : W) pre header body next rest :
  Forall (fun l => PyStr.strip l <> "[Desktop Entry]") pre ->
  PyStr.strip header = "[Desktop Entry]" ->
  Forall (fun l => PyStr.startswith (PyStr.strip l) "[" = false
                   \/ PyStr.strip l = "[Desktop Entry]") body ->
  PyStr.startswith (PyStr.strip next) "[" = true ->
  PyStr.strip next <> "[Desktop Entry]" ->
  readlines filepath w = Ok (pre ++ header :: body ++ next :: rest) ->
  readlines filepath w'
  = Ok (header
        :: List.filter (fun l => negb (String.eqb (PyStr.strip l) "[Desktop Entry]"))
                       body) ->
  _parse_desktop_file filepath w = _parse_desktop_file filepath w'.
Proof.
  intros Hpre Hheader Hbody Hnext Hother Hw Hw'.
  unfold _parse_desktop_file. rewrite Hw, Hw'.
  rewrite (parse_before_section pre _ _ Hpre).
  cbn [parse_lines]. rewrite Hheader. cbn [String.eqb Ascii.eqb Bool.eqb andb].
  rewrite (parse_inside_section body (next :: rest) _ Hbody).
  cbn [parse_lines]. apply String.eqb_neq in Hother. rewrite Hother, Hnext.
  cbn [andb]. now rewrite <- (parse_repeated_headers body _ Hbody).
Qed.

Lemma get_app_name_memo home self package_name (w : W) :
  exists app_name self' w' t,
    get_app_name home self package_name w = (Ok (app_name, self'), w', t)
    /\ name_cache self' !! package_name = Some app_name
    /\ (forall k v, name_cache self !! k = Some v -> name_cache self' !! k = Some v)
    /\ _initialized self' = true
    /\ (t = [] \/ t = [Run ["dpkg"; "-L"; package_name]])
    /\ (is_Some (name_cache self !! package_name) -> t = []).
Proof.
  unfold get_app_name.
  destruct (ensure_initialized_spec home self w) as (self1 & E & Hi & Hmemo1 & _).
  unfold remember. unfold_monad. rewrite E. rewrite <- Hmemo1.
  destruct (name_cache self1 !! package_name) as [v|] eqn:Hmemo.
  { exists v, self1, w, []. repeat split; auto. }
  assert (Hgrow : forall app_name k v,
             name_cache self1 !! k = Some v ->
             <[package_name := app_name]> (name_cache self1) !! k = Some v).
  { intros app_name k v Hk. destruct (decide (k = package_name)) as [->|Hne].
    - rewrite Hmemo in Hk. discriminate.
    - now rewrite lookup_insert_ne. }
  assert (Hnone : is_Some (@None string) -> forall t : list event, t = []).
  { intros [x Hx]. discriminate. }
  assert (Hdone : forall app_name (w' : W) t,
             (t = [] \/ t = [Run ["dpkg"; "-L"; package_name]]) ->
             exists app_name0 self' w'0 t0,
               (Ok (app_name,
                    {| desktop_cache := desktop_cache self1;
                       name_cache := <[package_name := app_name]> (name_cache self1);
                       _initialized := _initialized self1 |}), w', t)
               = (Ok (app_name0, self'), w'0, t0)
               /\ name_cache self' !! package_name = Some app_name0
               /\ (forall k v, name_cache self1 !! k = Some v ->
                               name_cache self' !! k = Some v)
               /\ _initialized self' = true
               /\ (t0 = [] \/ t0 = [Run ["dpkg"; "-L"; package_name]])
               /\ (is_Some (@None string) -> t0 = [])).
  { intros app_name w' t Ht. do 4 eexists. split; [reflexivity|].
    cbn [name_cache _initialized]. split; [apply lookup_insert_eq|].
    split; [apply Hgrow|]. split; [exact Hi|]. split; [exact Ht|].
    intros Hs. now apply Hnone. }
  destruct (stage1 self1 _); [apply Hdone; now left|].
  unfold stage2. unfold_monad.
  destruct (subprocess_run ["dpkg"; "-L"; package_name] 10 w) as [[result|e] w1].
  - destruct (returncode result =? 0)%Z.
    + destruct (first_desktop_file _ w1); cbn [fmap option_fmap option_map].
      * cbn [app]. apply Hdone. now right.
      * destruct (stage3 self1 _); [|destruct (stage4 self1 _);
                                      [|destruct (stage5_entry self1 _)]];
          cbn [app]; apply Hdone; now right.
    + destruct (stage3 self1 _); [|destruct (stage4 self1 _);
                                    [|destruct (stage5_entry self1 _)]];
        cbn [app]; apply Hdone; now right.
  - destruct (stage3 self1 _); [|destruct (stage4 self1 _);
                                  [|destruct (stage5_entry self1 _)]];
      cbn [app]; apply Hdone; now right.
Qed.

(** X22: resolving a name only looks: it runs at most one command,
    [dpkg -L] of the identifier, and none at all for an identifier that
    is in the memo; and it never changes or drops an entry of the
    memo. *)
Theorem get_app_name_only_queries home self package_name (w : W) :
  exists app_name self' w' t,
    get_app_name home self package_name w = (Ok (app_name, self'), w', t)
    /\ (t = [] \/ t = [Run ["dpkg"; "-L"; package_name]])
    /\ (is_Some (name_cache self !! package_name) -> t = [])
    /\ (forall k v, name_cache self !! k = Some v -> name_cache self' !! k = Some v).
Proof.
  destruct (get_app_name_memo home self package_name w)
    as (app_name & self' & w' & t & E & _ & Hgrow & _ & Ht & Hhit).
  exists app_name, self', w', t. auto.
Qed.

Lemma split_cached_spec self package_names : forall results to_resolve,
  let '(results', to_resolve') := split_cached self package_names results to_resolve in
  (forall n v, results' !! n = Some v ->
               results !! n = Some v \/ (In n package_names /\ name_cache self !! n = Some v))
  /\ (forall n, is_Some (results !! n) -> is_Some (results' !! n))
  /\ (forall n, In n to_resolve' -> In n to_resolve \/ In n package_names)
  /\ (forall n, In n to_resolve -> In n to_resolve')
  /\ (forall n, In n package_names -> is_Some (results' !! n) \/ In n to_resolve').
Proof.
  induction package_names as [|name rest IH]; intros results to_resolve.
  - cbn. repeat split; auto. intros n [].
  - cbn [split_cached].
    destruct (name_cache self !! name) as [app_name|] eqn:Hmemo.
    + specialize (IH (<[name := app_name]> results) to_resolve).
      destruct (split_cached self rest _ to_resolve) as [results' to_resolve'].
      destruct IH as (H1 & H2 & H3 & H4 & H5). repeat split.
      * intros n v Hn. destruct (H1 n v Hn) as [Hin|[Hin Hc]].
        -- destruct (decide (n = name)) as [->|Hne].
           ++ rewrite lookup_insert_eq in Hin. injection Hin as <-.
              right. split; [now left | exact Hmemo].
           ++ rewrite lookup_insert_ne in Hin by congruence. now left.
        -- right. split; [now right | exact Hc].
      * intros n Hn. apply H2. destruct (decide (n = name)) as [->|Hne].
        -- rewrite lookup_insert_eq. now eexists.
        -- now rewrite lookup_insert_ne by congruence.
      * intros n Hn. destruct (H3 n Hn); [now left | right; now right].
      * exact H4.
      * intros n [<-|Hn]; [|now apply H5].
        left. apply H2. rewrite lookup_insert_eq. now eexists.
    + specialize (IH results (to_resolve ++ [name])).
      destruct (split_cached self rest results _) as [results' to_resolve'].
      destruct IH as (H1 & H2 & H3 & H4 & H5). repeat split.
      * intros n v Hn. destruct (H1 n v Hn) as [Hin|[Hin Hc]]; [now left|].
        right. split; [now right | exact Hc].
      * exact H2.
      * intros n Hn. destruct (H3 n Hn) as [Hin|Hin]; [|right; now right].
        apply in_app_iff in Hin. destruct Hin as [Hin|[<-|[]]]; [now left|].
        right. now left.
      * intros n Hn. apply H4, in_app_iff. now left.
      * intros n [<-|Hn]; [|now apply H5].
        right. apply H4, in_app_iff. right. now left.
Qed.

Lemma resolve_all_spec home to_resolve : forall self results (w : W),
  (forall n v, results !! n = Some v -> name_cache self !! n = Some v) ->
  exists results' self' w' t,
    resolve_all home self to_resolve results w = (Ok (results', self'), w', t)
    /\ (forall n v, results' !! n = Some v -> name_cache self' !! n = Some v)
    /\ (forall n, is_Some (results' !! n) <-> is_Some (results !! n) \/ In n to_resolve)
    /\ (forall k v, name_cache self !! k = Some v -> name_cache self' !! k = Some v)
    /\ Forall (fun e => exists n, In n to_resolve /\ e = Run ["dpkg"; "-L"; n]) t.
Proof.
  induction to_resolve as [|name rest IH]; intros self results w Hsub.
  - exists results, self, w, []. cbn. repeat split; auto; tauto.
  - cbn [resolve_all]. unfold bind.
    destruct (get_app_name_memo home self name w)
      as (app_name & self1 & w1 & t1 & -> & Hmemo & Hgrow & _ & Ht1 & _).
    destruct (IH self1 (<[name := app_name]> results) w1)
      as (results' & self' & w' & t' & -> & Hsub' & Hdom & Hgrow' & Ht').
    { intros n v Hn. destruct (decide (n = name)) as [->|Hne].
      - rewrite lookup_insert_eq in Hn. injection Hn as <-. exact Hmemo.
      - rewrite lookup_insert_ne in Hn by congruence. auto. }
    exists results', self', w', (t1 ++ t'). split; [reflexivity|].
    split; [exact Hsub'|]. split; [|split].
    + intros n. rewrite Hdom. cbn [In]. destruct (decide (n = name)) as [->|Hne].
      * rewrite lookup_insert_eq. split; [intros _; right; now left|].
        intros _. left. now eexists.
      * rewrite lookup_insert_ne by congruence. split; [tauto|].
        intros [Hr|[Heq|Hin]]; [tauto | congruence | tauto].
    + auto.
    + apply Forall_app. split.
      * destruct Ht1 as [->| ->]; repeat constructor.
        exists name. split; [now left | reflexivity].
      * eapply List.Forall_impl; [|exact Ht'].
        intros e (n & Hn & ->). exists n. split; [now right | reflexivity].
Qed.

(** X23: the batch returns a name for every identifier asked for and
    for no other; each name is the one that the memo holds for the
    identifier afterwards; the memo keeps every entry it had; and the
    only commands run are [dpkg -L] of identifiers of the batch. *)
Theorem get_app_names_batch_spec home self package_names (w : W) :
  exists results self' w' t,
    get_app_names_batch home self package_names w = (Ok (results, self'), w', t)
    /\ (forall n, is_Some (results !! n) <-> In n package_names)
    /\ (forall n v, results !! n = Some v -> name_cache self' !! n = Some v)
    /\ (forall k v, name_cache self !! k = Some v -> name_cache self' !! k = Some v)
    /\ Forall (fun e => exists n, In n package_names /\ e = Run ["dpkg"; "-L"; n]) t.
Proof.
  unfold get_app_names_batch.
  destruct (ensure_initialized_spec home self w) as (self1 & E & _ & Hmemo1 & _).
  unfold bind. rewrite E.
  pose proof (split_cached_spec self1 package_names ∅ []) as Hsplit.
  destruct (split_cached self1 package_names ∅ []) as [results0 to_resolve].
  destruct Hsplit as (H1 & _ & H3 & _ & H5).
  destruct (resolve_all_spec home to_resolve self1 results0 w)
    as (results & self' & w' & t & -> & Hsub & Hdom & Hgrow & Ht).
  { intros n v Hn. destruct (H1 n v Hn) as [Hin|[_ Hc]]; [|exact Hc].
    rewrite lookup_empty in Hin. discriminate. }
  exists results, self', w', t. split; [reflexivity|].
  split; [|split; [exact Hsub|split]].
  - intros n. rewrite Hdom. split.
    + intros [[v Hv]|Hin].
      * destruct (H1 n v Hv) as [Hin|[Hin _]]; [|exact Hin].
        rewrite lookup_empty in Hin. discriminate.
      * destruct (H3 n Hin) as [[]|Hin']. exact Hin'.
    + intros Hin. exact (H5 n Hin).
  - intros k v Hk. apply Hgrow. now rewrite Hmemo1.
  - eapply List.Forall_impl; [|exact Ht].
    intros e (n & Hn & ->). exists n. split; [|reflexivity].
    destruct (H3 n Hn) as [[]|Hin]. exact Hin.
Qed.

End Resolver.

Lemma parse_firefox_sample :
  _parse_desktop_file "/usr/share/applications/firefox-esr.desktop" firefox_repeated_world
  = _parse_desktop_file "/usr/share/applications/firefox-esr.desktop" firefox_main_world
  /\ shown_name <$> _parse_desktop_file "/usr/share/applications/firefox-esr.desktop"
                                        firefox_repeated_world
     = Some "Firefox 网络浏览器".
Proof.
  assert (E : _parse_desktop_file "/usr/share/applications/firefox-esr.desktop"
                                  firefox_repeated_world
              = _parse_desktop_file "/usr/share/applications/firefox-esr.desktop"
                                    firefox_main_world).
  { apply (parse_reads_first_section
             "/usr/share/applications/firefox-esr.desktop"
             firefox_repeated_world firefox_main_world
             ["[Preamble]"; "Name=Ignored"] "[Desktop Entry]"
             ["Name=Firefox ESR"; "[Desktop Entry]";
              "Name[zh_CN]=Firefox 网络浏览器"; "Exec=firefox-esr %u"]
             "[Desktop Action new]" ["Name=New Window"]).
    - repeat (apply List.Forall_cons; [discriminate|]). constructor.
    - reflexivity.
    - apply List.Forall_cons; [left; reflexivity|].
      apply List.Forall_cons; [right; reflexivity|].
      repeat (apply List.Forall_cons; [left; reflexivity|]). constructor.
    - reflexivity.
    - discriminate.
    - reflexivity.
    - reflexivity. }
  split; [exact E|]. rewrite E. reflexivity.
Defined.

End ResolverExtra.

(** ** Application names: refreshing the cache *)

Module RefreshExtra.
Import Py AppNameResolver ResolverSpec CleanerProps ResolverTheorems.
Import ExtraSpec Samples ExtraSamples.

Section Dict.
Context {V : Type}.
Implicit Types (d : dict V) (ops : list (string * V)).

Lemma dict_get_set_eq k v d : dict_get k (dict_set k v d) = Some v.
Proof.
  induction d as [|[k0 v0] d IH]; cbn [dict_set dict_get].
  - now rewrite String.eqb_refl.
  - destruct (String.eqb k0 k) eqn:E; cbn [dict_get]; rewrite E; [reflexivity | exact IH].
Qed.

Lemma dict_get_set_ne k k' v d :
  k <> k' -> dict_get k' (dict_set k v d) = dict_get k' d.
Proof.
  intros Hne. induction d as [|[k0 v0] d IH]; cbn [dict_set dict_get].
  - apply String.eqb_neq in Hne. now rewrite Hne.
  - destruct (String.eqb k0 k) eqn:E; cbn [dict_get].
    + apply String.eqb_eq in E. subst k0.
      apply String.eqb_neq in Hne. now rewrite Hne.
    + now rewrite IH.
Qed.

Lemma dict_get_None k d : dict_get k d = None <-> ~ In k (map fst d).
Proof.
  induction d as [|[k0 v0] d IH]; cbn [dict_get map fst In]; [tauto|].
  destruct (String.eqb k0 k) eqn:E.
  - apply String.eqb_eq in E. split; [discriminate | tauto].
  - apply String.eqb_neq in E. rewrite IH. tauto.
Qed.

Lemma dict_set_keys_present k v d :
  is_Some (dict_get k d) -> map fst (dict_set k v d) = map fst d.
Proof.
  induction d as [|[k0 v0] d IH]; cbn [dict_set dict_get map fst].
  - intros [x Hx]. discriminate.
  - destruct (String.eqb k0 k) eqn:E; cbn [map fst]; [reflexivity|].
    intros Hs. now rewrite IH.
Qed.

Lemma dict_set_keys_absent k v d :
  dict_get k d = None -> map fst (dict_set k v d) = map fst d ++ [k].
Proof.
  induction d as [|[k0 v0] d IH]; cbn [dict_set dict_get map fst app]; [reflexivity|].
  destruct (String.eqb k0 k) eqn:E; [discriminate|].
  intros Hn. cbn [map fst]. now rewrite IH.
Qed.

Lemma dict_set_NoDup k v d : List.NoDup (map fst d) -> List.NoDup (map fst (dict_set k v d)).
Proof.
  intros Hd. destruct (dict_get k d) as [x|] eqn:E.
  - rewrite dict_set_keys_present by (now exists x). exact Hd.
  - rewrite dict_set_keys_absent by exact E.
    apply List.NoDup_app; [exact Hd | repeat constructor; intros [] |].
    intros k' Hin [<-|[]]. now apply dict_get_None in E.
Qed.

(** Two dicts with the same keys, in the same order and without
    repetition, and the same value under every key, are the same. *)
Lemma dict_ext d1 : forall d2,
  List.NoDup (map fst d1) ->
  map fst d1 = map fst d2 ->
  (forall k, dict_get k d1 = dict_get k d2) ->
  d1 = d2.
Proof.
  induction d1 as [|[k1 v1] d1 IH]; intros [|[k2 v2] d2] Hnd Hkeys Hget;
    try discriminate; [reflexivity|].
  cbn [map fst] in Hkeys. injection Hkeys as <- Hkeys.
  apply List.NoDup_cons_iff in Hnd. destruct Hnd as [Hk1 Hnd].
  pose proof (Hget k1) as Hhead. cbn [dict_get] in Hhead.
  rewrite String.eqb_refl in Hhead. injection Hhead as <-.
  f_equal. apply IH; [exact Hnd | exact Hkeys |].
  intros k. destruct (String.eqb k1 k) eqn:E.
  - apply String.eqb_eq in E. subst k.
    transitivity (@None V); [|symmetry]; apply dict_get_None; [exact Hk1|].
    now rewrite <- Hkeys.
  - specialize (Hget k). cbn [dict_get] in Hget. now rewrite E in Hget.
Qed.

Lemma dict_sets_cons k v ops d :
  dict_sets ((k, v) :: ops) d = dict_sets ops (dict_set k v d).
Proof. reflexivity. Qed.

Lemma dict_sets_app ops1 ops2 d :
  dict_sets (ops1 ++ ops2) d = dict_sets ops2 (dict_sets ops1 d).
Proof. apply fold_left_app. Qed.

Lemma dict_sets_get k ops : forall d,
  dict_get k (dict_sets ops d)
  = match last_set k ops with
    | Some v => Some v
    | None => dict_get k d
    end.
Proof.
  induction ops as [|[k0 v0] ops IH]; intros d; [reflexivity|].
  rewrite dict_sets_cons, IH. cbn [last_set].
  destruct (last_set k ops); [reflexivity|].
  destruct (String.eqb k0 k) eqn:E.
  - apply String.eqb_eq in E. subst k0. apply dict_get_set_eq.
  - apply String.eqb_neq in E. now apply dict_get_set_ne.
Qed.

Lemma last_set_In k v ops : In (k, v) ops -> is_Some (last_set k ops).
Proof.
  induction ops as [|[k0 v0] ops IH]; [intros []|].
  intros [[= -> ->]|Hin]; cbn [last_set].
  - destruct (last_set k ops); [now eexists|]. rewrite String.eqb_refl. now eexists.
  - destruct (IH Hin) as [x ->]. now eexists.
Qed.

Lemma dict_sets_NoDup ops : forall d,
  List.NoDup (map fst d) -> List.NoDup (map fst (dict_sets ops d)).
Proof.
  induction ops as [|[k v] ops IH]; intros d Hd; [exact Hd|].
  rewrite dict_sets_cons. apply IH. now apply dict_set_NoDup.
Qed.

Lemma dict_sets_keys_present ops : forall d,
  (forall k v, In (k, v) ops -> is_Some (dict_get k d)) ->
  map fst (dict_sets ops d) = map fst d.
Proof.
  induction ops as [|[k v] ops IH]; intros d Hall; [reflexivity|].
  rewrite dict_sets_cons, IH.
  - apply dict_set_keys_present. apply (Hall k v). now left.
  - intros k' v' Hin. destruct (String.eqb k k') eqn:E.
    + apply String.eqb_eq in E. subst k'. rewrite dict_get_set_eq. now eexists.
    + apply String.eqb_neq in E. rewrite dict_get_set_ne by exact E.
      apply (Hall k' v'). now right.
Qed.

(** Writing the same entries a second time changes nothing. *)
Lemma dict_sets_twice ops : dict_sets ops (dict_sets ops []) = dict_sets ops [].
Proof.
  apply dict_ext.
  - apply dict_sets_NoDup, dict_sets_NoDup. constructor.
  - apply dict_sets_keys_present. intros k v Hin.
    rewrite dict_sets_get. destruct (last_set_In k v ops Hin) as [x ->]. now eexists.
  - intros k. rewrite !dict_sets_get. now destruct (last_set k ops).
Qed.

End Dict.

Section Refresh.
Context {W : Type} `{Os W}.

Lemma build_desktop_cache_sets home (w : W) cache :
  _build_desktop_cache home w cache = dict_sets (desktop_ops home w) cache.
Proof.
  unfold _build_desktop_cache, desktop_ops.
  revert cache. induction (desktop_dirs home) as [|desktop_dir dirs IH]; intros cache;
    [reflexivity|].
  cbn [fold_left flat_map]. rewrite dict_sets_app, IH. f_equal.
  destruct (path_exists desktop_dir w); cbn [negb]; [|reflexivity].
  destruct (os_listdir desktop_dir w) as [filenames|e]; [|reflexivity].
  revert cache. induction filenames as [|fname filenames IHf]; intros cache;
    [reflexivity|].
  cbn [fold_left omap list_omap]. rewrite IHf.
  destruct (PyStr.endswith fname ".desktop"); [|reflexivity].
  destruct (_parse_desktop_file _ w); reflexivity.
Qed.

Lemma build_desktop_cache_twice home (w : W) :
  _build_desktop_cache home w (_build_desktop_cache home w [])
  = _build_desktop_cache home w [].
Proof. rewrite !build_desktop_cache_sets. apply dict_sets_twice. Qed.

(** X24: [refresh_cache] forgets the memo, touches nothing and leaves
    the resolver uninitialized, so that the next lookup reads the
    desktop files once more; on the same files that lookup answers as
    the lookup of a new resolver does, and leaves the same state. *)
Theorem refresh_cache_starts_afresh home self package_name (w : W) :
  exists self1,
    refresh_cache home self w = (Ok self1, w, [])
    /\ name_cache self1 = ∅
    /\ _initialized self1 = false
    /\ get_app_name home self1 package_name w = get_app_name home new package_name w.
Proof.
  eexists. split; [reflexivity|]. split; [reflexivity|]. split; [reflexivity|].
  unfold get_app_name, _ensure_initialized. cbn [_initialized new desktop_cache name_cache].
  unfold_monad. now rewrite build_desktop_cache_twice.
Qed.

End Refresh.
End RefreshExtra.

(** ** The window: what the callers make of the core *)

Module WindowExtra.
Import Py Scanner ScannerQueries MainWindow CleanerSpec InventorySpec ForceRemoveSpec.
Import CleanerProps CleanProps ScannerProps ScanAllProps InventoryTheorems.
Import ForceRemoveProps StrFacts ScannerExtra UninstallExtra ExtraSpec ExtraSamples.

Lemma filter_filter {A} (f g : A -> bool) l :
  List.filter f (List.filter g l) = List.filter (fun x => g x && f x) l.
Proof.
  induction l as [|x l IH]; [reflexivity|].
  cbn [List.filter]. destruct (g x); cbn [List.filter andb]; now rewrite IH.
Qed.

Lemma filter_loop_filter search_text source_text packages : forall filtered,
  filter_loop search_text source_text packages filtered
  = filtered
    ++ List.filter
         (fun package =>
            (String.eqb source_text "全部来源"
             || String.eqb (PackageSource_value (source package)) source_text)
            && (String.eqb search_text ""
                || PyStr.contains search_text (PyStr.lower (name package))
                || PyStr.contains search_text (PyStr.lower (display_name package))))
         packages.
Proof.
  induction packages as [|package rest IH]; intros filtered;
    [cbn; now rewrite app_nil_r|].
  cbn [filter_loop List.filter].
  destruct (String.eqb source_text "全部来源"),
           (String.eqb (PackageSource_value (source package)) source_text),
           (String.eqb search_text ""),
           (PyStr.contains search_text (PyStr.lower (name package))),
           (PyStr.contains search_text (PyStr.lower (display_name package)));
    cbn [negb andb orb]; rewrite IH; try reflexivity;
    now rewrite <- app_assoc.
Qed.

Lemma source_value_eqb s s' :
  String.eqb (PackageSource_value s) (PackageSource_value s') = PackageSource_eqb s s'.
Proof. destruct s, s'; reflexivity. Qed.

Lemma source_value_not_all s : String.eqb (PackageSource_value s) "全部来源" = false.
Proof. destruct s; reflexivity. Qed.

Lemma contains_nonempty_or k s :
  String.eqb k "" || PyStr.contains k s = PyStr.contains k s.
Proof.
  destruct (String.eqb k "") eqn:E; [|reflexivity].
  apply String.eqb_eq in E. subst k. now rewrite contains_empty.
Qed.

(** X25: the filter of the window is the search of the scanner put
    after its filter by source: with a source chosen it shows
    [search] of [filter_by_source], and with all sources it shows
    [search] of the whole list. *)
Theorem filter_packages_is_search packages search_input s :
  _filter_packages packages search_input (PackageSource_value s)
  = search (filter_by_source packages s) search_input
  /\ _filter_packages packages search_input "全部来源"
     = search packages search_input.
Proof.
  unfold _filter_packages, search, filter_by_source.
  rewrite !filter_loop_filter, filter_filter. cbn [app]. split.
  - apply List.filter_ext. intros package.
    rewrite source_value_not_all, source_value_eqb. cbn [orb].
    now rewrite contains_nonempty_or.
  - apply List.filter_ext. intros package.
    change (String.eqb "全部来源" "全部来源") with true. cbn [orb andb].
    now rewrite contains_nonempty_or.
Qed.

Lemma throttled_percents t : forall counter,
  progress_percents (throttled counter t) = passed_on counter (progress_percents t).
Proof.
  induction t as [|e t IH]; intros counter; [reflexivity|].
  destruct e as [msg pct|msg|p|p|argv]; cbn [throttled];
    try (unfold progress_percents in *; cbn [omap list_omap]; now rewrite IH).
  unfold progress_cb.
  unfold progress_percents in *. rewrite omap_app. cbn [omap list_omap passed_on].
  rewrite IH.
  destruct ((S counter mod 10 =? 0)%nat || (pct =? 100)%Z); reflexivity.
Qed.

Section Window.
Context {W : Type} `{Os W}.
Variable _format_size : Z -> string.
Variable _timestamp_to_date : Z -> string.
Variable percent_of : nat -> nat -> Z.

(** X26: of the nine progress reports of a full scan the scan thread
    passes on only the last one, at 100: its counter never reaches ten,
    so that the window shows no intermediate progress. *)
Theorem scan_thread_forwards_final_report home (w : W) :
  length (progress_percents
            (snd (scan_all _format_size _timestamp_to_date true home None w))) = 9%nat
  /\ progress_percents (snd (ScanThread_run _format_size _timestamp_to_date home w))
     = [100%Z].
Proof.
  pose proof (scan_all_spec _format_size _timestamp_to_date true home None w) as Hs.
  cbv zeta in Hs. unfold ScanThread_run.
  destruct (scanned (In_sources APT (requested None)) _ w) as [l1 w1].
  destruct (scanned (In_sources SNAP (requested None)) _ w1) as [l2 w2].
  destruct (scanned (In_sources FLATPAK (requested None)) _ w2) as [l3 w3].
  destruct Hs as (t & -> & Hp). cbn [snd].
  rewrite throttled_percents, Hp. split; reflexivity.
Qed.




Lemma removal_events files (w : W) t n w' :
  removal files w t n w' -> Forall (fun e => ~ is_purge e) t.
Proof.
  induction 1; repeat constructor; try assumption; intros [rest [=]].
Qed.

Lemma force_remove_without_purge package (w : W) :
  exists ok msg w' t,
    Uninstaller.force_remove_package package w = (Ok (ok, msg), w', t)
    /\ Forall (fun e => ~ is_purge e) t.
Proof.
  unfold Uninstaller.force_remove_package.
  destruct (negb (PackageSource_eqb (source package) APT)).
  { do 4 eexists. split; [reflexivity | constructor]. }
  unfold_monad.
  destruct (subprocess_run ["dpkg"; "-L"; name package] 30 w) as [[result|e] w1].
  - destruct (returncode result =? 0)%Z.
    + destruct (force_remove_loop_removal
                  (PyStr.split (PyStr.strip (stdout result)) "010") 0%nat w1)
        as (t & n & w2 & E & Hrem).
      unfold Uninstaller.force_remove_loop in E |- *. rewrite E. cbv beta iota zeta.
      apply removal_events in Hrem.
      destruct (subprocess_run _ 30 w2) as [[r|e] w3];
        do 4 eexists; (split; [reflexivity|]);
        cbn [app]; repeat (apply List.Forall_cons; [intros [rest [=]]|]);
        rewrite ?Forall_app; repeat split; try exact Hrem;
        repeat constructor; intros [rest [=]].
    + destruct (subprocess_run _ 30 w1) as [[r|e] w3];
        do 4 eexists; (split; [reflexivity|]);
        cbn [app]; repeat constructor; intros [rest [=]].
  - do 4 eexists. split; [reflexivity|].
    cbn [app]. repeat constructor; intros [rest [=]].
Qed.

Lemma task_loop_spec (P : event -> Prop) label (act : Package -> M (bool * string))
    total selected :
  (forall m p, P (Progress m p)) ->
  (forall m, P (Error m)) ->
  (forall pkg (w : W), exists ok msg w' t,
      act pkg w = (Ok (ok, msg), w', t) /\ Forall P t) ->
  forall i (w : W),
    exists w' t,
      task_loop percent_of label act total i selected w = (Ok tt, w', t)
      /\ progress_messages t
         = map (fun pkg => label +:+ display_name pkg +:+ "...") selected
      /\ (length (error_reports t) <= length selected)%nat
      /\ Forall P t.
Proof.
  intros HPp HPe Hact. induction selected as [|pkg rest IH]; intros i w.
  - exists w, []. cbn. repeat split; auto.
  - cbn [task_loop]. unfold without_callbacks. unfold_monad.
    destruct (Hact pkg w) as (ok & msg & w1 & t1 & -> & Ht1).
    destruct (IH (S i) w1) as (w2 & t2 & E & Hm & He & Ht2).
    set (quiet := List.filter _ t1).
    assert (Hquiet : progress_messages quiet = [] /\ error_reports quiet = []
                     /\ Forall P quiet).
    { subst quiet. clear -Ht1. induction Ht1 as [|e t He _ (IH1 & IH2 & IH3)];
        [repeat split; constructor|].
      destruct e; cbn [List.filter]; repeat split; auto;
        now constructor. }
    destruct Hquiet as (Hq1 & Hq2 & Hq3).
    destruct ok; cbn [negb]; rewrite E; do 2 eexists; (split; [reflexivity|]);
      unfold progress_messages, error_reports in *;
      rewrite ?omap_app, ?Hq1, ?Hq2, ?Hm; cbn [omap list_omap app map length];
      rewrite ?length_app; cbn [length];
      (split; [reflexivity|]); (split; [lia|]);
      repeat first [ apply List.Forall_cons; [auto|] | apply Forall_app; split
                   | assumption | apply List.Forall_nil ].
Qed.

(** X28: the two removal tasks of the window never raise and end with
    their fixed message; the uninstaller they call has no callbacks, so
    that all the user is told is one line per package, in order, and
    at most one error per package. *)
Theorem removal_tasks_complete selected (w : W) :
  (exists w' t,
     uninstall_task percent_of selected w = (Ok "卸载完成", w', t)
     /\ progress_messages t
        = map (fun pkg => "正在卸载 " +:+ display_name pkg +:+ "...") selected
     /\ (length (error_reports t) <= length selected)%nat)
  /\ (exists w' t,
        force_uninstall_task percent_of selected w = (Ok "强制卸载完成", w', t)
        /\ progress_messages t
           = map (fun pkg => "正在强制卸载 " +:+ display_name pkg +:+ "...") selected
        /\ (length (error_reports t) <= length selected)%nat).
Proof.
  split.
  - unfold uninstall_task, bind.
    destruct (task_loop_spec (fun _ => True) "正在卸载 "
                (fun pkg => Uninstall.uninstall pkg false) (length selected) selected)
      with (i := 0%nat) (w := w) as (w' & t & -> & Hm & He & _); auto.
    { intros pkg w0.
      destruct (uninstall_without_purge pkg false w0) as (ok & msg & w1 & t1 & E & _);
        [now left|].
      exists ok, msg, w1, t1. split; [exact E|]. now apply List.Forall_forall. }
    exists w', t. split; [unfold ret; now rewrite app_nil_r|]. split; assumption.
  - unfold force_uninstall_task, bind.
    destruct (task_loop_spec (fun _ => True) "正在强制卸载 "
                (fun pkg => if PackageSource_eqb (source pkg) APT
                            then Uninstaller.force_remove_package pkg
                            else Uninstall.uninstall pkg true)
                (length selected) selected)
      with (i := 0%nat) (w := w) as (w' & t & -> & Hm & He & _); auto.
    { intros pkg w0. destruct (PackageSource_eqb (source pkg) APT) eqn:Es.
      - destruct (force_remove_without_purge pkg w0) as (ok & msg & w1 & t1 & E & _).
        exists ok, msg, w1, t1. split; [exact E|]. now apply List.Forall_forall.
      - destruct (uninstall_without_purge pkg true w0) as (ok & msg & w1 & t1 & E & _).
        { right. intros Hs. rewrite Hs in Es. discriminate. }
        exists ok, msg, w1, t1. split; [exact E|]. now apply List.Forall_forall. }
    exists w', t. split; [unfold ret; now rewrite app_nil_r|]. split; assumption.
Qed.

(** X29: from the window no package is ever purged: the ordinary task
    removes without [force], and the forced task passes [force] only
    for packages that are not of APT, where it changes nothing; so
    that [apt remove --purge] is never among the commands. *)
Theorem window_never_purges selected (w : W) :
  Forall (fun e => ~ is_purge e) (snd (uninstall_task percent_of selected w))
  /\ Forall (fun e => ~ is_purge e) (snd (force_uninstall_task percent_of selected w)).
Proof.
  split.
  - unfold uninstall_task, bind.
    destruct (task_loop_spec (fun e => ~ is_purge e) "正在卸载 "
                (fun pkg => Uninstall.uninstall pkg false) (length selected) selected)
      with (i := 0%nat) (w := w) as (w' & t & -> & _ & _ & Ht);
      try (intros; intros [rest [=]]).
    { intros pkg w0. apply uninstall_without_purge. now left. }
    unfold ret. cbn [snd]. now rewrite app_nil_r.
  - unfold force_uninstall_task, bind.
    destruct (task_loop_spec (fun e => ~ is_purge e) "正在强制卸载 "
                (fun pkg => if PackageSource_eqb (source pkg) APT
                            then Uninstaller.force_remove_package pkg
                            else Uninstall.uninstall pkg true)
                (length selected) selected)
      with (i := 0%nat) (w := w) as (w' & t & -> & _ & _ & Ht);
      try (intros; intros [rest [=]]).
    { intros pkg w0. destruct (PackageSource_eqb (source pkg) APT) eqn:Es.
      - apply force_remove_without_purge.
      - apply uninstall_without_purge. right. intros Hs. rewrite Hs in Es. discriminate. }
    unfold ret. cbn [snd]. now rewrite app_nil_r.
Qed.

End Window.
End WindowExtra.
